(** * Consensus-to-execution coordination and subnet participation

    A shallow embedding of two source files of the beacon node:

    - [beacon-chain/blockchain/execution_engine.go]: the calls that drive the
      execution engine ([notifyForkchoiceUpdate], [notifyNewPayload],
      [pruneInvalidBlock], [removeInvalidBlockAndState]) and the payload
      attribute of a proposal ([getPayloadAttribute]);
    - [beacon-chain/p2p/subnets.go]: the deterministic subnet assignment
      ([computeSubscribedSubnets]) and its expiration
      ([computeSubscriptionExpirationTime]), the subnets of a record
      ([attSubnets], [syncSubnets]) and the peer filters built on them, the
      record and metadata updates ([updateSubnetRecordWithMetadata],
      [updateSubnetRecordWithMetadataV2]), the discovery loop
      ([FindPeersWithSubnet]) and the subnet locks ([subnetLocker]).

    Stateful code is written in a state monad over the service; a Go panic and
    an exhausted recursion or loop budget are outcomes of their own, and the
    state reached so far is kept in both.  Collaborators that live outside the
    two files (fork-choice store, execution engine, databases, discovery,
    pubsub) are interfaces: type classes over an abstract world.  A helper of
    the repository that is not among the sources and whose result a property
    depends on is modelled from the spec or written by its contract in its
    package, and its comment says which. *)

From Stdlib Require Import ZArith NArith List String Bool Lia Sorted.
From Stdlib.Strings Require Import Byte.
From stdpp Require Import gmap strings list.
Import ListNotations.

(** ** Bytes and fixed-width integers *)

Abbreviation bytes := (list byte).

#[global] Instance byte_eq_decision : EqDecision byte := Byte.byte_eq_dec.
#[global] Instance byte_countable : Countable byte :=
  inj_countable Byte.to_N Byte.of_N Byte.of_to_N.

(** Go's [uint64]: a natural number below [2^64]; sums wrap around. *)
Definition uint64_modulus : N := (2 ^ 64)%N.
Definition uint64_add (a b : N) : N := ((a + b) mod uint64_modulus)%N.
Definition uint64_sub (a b : N) : N :=
  ((a mod uint64_modulus + uint64_modulus - b mod uint64_modulus) mod uint64_modulus)%N.

(** The zero value of [[32]byte]. *)
Definition zeroBytes32 : bytes := repeat x00 32.

(** Modelled from the spec: [bytesutil.ToBytes32] is not among the sources.
    The spec's hashes and roots are 32-byte values; the conversion of a slice
    to [[32]byte] keeps a slice of 32 bytes as it is, cuts a longer one and
    fills a shorter one with zero bytes. *)
Definition ToBytes32 (x : bytes) : bytes :=
  firstn 32 x ++ repeat x00 (32 - length x).

(** ** Outcomes and the service monad *)

Inductive outcome (A : Type) : Type :=
| Returns (a : A)
| Panics (why : string)
| OutOfFuel.
Arguments Returns {A} a.
Arguments Panics {A} why.
Arguments OutOfFuel {A}.

Definition M (S A : Type) : Type := S -> outcome A * S.

Definition ret {S A : Type} (a : A) : M S A := fun s => (Returns a, s).

Definition bind {S A B : Type} (m : M S A) (k : A -> M S B) : M S B :=
  fun s =>
    match m s with
    | (Returns a, s') => k a s'
    | (Panics why, s') => (Panics why, s')
    | (OutOfFuel, s') => (OutOfFuel, s')
    end.

Definition panic {S A : Type} (why : string) : M S A := fun s => (Panics why, s).
Definition out_of_fuel {S A : Type} : M S A := fun s => (OutOfFuel, s).

Declare Scope go_scope.
Delimit Scope go_scope with go.
Notation "'let*' x ':=' c 'in' k" := (bind c (fun x => k))
  (at level 10, x pattern, c at level 100, k at level 200, only parsing) : go_scope.
Notation "'run' c 'in' k" := (bind c (fun _ => k))
  (at level 10, c at level 100, k at level 200, only parsing) : go_scope.

(** Go's [(value, error)] pair where the value is read only when the error is
    nil. *)
Inductive result (E A : Type) : Type :=
| Ok (a : A)
| Err (e : E).
Arguments Ok {E A} a.
Arguments Err {E A} e.

(** ** The blockchain package *)

Module blockchain.

(** Package-level error values; Go compares them by identity. *)
Inductive sentinel : Type :=
| ErrAcceptedSyncingPayloadStatus
| ErrInvalidPayloadStatus
| ErrInvalidPayload
| ErrUndefinedExecutionEngineError.

#[global] Instance sentinel_eq_decision : EqDecision sentinel.
Proof. solve_decision. Defined.

(** [invalidBlock] (declared in the package's [error.go]); the fields are the
    ones the struct literals of [execution_engine.go] name. *)
Record invalidBlockOf (E : Type) : Type := {
  invalidAncestorRoots : list bytes;
  error_ : E;
  root : bytes;
  lastValidHash : bytes
}.
Arguments invalidAncestorRoots {E} _.
Arguments error_ {E} _.
Arguments root {E} _.
Arguments lastValidHash {E} _.

#[warnings="-register-all"]
Inductive error : Type :=
| sentinelError (s : sentinel)
| errorsNew (msg : string)
| errorsWrap (cause : error) (msg : string)
| errorsWithMessage (cause : error) (textOf : error)
| invalidBlockError (ib : invalidBlockOf error).

Abbreviation invalidBlock := (invalidBlockOf error).

(** [errors.Is err target] for a package-level target: the chain of causes is
    followed through [errors.Wrap] and [errors.WithMessage]; [invalidBlock]
    embeds an [error] and declares no [Unwrap], so the walk stops there. *)
Fixpoint errors_Is (err : error) (target : sentinel) : bool :=
  match err with
  | sentinelError s => bool_decide (s = target)
  | errorsWrap cause _ => errors_Is cause target
  | errorsWithMessage cause _ => errors_Is cause target
  | errorsNew _ => false
  | invalidBlockError _ => false
  end.

(** Whether an error value is an [invalidBlock]. *)
Definition carriesInvalidBlock (e : error) : option invalidBlock :=
  match e with
  | invalidBlockError ib => Some ib
  | _ => None
  end.

(** [bytesutil.PadTo] (package [encoding/bytesutil]) is not among the
    sources.  It is written here by its contract in that package: a slice
    shorter than [size] is extended with zero bytes up to [size], and a slice
    that is at least as long is returned as it is. *)
Definition PadTo (b : bytes) (size : nat) : bytes :=
  if (size <=? length b)%nat then b else b ++ repeat x00 (size - length b).

(** [var defaultLatestValidHash = bytesutil.PadTo([]byte{0xff}, 32)]: the
    one-byte slice [0xff], padded to 32 bytes. *)
Definition defaultLatestValidHash : bytes := PadTo [xff] 32.

Record ExecutionData : Type := {
  BlockHash : bytes;
  ParentHash : bytes
}.

Record ForkchoiceState : Type := {
  HeadBlockHash : bytes;
  SafeBlockHash : bytes;
  FinalizedBlockHash : bytes
}.

(** The types the two functions only pass on, and the world the collaborators
    live in. *)
Class Carrier : Type := {
  Attributer : Type;
  BeaconState : Type;
  ExecutionRequests : Type;
  World : Type
}.

Section Types.
Context {carrier : Carrier}.

(** [interfaces.ReadOnlyBeaconBlockBody], by the methods called on it. *)
Record BeaconBlockBody : Type := {
  body_IsNil : bool;
  Execution : result error ExecutionData;
  BlobKzgCommitments : result error (list bytes);
  body_ExecutionRequests : result error ExecutionRequests
}.

(** [interfaces.ReadOnlyBeaconBlock]. *)
Record BeaconBlock : Type := {
  blk_IsNil : bool;
  Body : BeaconBlockBody;
  Slot : N;
  ParentRoot : bytes;
  blk_Version : Z
}.

(** [interfaces.ReadOnlySignedBeaconBlock]; [Block] may answer a nil
    interface. *)
Record SignedBeaconBlock : Type := {
  sb_IsNil : bool;
  Block : option BeaconBlock;
  Version : Z
}.

Record fcuConfig : Type := {
  headState : BeaconState;
  headBlock : option SignedBeaconBlock;
  headRoot : bytes;
  attributes : option Attributer
}.

(** What the service does that an observer can see, in order. *)
Inductive Event : Type :=
| Inc (counter : string)
| Log (level msg : string)
| CallForkchoiceUpdated (fcs : ForkchoiceState) (attrs : Attributer)
| CallNewPayload (payload : ExecutionData) (versionedHashes : list bytes)
    (parentRoot : option bytes) (requests : option ExecutionRequests)
| CallSetOptimisticToValid (root : bytes)
| CallSetOptimisticToInvalid (root parentRoot lvh : bytes)
| CallHead
| CallDeleteStateFromCaches (root : bytes)
| CallDeleteBlock (root : bytes)
| CallBlobRemove (root : bytes)
| CallGetBlock (root : bytes)
| CallStateByRoot (root : bytes)
| CallSaveHead (root : bytes)
| CallPayloadIDCacheSet (slot : N) (root : bytes) (pid : bytes).

(** [Service]: the collaborators' world, the payload-id cache and the trace. *)
Record Service : Type := {
  world : World;
  PayloadIDCache : gmap (N * bytes) bytes;
  trace : list Event
}.

End Types.

(** *** Collaborator interfaces *)

(** [payloadattribute]: the two operations used on an attribute. *)
Class PayloadAttribute {carrier : Carrier} : Type := {
  EmptyWithVersion : Z -> Attributer;
  IsEmpty : Attributer -> bool
}.

(** [runtime/version] and [config/features]. *)
Class Globals : Type := {
  version_Bellatrix : Z;
  version_Deneb : Z;
  version_Electra : Z;
  PrepareAllPayloads : bool
}.

(** Helpers of [core/blocks], [consensus-types/blocks] and
    [consensus-types/primitives]. *)
Class BlockHelpers {carrier : Carrier} : Type := {
  IsExecutionBlock : BeaconBlockBody -> result error bool;
  IsExecutionEnabledUsingHeader : ExecutionData -> BeaconBlockBody -> result error bool;
  BeaconBlockIsNil : SignedBeaconBlock -> option error;
  ConvertKzgCommitmentToVersionedHash : bytes -> bytes
}.

(** [s.cfg.ForkChoiceStore]. *)
Class ForkChoicer {carrier : Carrier} : Type := {
  FinalizedPayloadBlockHash : World -> bytes;
  UnrealizedJustifiedPayloadBlockHash : World -> bytes;
  SetOptimisticToValid : bytes -> World -> option error * World;
  SetOptimisticToInvalid : bytes -> bytes -> bytes -> World -> result error (list bytes) * World;
  Head : World -> result error bytes * World
}.

(** [s.cfg.ExecutionEngineCaller]. *)
Class EngineCaller {carrier : Carrier} : Type := {
  ForkchoiceUpdated :
    ForkchoiceState -> Attributer -> World -> (option bytes * bytes * option error) * World;
  NewPayload :
    ExecutionData -> list bytes -> option bytes -> option ExecutionRequests ->
    World -> (bytes * option error) * World
}.

(** [s.cfg.StateGen], [s.cfg.BeaconDB], [s.blobStorage] and the service's own
    [getBlock], [saveHead] and [CurrentSlot]. *)
Class Stores {carrier : Carrier} : Type := {
  StateByRoot : bytes -> World -> result error BeaconState * World;
  DeleteStateFromCaches : bytes -> World -> option error * World;
  DeleteBlock : bytes -> World -> option error * World;
  blobStorage_Remove : bytes -> World -> option error * World;
  getBlock : bytes -> World -> result error (option SignedBeaconBlock) * World;
  saveHead : bytes -> option SignedBeaconBlock -> BeaconState -> World -> option error * World;
  CurrentSlot : World -> N
}.

(** *** The functions of [execution_engine.go] *)

Section Service.
Context {carrier : Carrier} {attribute : PayloadAttribute} {globals : Globals}
  {helpers : BlockHelpers} {forkchoice : ForkChoicer} {engine : EngineCaller}
  {stores : Stores}.

Local Open Scope go_scope.

Definition emit (e : Event) : M Service unit :=
  fun s =>
    (Returns tt,
     {| world := world s; PayloadIDCache := PayloadIDCache s; trace := trace s ++ [e] |}).

(** A call to a collaborator: the call is recorded, then the collaborator
    answers and moves the world. *)
Definition call {A : Type} (e : Event) (op : World -> A * World) : M Service A :=
  fun s =>
    let '(a, w) := op (world s) in
    (Returns a,
     {| world := w; PayloadIDCache := PayloadIDCache s; trace := trace s ++ [e] |}).

(** A collaborator's getter. *)
Definition read {A : Type} (get : World -> A) : M Service A :=
  fun s => (Returns (get (world s)), s).

(** Modelled from the spec: [PayloadIDCache] (package [beacon-chain/cache]) is
    not among the sources.  The spec: "A mapping [(slot, head_root) ->
    payload_id].  Written when a forkchoice update with attributes returns a
    non-null id".  [Set] writes the entry. *)
Definition PayloadIDCache_Set (slot : N) (root : bytes) (pid : bytes) : M Service unit :=
  fun s =>
    (Returns tt,
     {| world := world s;
        PayloadIDCache := <[(slot, root) := pid]> (PayloadIDCache s);
        trace := trace s ++ [CallPayloadIDCacheSet slot root pid] |}).

(** [removeInvalidBlockAndState]. *)
Fixpoint removeInvalidBlockAndState (blkRoots : list bytes) : M Service (option error) :=
  match blkRoots with
  | [] => ret None
  | root :: rest =>
      let* e1 := call (CallDeleteStateFromCaches root) (DeleteStateFromCaches root) in
      match e1 with
      | Some err => ret (Some err)
      | None =>
          let* e2 := call (CallDeleteBlock root) (DeleteBlock root) in
          match e2 with
          | Some err => ret (Some err)
          | None =>
              let* e3 := call (CallBlobRemove root) (blobStorage_Remove root) in
              run (match e3 with
                  | Some _ => emit (Log "debug" "Could not remove blob from blob storage")
                  | None => ret tt
                  end) in
              removeInvalidBlockAndState rest
          end
      end
  end.

(** The [invalidBlock] that [notifyForkchoiceUpdate] returns: its
    [lastValidHash] is left at the zero value. *)
Definition fcuInvalidBlock (headRoot : bytes) (invalidRoots : list bytes) : error :=
  invalidBlockError
    {| invalidAncestorRoots := invalidRoots;
       error_ := sentinelError ErrInvalidPayload;
       root := headRoot;
       lastValidHash := zeroBytes32 |}.

(** The [ErrInvalidPayloadStatus] case of [notifyForkchoiceUpdate] (lines
    83-138); [self] is the function itself, for the call on the new head. *)
Definition notifyForkchoiceUpdate_invalid
    (self : fcuConfig -> M Service (option bytes * option error))
    (arg : fcuConfig) (headBlk : BeaconBlock) (attrs : Attributer)
    (lastValidHash : bytes) : M Service (option bytes * option error) :=
  run emit (Inc "forkchoiceUpdatedInvalidNodeCount") in
  let headRoot := headRoot arg in
  let lastValidHash :=
    if (length lastValidHash =? 0)%nat then defaultLatestValidHash else lastValidHash in
  let* inv := call (CallSetOptimisticToInvalid headRoot (ParentRoot headBlk) (ToBytes32 lastValidHash))
              (SetOptimisticToInvalid headRoot (ParentRoot headBlk) (ToBytes32 lastValidHash)) in
  match inv with
  | Err _ =>
      run emit (Log "error" "Could not set head root to invalid") in
      ret (None, None)
  | Ok invalidRoots =>
      let* rm := removeInvalidBlockAndState invalidRoots in
      match rm with
      | Some _ =>
          run emit (Log "error" "Could not remove invalid block and state") in
          ret (None, None)
      | None =>
          let* hd := call CallHead Head in
          match hd with
          | Err _ =>
              run emit (Log "warn" "Pruned invalid blocks, could not update head root") in
              ret (None, Some (fcuInvalidBlock headRoot invalidRoots))
          | Ok r =>
              let* gb := call (CallGetBlock r) (getBlock r) in
              match gb with
              | Err _ =>
                  run emit (Log "error" "Could not get head block") in
                  ret (None, None)
              | Ok b =>
                  let* gs := call (CallStateByRoot r) (StateByRoot r) in
                  match gs with
                  | Err _ =>
                      run emit (Log "error" "Could not get head state") in
                      ret (None, None)
                  | Ok st =>
                      let* rec := self {| headState := st; headRoot := r; headBlock := b;
                                     attributes := Some attrs |} in
                      match rec with
                      | (_, Some err) => ret (None, Some err)
                      | (pid, None) =>
                          let* sh := call (CallSaveHead r) (saveHead r b st) in
                          run (match sh with
                              | Some _ =>
                                  emit (Log "error" "could not save head after pruning invalid blocks")
                              | None => ret tt
                              end) in
                          run emit (Log "warn" "Pruned invalid blocks") in
                          ret (pid, Some (fcuInvalidBlock headRoot invalidRoots))
                      end
                  end
              end
          end
      end
  end.

(** The engine's answer without an error (lines 144-167). *)
Definition notifyForkchoiceUpdate_valid
    (arg : fcuConfig) (headBlk : BeaconBlock) (attrs : Attributer)
    (payloadID : option bytes) : M Service (option bytes * option error) :=
  run emit (Inc "forkchoiceUpdatedValidNodeCount") in
  let* sv := call (CallSetOptimisticToValid (headRoot arg)) (SetOptimisticToValid (headRoot arg)) in
  match sv with
  | Some _ =>
      run emit (Log "error" "Could not set head root to valid") in
      ret (None, None)
  | None =>
      let hasAttr := negb (IsEmpty attrs) in
      let* cur := read CurrentSlot in
      let nextSlot := uint64_add cur 1 in
      run (match hasAttr, payloadID with
           | true, Some pId =>
               run emit (Log "info" "Forkchoice updated with payload attributes for proposal") in
               PayloadIDCache_Set nextSlot (headRoot arg) pId
           | true, None =>
               if negb PrepareAllPayloads then
                 emit (Log "error" "Received nil payload ID on VALID engine response")
               else ret tt
           | false, _ => ret tt
           end) in
      ret (payloadID, None)
  end.

(** The body of [notifyForkchoiceUpdate]; [arg.attributes], which the code
    overwrites when it is nil, is the local [attrs] from there on. *)
Definition notifyForkchoiceUpdate_body
    (self : fcuConfig -> M Service (option bytes * option error))
    (arg : fcuConfig) : M Service (option bytes * option error) :=
  match headBlock arg with
  | None =>
      run emit (Log "error" "Head block is nil") in ret (None, None)
  | Some hb =>
      if sb_IsNil hb then
        run emit (Log "error" "Head block is nil") in ret (None, None)
      else
        match Block hb with
        | None =>
            run emit (Log "error" "Head block is nil") in ret (None, None)
        | Some headBlk =>
            if blk_IsNil headBlk || body_IsNil (Body headBlk) then
              run emit (Log "error" "Head block is nil") in ret (None, None)
            else
              match IsExecutionBlock (Body headBlk) with
              | Err _ =>
                  run emit (Log "error" "Could not determine if head block is execution block") in
                  ret (None, None)
              | Ok false => ret (None, None)
              | Ok true =>
                  match Execution (Body headBlk) with
                  | Err _ =>
                      run emit (Log "error" "Could not get execution payload for head block") in
                      ret (None, None)
                  | Ok headPayload =>
                      let* finalizedHash := read FinalizedPayloadBlockHash in
                      let* justifiedHash := read UnrealizedJustifiedPayloadBlockHash in
                      let fcs := {| HeadBlockHash := BlockHash headPayload;
                                    SafeBlockHash := justifiedHash;
                                    FinalizedBlockHash := finalizedHash |} in
                      let attrs :=
                        match attributes arg with
                        | None => EmptyWithVersion (blk_Version headBlk)
                        | Some a => a
                        end in
                      let* (payloadID, lastValidHash, err) :=
                        call (CallForkchoiceUpdated fcs attrs) (ForkchoiceUpdated fcs attrs) in
                      match err with
                      | Some e =>
                          if errors_Is e ErrAcceptedSyncingPayloadStatus then
                            run emit (Inc "forkchoiceUpdatedOptimisticNodeCount") in
                            run emit (Log "info" "Called fork choice updated with optimistic block") in
                            ret (payloadID, None)
                          else if errors_Is e ErrInvalidPayloadStatus then
                            notifyForkchoiceUpdate_invalid self arg headBlk attrs lastValidHash
                          else
                            run emit (Log "error" "ErrUndefinedExecutionEngineError") in
                            ret (None, None)
                      | None => notifyForkchoiceUpdate_valid arg headBlk attrs payloadID
                      end
                  end
              end
        end
  end.

(** [notifyForkchoiceUpdate]; the fuel bounds the depth of the calls on new
    heads, which the code does not bound. *)
Fixpoint notifyForkchoiceUpdate (fuel : nat) (arg : fcuConfig)
    : M Service (option bytes * option error) :=
  match fuel with
  | O => out_of_fuel
  | S fuel' => notifyForkchoiceUpdate_body (notifyForkchoiceUpdate fuel') arg
  end.

(** An [invalidBlock] literal that names only its [error]. *)
Definition invalidBlockOnly (err : error) : error :=
  invalidBlockError
    {| invalidAncestorRoots := []; error_ := err; root := zeroBytes32;
       lastValidHash := zeroBytes32 |}.

(** [kzgCommitmentsToVersionedHashes]. *)
Definition kzgCommitmentsToVersionedHashes (body : BeaconBlockBody) : result error (list bytes) :=
  match BlobKzgCommitments body with
  | Err err => Err (errorsWrap (invalidBlockOnly err) "could not get blob kzg commitments")
  | Ok commitments => Ok (map ConvertKzgCommitmentToVersionedHash commitments)
  end.

(** [notifyNewPayload]. *)
Definition notifyNewPayload (preStateVersion : Z) (preStateHeader : ExecutionData)
    (blk : option SignedBeaconBlock) : M Service (bool * option error) :=
  match blk with
  | None => ret (false, Some (errorsNew "signed beacon block can't be nil"))
  | Some blk =>
      if (preStateVersion <? version_Bellatrix)%Z then ret (true, None)
      else
        match BeaconBlockIsNil blk with
        | Some err => ret (false, Some err)
        | None =>
            match Block blk with
            | None => panic "nil pointer dereference"
            | Some block =>
                let body := Body block in
                match IsExecutionEnabledUsingHeader preStateHeader body with
                | Err err =>
                    ret (false, Some (errorsWrap (invalidBlockOnly err)
                                        "could not determine if execution is enabled"))
                | Ok false => ret (true, None)
                | Ok true =>
                    match Execution body with
                    | Err err =>
                        ret (false, Some (errorsWrap (invalidBlockOnly err)
                                            "could not get execution payload"))
                    | Ok payload =>
                        let deneb :=
                          if (version_Deneb <=? Version blk)%Z then
                            match kzgCommitmentsToVersionedHashes body with
                            | Err err =>
                                Err (errorsWrap err
                                       "could not get versioned hashes to feed the engine")
                            | Ok versionedHashes => Ok (versionedHashes, Some (ParentRoot block))
                            end
                          else Ok ([], None) in
                        match deneb with
                        | Err err => ret (false, Some err)
                        | Ok (versionedHashes, parentRoot) =>
                            let electra :=
                              if (version_Electra <=? Version blk)%Z then
                                match body_ExecutionRequests body with
                                | Err err => Err (errorsWrap err "could not get execution requests")
                                | Ok requests => Ok (Some requests)
                                end
                              else Ok None in
                            match electra with
                            | Err err => ret (false, Some err)
                            | Ok requests =>
                                let* (lastValidHash, err) :=
                                  call (CallNewPayload payload versionedHashes parentRoot requests)
                                       (NewPayload payload versionedHashes parentRoot requests) in
                                match err with
                                | None =>
                                    run emit (Inc "newPayloadValidNodeCount") in
                                    ret (true, None)
                                | Some e =>
                                    if errors_Is e ErrAcceptedSyncingPayloadStatus then
                                      run emit (Inc "newPayloadOptimisticNodeCount") in
                                      run emit (Log "info" "Called new payload with optimistic block") in
                                      ret (false, None)
                                    else if errors_Is e ErrInvalidPayloadStatus then
                                      ret (false, Some (invalidBlockError
                                             {| invalidAncestorRoots := [];
                                                error_ := sentinelError ErrInvalidPayload;
                                                root := zeroBytes32;
                                                lastValidHash := ToBytes32 lastValidHash |}))
                                    else
                                      ret (false, Some (errorsWithMessage
                                             (sentinelError ErrUndefinedExecutionEngineError) e))
                                end
                            end
                        end
                    end
                end
            end
        end
  end.

(** [pruneInvalidBlock]; the struct literal names no [root]. *)
Definition pruneInvalidBlock (root parentRoot lvh : bytes) : M Service (option error) :=
  run emit (Inc "newPayloadInvalidNodeCount") in
  let* inv := call (CallSetOptimisticToInvalid root parentRoot lvh)
                   (SetOptimisticToInvalid root parentRoot lvh) in
  match inv with
  | Err err => ret (Some err)
  | Ok invalidRoots =>
      let* rm := removeInvalidBlockAndState invalidRoots in
      match rm with
      | Some err => ret (Some err)
      | None =>
          run emit (Log "warn" "Pruned invalid blocks") in
          ret (Some (invalidBlockError
                 {| invalidAncestorRoots := invalidRoots;
                    error_ := sentinelError ErrInvalidPayload;
                    root := zeroBytes32;
                    lastValidHash := lvh |}))
      end
  end.

(** *** Reading a call *)

(** The head block of [arg] passes the nil checks, is an execution block and
    carries [headPayload]: the call reaches the engine. *)
Definition reachesEngine (arg : fcuConfig) (headBlk : BeaconBlock)
    (headPayload : ExecutionData) : Prop :=
  exists hb,
    headBlock arg = Some hb /\ sb_IsNil hb = false /\ Block hb = Some headBlk /\
    blk_IsNil headBlk = false /\ body_IsNil (Body headBlk) = false /\
    IsExecutionBlock (Body headBlk) = Ok true /\
    Execution (Body headBlk) = Ok headPayload.

(** The fork-choice view and the attributes the engine is called with. *)
Definition viewOf (w : World) (headPayload : ExecutionData) : ForkchoiceState :=
  {| HeadBlockHash := BlockHash headPayload;
     SafeBlockHash := UnrealizedJustifiedPayloadBlockHash w;
     FinalizedBlockHash := FinalizedPayloadBlockHash w |}.

Definition attributesOf (arg : fcuConfig) (headBlk : BeaconBlock) : Attributer :=
  match attributes arg with
  | None => EmptyWithVersion (blk_Version headBlk)
  | Some a => a
  end.

(** The service after collaborator calls [evs] that left the world at [w]. *)
Definition after (s : Service) (w : World) (evs : list Event) : Service :=
  {| world := w; PayloadIDCache := PayloadIDCache s; trace := trace s ++ evs |}.

(** A computation only adds to the trace. *)
Definition extendsTrace {A : Type} (m : M Service A) : Prop :=
  forall s, exists evs, trace (snd (m s)) = trace s ++ evs.

End Service.

(** *** Reading a trace *)

Section Reading.
Context {carrier : Carrier} {attribute : PayloadAttribute} {globals : Globals}
  {helpers : BlockHelpers} {forkchoice : ForkChoicer} {engine : EngineCaller}
  {stores : Stores}.

(** Whether an event is a call to a collaborator (and not a counter or a
    log line). *)
Definition isCall (e : Event) : bool :=
  match e with
  | Inc _ => false
  | Log _ _ => false
  | _ => true
  end.

(** The calls that remove the roots: for each root, in order, the state
    caches, the block store and the blob store. *)
Definition removalCalls (blkRoots : list bytes) : list Event :=
  flat_map (fun root => [CallDeleteStateFromCaches root; CallDeleteBlock root;
                         CallBlobRemove root]) blkRoots.

(** The signed block passes the checks of [notifyNewPayload] up to the
    payload: execution is enabled and [payload] is what the engine will see. *)
Definition payloadReachesEngine (preStateVersion : Z) (preStateHeader : ExecutionData)
    (blk : SignedBeaconBlock) (block : BeaconBlock) (payload : ExecutionData) : Prop :=
  (version_Bellatrix <= preStateVersion)%Z /\
  BeaconBlockIsNil blk = None /\
  Block blk = Some block /\
  IsExecutionEnabledUsingHeader preStateHeader (Body block) = Ok true /\
  Execution (Body block) = Ok payload.

(** The versioned hashes and the parent root that go with a block: none
    before Deneb; from Deneb on, one hash per blob commitment and the block's
    parent root. *)
Definition blobArguments (blk : SignedBeaconBlock) (block : BeaconBlock)
    (versionedHashes : list bytes) (parentRoot : option bytes) : Prop :=
  ((Version blk < version_Deneb)%Z /\ versionedHashes = [] /\ parentRoot = None) \/
  ((version_Deneb <= Version blk)%Z /\
   exists commitments,
     BlobKzgCommitments (Body block) = Ok commitments /\
     versionedHashes = map ConvertKzgCommitmentToVersionedHash commitments /\
     parentRoot = Some (ParentRoot block)).

(** The execution requests that go with a block: none before Electra. *)
Definition requestArguments (blk : SignedBeaconBlock) (block : BeaconBlock)
    (requests : option ExecutionRequests) : Prop :=
  ((Version blk < version_Electra)%Z /\ requests = None) \/
  ((version_Electra <= Version blk)%Z /\
   exists r, body_ExecutionRequests (Body block) = Ok r /\ requests = Some r).

End Reading.

(** *** [getPayloadAttribute] *)

(** The requests handed to [payloadattribute.New]: [enginev1.PayloadAttributes],
    [PayloadAttributesV2] and [PayloadAttributesV3], with the fields the
    struct literals set. *)
Inductive AttributesRequest (W : Type) : Type :=
| PayloadAttributes (Timestamp : N) (PrevRandao SuggestedFeeRecipient : bytes)
| PayloadAttributesV2 (Timestamp : N) (PrevRandao SuggestedFeeRecipient : bytes)
    (Withdrawals : W)
| PayloadAttributesV3 (Timestamp : N) (PrevRandao SuggestedFeeRecipient : bytes)
    (Withdrawals : W) (ParentBeaconBlockRoot : bytes).
Arguments PayloadAttributes {W} _ _ _.
Arguments PayloadAttributesV2 {W} _ _ _ _.
Arguments PayloadAttributesV3 {W} _ _ _ _ _.

Definition SuggestedFeeRecipient {W : Type} (req : AttributesRequest W) : bytes :=
  match req with
  | PayloadAttributes _ _ fee => fee
  | PayloadAttributesV2 _ _ fee _ => fee
  | PayloadAttributesV3 _ _ fee _ _ => fee
  end.

(** The beacon state's methods, the helpers of [time/slots], [core/helpers],
    [core/time] and [core/transition], the constructor of [payloadattribute],
    and the service's [trackedProposer] and [genesisTime], as
    [getPayloadAttribute] uses them.  [zeroTrackedValidator] is the zero value
    of [cache.TrackedValidator]. *)
Class AttributeHelpers {carrier : Carrier} : Type := {
  Withdrawals : Type;
  TrackedValidator : Type;
  Time : Type;
  version_Capella : Z;
  st_Version : BeaconState -> Z;
  st_Slot : BeaconState -> N;
  st_Copy : BeaconState -> BeaconState;
  ExpectedWithdrawals : BeaconState -> result error Withdrawals;
  slots_ToEpoch : N -> N;
  slots_ToTime : N -> N -> result error Time;
  time_Unix : Time -> Z;
  time_CurrentEpoch : BeaconState -> N;
  RandaoMix : BeaconState -> N -> result error bytes;
  ProcessSlotsUsingNextSlotCache : BeaconState -> bytes -> N -> result error BeaconState;
  payloadattribute_New : AttributesRequest Withdrawals -> result error Attributer;
  zeroTrackedValidator : TrackedValidator;
  FeeRecipient : TrackedValidator -> bytes;
  trackedProposer : World -> BeaconState -> N -> TrackedValidator * bool;
  genesisTime : World -> Time
}.

(** Go's conversion [uint64(x)] of an [int64]. *)
Definition uint64_of_int64 (x : Z) : N := Z.to_N (x mod Z.of_N uint64_modulus).

Section Attributes.
Context {carrier : Carrier} {attribute : PayloadAttribute} {globals : Globals}
  {attributeHelpers : AttributeHelpers}.

Local Open Scope go_scope.

Definition logError (msg : string) : M Service unit := emit (Log "error" msg).

(** [getPayloadAttribute] from the comment "Get previous randao" on: [st] is
    the state the slots were processed on, [val] the proposer found so far and
    [emptyAttri] the variable declared in the function's first line. *)
Definition getPayloadAttribute_build (emptyAttri : Attributer) (st : BeaconState)
    (slot : N) (headRoot : bytes) (val : TrackedValidator) : M Service Attributer :=
  match RandaoMix st (time_CurrentEpoch st) with
  | Err _ =>
      run logError "Could not get randao mix to get payload attribute" in
      ret emptyAttri
  | Ok prevRando =>
      let* genesis := read genesisTime in
      match slots_ToTime (uint64_of_int64 (time_Unix genesis)) slot with
      | Err _ =>
          run logError "Could not get timestamp to get payload attribute" in
          ret emptyAttri
      | Ok t =>
          let built (req : result error (AttributesRequest Withdrawals)) :=
            match req with
            | Err _ =>
                run logError "Could not get expected withdrawals to get payload attribute" in
                ret emptyAttri
            | Ok req =>
                match payloadattribute_New req with
                | Err _ =>
                    run logError "Could not get payload attribute" in
                    ret emptyAttri
                | Ok attr => ret attr
                end
            end in
          let version := st_Version st in
          if ((version =? version_Deneb) || (version =? version_Electra))%Z then
            built match ExpectedWithdrawals st with
                  | Err err => Err err
                  | Ok withdrawals =>
                      Ok (PayloadAttributesV3 (uint64_of_int64 (time_Unix t)) prevRando
                            (FeeRecipient val) withdrawals headRoot)
                  end
          else if (version =? version_Capella)%Z then
            built match ExpectedWithdrawals st with
                  | Err err => Err err
                  | Ok withdrawals =>
                      Ok (PayloadAttributesV2 (uint64_of_int64 (time_Unix t)) prevRando
                            (FeeRecipient val) withdrawals)
                  end
          else if (version =? version_Bellatrix)%Z then
            built (Ok (PayloadAttributes (uint64_of_int64 (time_Unix t)) prevRando
                         (FeeRecipient val)))
          else
            run logError "Could not get payload attribute due to unknown state version" in
            ret emptyAttri
      end
  end.

(** [getPayloadAttribute] from [st = st.Copy()] on. *)
Definition getPayloadAttribute_advance (emptyAttri : Attributer) (e stateEpoch : N)
    (st : BeaconState) (slot : N) (headRoot : bytes) (val : TrackedValidator)
    : M Service Attributer :=
  let st := st_Copy st in
  match (if (st_Slot st <? slot)%N
         then ProcessSlotsUsingNextSlotCache st headRoot slot
         else Ok st) with
  | Err _ =>
      run logError "Could not process slots to get payload attribute" in
      ret emptyAttri
  | Ok st =>
      if (stateEpoch <? e)%N then
        let emptyAttri' := EmptyWithVersion (st_Version st) in
        let* (val', ok) := read (fun w => trackedProposer w st slot) in
        if negb ok then ret emptyAttri'
        else getPayloadAttribute_build emptyAttri st slot headRoot val'
      else getPayloadAttribute_build emptyAttri st slot headRoot val
  end.

(** [getPayloadAttribute]. *)
Definition getPayloadAttribute (st : BeaconState) (slot : N) (headRoot : bytes)
    : M Service Attributer :=
  let emptyAttri := EmptyWithVersion (st_Version st) in
  let e := slots_ToEpoch slot in
  let stateEpoch := slots_ToEpoch (st_Slot st) in
  if (e =? stateEpoch)%N then
    let* (val, ok) := read (fun w => trackedProposer w st slot) in
    if negb ok then ret emptyAttri
    else getPayloadAttribute_advance emptyAttri e stateEpoch st slot headRoot val
  else getPayloadAttribute_advance emptyAttri e stateEpoch st slot headRoot zeroTrackedValidator.

(** The state [getPayloadAttribute] works on after its slot processing, when
    that succeeds. *)
Definition advancedState (st : BeaconState) (slot : N) (headRoot : bytes)
    : result error BeaconState :=
  if (st_Slot (st_Copy st) <? slot)%N
  then ProcessSlotsUsingNextSlotCache (st_Copy st) headRoot slot
  else Ok (st_Copy st).

End Attributes.

Section AttributeReading.
Context {carrier : Carrier} {attribute : PayloadAttribute} {globals : Globals}
  {attributeHelpers : AttributeHelpers}.

(** The request fits the state it was built on: its kind goes with the
    state's version, its withdrawals are the ones the state expects and its
    parent beacon block root is the head root. *)
Definition requestFits (st : BeaconState) (headRoot : bytes)
    (req : AttributesRequest Withdrawals) : Prop :=
  match req with
  | PayloadAttributes _ _ _ => st_Version st = version_Bellatrix
  | PayloadAttributesV2 _ _ _ withdrawals =>
      st_Version st = version_Capella /\ ExpectedWithdrawals st = Ok withdrawals
  | PayloadAttributesV3 _ _ _ withdrawals parentRoot =>
      (st_Version st = version_Deneb \/ st_Version st = version_Electra) /\
      ExpectedWithdrawals st = Ok withdrawals /\ parentRoot = headRoot
  end.

(** Where the proposer of a built attribute comes from: the tracked proposer
    of the given state [st] for a slot of the state's epoch, of the advanced
    state [st'] for a slot of a later epoch, and the zero value for a slot of
    an earlier epoch. *)
Definition proposerFound (w : World) (st st' : BeaconState) (slot : N)
    (val : TrackedValidator) : Prop :=
  (slots_ToEpoch slot = slots_ToEpoch (st_Slot st) /\
   trackedProposer w st slot = (val, true)) \/
  ((slots_ToEpoch (st_Slot st) < slots_ToEpoch slot)%N /\
   trackedProposer w st' slot = (val, true)) \/
  ((slots_ToEpoch slot < slots_ToEpoch (st_Slot st))%N /\ val = zeroTrackedValidator).

End AttributeReading.

End blockchain.

(** ** The p2p package *)

Module p2p.

(** Errors of [subnets.go]: [errors.New], [errors.Errorf] with its arguments,
    and whatever a collaborator answers. *)
Inductive formatArg : Type :=
| argString (s : string)
| argInt (n : Z).

Inductive error : Type :=
| errorsNew (msg : string)
| errorsErrorf (format : string) (args : list formatArg)
| collaboratorError (msg : string).

(** [params.BeaconConfig()], by the fields [subnets.go] reads; all [uint64]. *)
Record BeaconChainConfig : Type := {
  AttestationSubnetCount : N;
  SyncCommitteeSubnetCount : N;
  SubnetsPerNode : N;
  EpochsPerSubnetSubscription : N;
  NodeIdBits : N;
  AttestationSubnetPrefixBits : N
}.

(** [params.BeaconNetworkConfig()], [flags.Get()] and the topic constants of
    the package. *)
Record NetworkConfig : Type := {
  AttSubnetKey : string;
  SyncCommsSubnetKey : string;
  MinimumPeersInSubnetSearch : N;
  MaxDialIsActive : bool;
  MaxConcurrentDials : Z;
  GossipAttestationMessage : string;
  GossipSyncCommitteeMessage : string
}.

(** [bytesutil.Bytes8], [hash.Hash] and [helpers.ComputeShuffledIndex]. *)
Class Crypto : Type := {
  Bytes8 : N -> bytes;
  hash_Hash : bytes -> bytes;
  ComputeShuffledIndex : N -> N -> bytes -> bool -> result error N
}.

(** *** Deterministic assignment *)

(** A byte string read as a big-endian number. *)
Definition bigEndian (b : bytes) : N :=
  fold_left (fun acc x => (acc * 256 + Byte.to_N x)%N) b 0%N.

(** [uint256.NewInt(0).SetBytes(b)]: the last 32 bytes count. *)
Definition uint256_SetBytes (b : bytes) : N := (bigEndian b mod 2 ^ 256)%N.

(** [uint256]'s [Mod]: zero when the modulus is zero. *)
Definition uint256_Mod (x y : N) : N := if (y =? 0)%N then 0%N else (x mod y)%N.

(** [Uint64()]: the low 64 bits. *)
Definition Uint64 (x : N) : N := (x mod uint64_modulus)%N.

Section Assignment.
Context (cfg : BeaconChainConfig) {crypto : Crypto}.

(** [computeOffsetAndPrefix]. *)
Definition computeOffsetAndPrefix (nodeID : bytes) : N * N :=
  let num := uint256_SetBytes nodeID in
  let remBits := uint64_sub (NodeIdBits cfg) (AttestationSubnetPrefixBits cfg) in
  let nodeIdPrefix := Uint64 (N.shiftr num remBits) in
  let num := uint256_SetBytes nodeID in
  let nodeOffset := Uint64 (uint256_Mod num (EpochsPerSubnetSubscription cfg)) in
  (nodeOffset, nodeIdPrefix).

(** [computeSubscribedSubnet]; a division by zero panics. *)
Definition computeSubscribedSubnet (nodeID : bytes) (epoch index : N)
    : outcome (result error N) :=
  let '(nodeOffset, nodeIdPrefix) := computeOffsetAndPrefix nodeID in
  if (EpochsPerSubnetSubscription cfg =? 0)%N then Panics "integer divide by zero"
  else
    let seedInput := (uint64_add nodeOffset epoch / EpochsPerSubnetSubscription cfg)%N in
    let permSeed := hash_Hash (Bytes8 seedInput) in
    match ComputeShuffledIndex nodeIdPrefix
            (Uint64 (N.shiftl 1 (AttestationSubnetPrefixBits cfg))) permSeed true with
    | Err err => Returns (Err err)
    | Ok permutatedPrefix =>
        if (AttestationSubnetCount cfg =? 0)%N then Panics "integer divide by zero"
        else
          Returns (Ok (uint64_add (Uint64 permutatedPrefix) index mod AttestationSubnetCount cfg)%N)
    end.

(** The loop of [computeSubscribedSubnets]: [n] iterations are left, [i] is
    the index and [subs] the slice so far. *)
Fixpoint computeSubscribedSubnets_loop (nodeID : bytes) (epoch : N)
    (n : nat) (i : N) (subs : list N) : outcome (result error (list N)) :=
  match n with
  | O => Returns (Ok subs)
  | S n' =>
      match computeSubscribedSubnet nodeID epoch i with
      | Returns (Ok sub) => computeSubscribedSubnets_loop nodeID epoch n' (i + 1)%N (subs ++ [sub])
      | Returns (Err err) => Returns (Err err)
      | Panics why => Panics why
      | OutOfFuel => OutOfFuel
      end
  end.

(** [computeSubscribedSubnets]. *)
Definition computeSubscribedSubnets (nodeID : bytes) (epoch : N)
    : outcome (result error (list N)) :=
  let subnetsPerNode := SubnetsPerNode cfg in
  computeSubscribedSubnets_loop nodeID epoch (N.to_nat subnetsPerNode) 0%N [].

End Assignment.

(** *** Records, metadata and the service *)

(** [pb.MetaDataV0] and [pb.MetaDataV1], by the fields the struct literals
    name, and the two wrappers of [consensus-types/wrapper]. *)
Record MetaDataV0 : Type := {
  v0_SeqNumber : N;
  v0_Attnets : bytes
}.

Record MetaDataV1 : Type := {
  v1_SeqNumber : N;
  v1_Attnets : bytes;
  v1_Syncnets : bytes
}.

Inductive Metadata : Type :=
| WrappedMetadataV0 (m : MetaDataV0)
| WrappedMetadataV1 (m : MetaDataV1).

Definition SequenceNumber (md : Metadata) : N :=
  match md with
  | WrappedMetadataV0 m => v0_SeqNumber m
  | WrappedMetadataV1 m => v1_SeqNumber m
  end.

Definition AttnetsBitfield (md : Metadata) : bytes :=
  match md with
  | WrappedMetadataV0 m => v0_Attnets m
  | WrappedMetadataV1 m => v1_Attnets m
  end.

(** An ENR record: its entries by key, each in its raw bytes. *)
Abbreviation Record_ := (gmap string bytes).

Record Node : Type := {
  node_ID : bytes;
  node_Record : Record_
}.

(** The discovery listener, by its local node's record. *)
Record Listener : Type := {
  LocalNode : Record_
}.

(** The types of the network the service talks to. *)
Class Carrier : Type := {
  World : Type;
  AddrInfo : Type;
  PeerID : Type
}.

Section Types.
Context {carrier : Carrier}.

Inductive Event : Type :=
| CallRandomNodes
| CallIteratorClose
| CallListPeers (topic : string)
| CallReadNodes (n : Z)
| CallConnectWithPeer (info : AddrInfo)
| Log (level msg : string).

(** [Service]: a nil [dv5Listener] is discovery switched off. *)
Record Service : Type := {
  dv5Listener : option Listener;
  metaData : Metadata;
  world : World;
  trace : list Event
}.

End Types.

(** Discovery, pubsub, the caller's context and the helpers of the package
    that [subnets.go] calls. *)
Class Network {carrier : Carrier} : Type := {
  ProtocolSuffix : string;
  RandomNodes : World -> World;
  iterator_Close : World -> World;
  ListPeers : string -> World -> list PeerID * World;
  ctx_Err : World -> option error;
  ReadNodes : (World -> Node -> bool) -> Z -> World -> list Node * World;
  convertToAddrInfo : Node -> result error (option AddrInfo);
  connectWithPeer : AddrInfo -> World -> option error * World;
  filterPeer : World -> Node -> bool
}.

(** *** Bitfields of a record *)

(** [byteCount]. *)
Definition byteCount (bitCount : Z) : Z :=
  let numOfBytes := Z.quot bitCount 8 in
  if negb (Z.rem bitCount 8 =? 0)%Z then (numOfBytes + 1)%Z else numOfBytes.

(** [Bitvector64.BitAt] and [Bitvector4.BitAt] of [go-bitfield]: out of
    bounds, or on a vector of the wrong length, the bit is false. *)
Definition bitAt (len : N) (size : nat) (b : bytes) (idx : N) : bool :=
  if (len <=? idx)%N || negb (length b =? size)%nat then false
  else
    match nth_error b (N.to_nat (idx / 8)) with
    | Some x => N.testbit (Byte.to_N x) (idx mod 8)
    | None => false
    end.

Definition Bitvector64_BitAt : bytes -> N -> bool := bitAt 64 8.
Definition Bitvector4_BitAt : bytes -> N -> bool := bitAt 4 1.

(** [int(x)] of a [uint64]. *)
Definition int_of_uint64 (x : N) : Z :=
  let z := Z.of_N (Uint64 x) in
  if (z <? 2 ^ 63)%Z then z else (z - 2 ^ 64)%Z.

Section Bitfields.
Context (cfg : BeaconChainConfig) (net : NetworkConfig).

(** [attBitvector] and [syncBitvector]: [record.Load] fails on a record
    without the entry. *)
Definition attBitvector (record : Record_) : result error bytes :=
  match record !! AttSubnetKey net with
  | Some bitV => Ok bitV
  | None => Err (collaboratorError "missing ENR key")
  end.

Definition syncBitvector (record : Record_) : result error bytes :=
  match record !! SyncCommsSubnetKey net with
  | Some bitV => Ok bitV
  | None => Err (collaboratorError "missing ENR key")
  end.

(** The indices below [count] whose bit is set, in order. *)
Definition setBits (bitAt : N -> bool) (count : N) : list N :=
  filter (fun i => bitAt i = true) (map N.of_nat (seq 0 (N.to_nat count))).

(** [attSubnets]. *)
Definition attSubnets (record : Record_) : result error (gmap N bool) :=
  match attBitvector record with
  | Err err => Err err
  | Ok bitV =>
      if negb (Z.of_nat (length bitV) =? byteCount (int_of_uint64 (AttestationSubnetCount cfg)))%Z
      then Err (errorsErrorf "invalid bitvector provided, it has a size of %d"
                  [argInt (Z.of_nat (length bitV))])
      else
        Ok (list_to_map
              (map (fun i => (i, true))
                   (setBits (Bitvector64_BitAt bitV) (AttestationSubnetCount cfg))))
  end.

(** [syncSubnets]. *)
Definition syncSubnets (record : Record_) : result error (list N) :=
  match syncBitvector record with
  | Err err => Err err
  | Ok bitV =>
      if negb (Z.of_nat (length bitV) =? byteCount (int_of_uint64 (SyncCommitteeSubnetCount cfg)))%Z
      then Err (errorsErrorf "invalid bitvector provided, it has a size of %d"
                  [argInt (Z.of_nat (length bitV))])
      else Ok (setBits (Bitvector4_BitAt bitV) (SyncCommitteeSubnetCount cfg))
  end.

End Bitfields.

(** *** The service's methods *)

(** [strings.Contains]. *)
Fixpoint strings_HasPrefix (s prefix : string) : bool :=
  match prefix, s with
  | EmptyString, _ => true
  | String _ _, EmptyString => false
  | String c prefix', String d s' => Ascii.eqb c d && strings_HasPrefix s' prefix'
  end.

Fixpoint strings_Contains (s substr : string) : bool :=
  strings_HasPrefix s substr ||
  match s with
  | EmptyString => false
  | String _ s' => strings_Contains s' substr
  end.

Section Service.
Context (cfg : BeaconChainConfig) (net : NetworkConfig)
  {carrier : Carrier} {network : Network}.

Local Open Scope go_scope.

Definition emit (e : Event) : M Service unit :=
  fun s =>
    (Returns tt,
     {| dv5Listener := dv5Listener s; metaData := metaData s; world := world s;
        trace := trace s ++ [e] |}).

Definition call {A : Type} (e : Event) (op : World -> A * World) : M Service A :=
  fun s =>
    let '(a, w) := op (world s) in
    (Returns a,
     {| dv5Listener := dv5Listener s; metaData := metaData s; world := w;
        trace := trace s ++ [e] |}).

Definition read {A : Type} (get : World -> A) : M Service A :=
  fun s => (Returns (get (world s)), s).

(** A deferred call: it runs when the function returns or panics. *)
Definition defer {A : Type} (cleanup : M Service unit) (m : M Service A) : M Service A :=
  fun s =>
    match m s with
    | (OutOfFuel, s') => (OutOfFuel, s')
    | (o, s') => (o, snd (cleanup s'))
    end.

(** [filterPeerForAttSubnet]. *)
Definition filterPeerForAttSubnet (index : N) : World -> Node -> bool :=
  fun w node =>
    if negb (filterPeer w node) then false
    else
      match attSubnets cfg net (node_Record node) with
      | Err _ => false
      | Ok subnets => default false (subnets !! index)
      end.

(** [filterPeerForSyncSubnet]. *)
Definition filterPeerForSyncSubnet (index : N) : World -> Node -> bool :=
  fun w node =>
    if negb (filterPeer w node) then false
    else
      match syncSubnets cfg net (node_Record node) with
      | Err _ => false
      | Ok subnets => existsb (fun comIdx => (comIdx =? index)%N) subnets
      end.

(** The dials of one batch.  The code starts one goroutine per node and
    waits for all of them; here they run one after the other, in the order of
    the batch. *)
Fixpoint dialNodes (nodes : list Node) : M Service unit :=
  match nodes with
  | [] => ret tt
  | node :: rest =>
      match convertToAddrInfo node with
      | Err _ => dialNodes rest
      | Ok None => dialNodes rest
      | Ok (Some info) =>
          let* err := call (CallConnectWithPeer info) (connectWithPeer info) in
          run (match err with
               | Some _ => emit (Log "trace" "Could not connect with peer")
               | None => ret tt
               end) in
          dialNodes rest
      end
  end.

(** The [for] loop of [FindPeersWithSubnet]; the fuel bounds its iterations,
    which the code does not bound. *)
Fixpoint FindPeersWithSubnet_loop (fuel : nat) (topic : string)
    (filter : World -> Node -> bool) (threshold : Z) : M Service (bool * option error) :=
  match fuel with
  | O => out_of_fuel
  | S fuel' =>
      let* peers := call (CallListPeers topic) (ListPeers topic) in
      let currNum := Z.of_nat (length peers) in
      if (threshold <=? currNum)%Z then ret (true, None)
      else
        let* ctxErr := read ctx_Err in
        match ctxErr with
        | Some _ =>
            ret (false,
                 Some (errorsErrorf
                         "unable to find requisite number of peers for topic %s - only %d out of %d peers were able to be found"
                         [argString topic; argInt currNum; argInt threshold]))
        | None =>
            let nodeCount := int_of_uint64 (MinimumPeersInSubnetSearch net) in
            let nodeCount :=
              if MaxDialIsActive net then Z.min nodeCount (MaxConcurrentDials net)
              else nodeCount in
            let* nodes := call (CallReadNodes nodeCount) (ReadNodes filter nodeCount) in
            run dialNodes nodes in
            FindPeersWithSubnet_loop fuel' topic filter threshold
        end
  end.

(** [FindPeersWithSubnet]. *)
Definition FindPeersWithSubnet (fuel : nat) (topic : string) (index : N) (threshold : Z)
    : M Service (bool * option error) :=
  let* listener := (fun s => (Returns (dv5Listener s), s)) in
  match listener with
  | None => ret (false, None)
  | Some _ =>
      let topic := String.append topic ProtocolSuffix in
      run call CallRandomNodes (fun w => (tt, RandomNodes w)) in
      defer (call CallIteratorClose (fun w => (tt, iterator_Close w)))
        (if strings_Contains topic (GossipAttestationMessage net) then
           FindPeersWithSubnet_loop fuel topic (filterPeerForAttSubnet index) threshold
         else if strings_Contains topic (GossipSyncCommitteeMessage net) then
           FindPeersWithSubnet_loop fuel topic (filterPeerForSyncSubnet index) threshold
         else ret (false, Some (errorsNew "no subnet exists for provided topic")))
  end.

(** [updateSubnetRecordWithMetadata]; a nil listener is a nil dereference. *)
Definition updateSubnetRecordWithMetadata (bitV : bytes) : M Service unit :=
  fun s =>
    match dv5Listener s with
    | None => (Panics "nil pointer dereference", s)
    | Some l =>
        (Returns tt,
         {| dv5Listener := Some {| LocalNode := <[AttSubnetKey net := bitV]> (LocalNode l) |};
            metaData := WrappedMetadataV0
                          {| v0_SeqNumber := uint64_add (SequenceNumber (metaData s)) 1;
                             v0_Attnets := bitV |};
            world := world s;
            trace := trace s |})
    end.

(** [updateSubnetRecordWithMetadataV2]. *)
Definition updateSubnetRecordWithMetadataV2 (bitVAtt bitVSync : bytes) : M Service unit :=
  fun s =>
    match dv5Listener s with
    | None => (Panics "nil pointer dereference", s)
    | Some l =>
        (Returns tt,
         {| dv5Listener :=
              Some {| LocalNode := <[SyncCommsSubnetKey net := bitVSync]>
                                     (<[AttSubnetKey net := bitVAtt]> (LocalNode l)) |};
            metaData := WrappedMetadataV1
                          {| v1_SeqNumber := uint64_add (SequenceNumber (metaData s)) 1;
                             v1_Attnets := bitVAtt;
                             v1_Syncnets := bitVSync |};
            world := world s;
            trace := trace s |})
    end.

End Service.

(** *** Reading a trace of [FindPeersWithSubnet] *)

(** The error of a search the context ended. *)
Definition notEnoughPeers (topic : string) (currNum threshold : Z) : error :=
  errorsErrorf
    "unable to find requisite number of peers for topic %s - only %d out of %d peers were able to be found"
    [argString topic; argInt currNum; argInt threshold].

Section Reading.
Context (net : NetworkConfig) {carrier : Carrier}.

(** An event of the search loop: the iterator is neither opened nor closed,
    and a batch read from it asks for no more nodes than
    [MinimumPeersInSubnetSearch] and, when the dial limit is active, than
    [MaxConcurrentDials]. *)
Definition withinDialLimits (e : Event) : Prop :=
  match e with
  | CallRandomNodes => False
  | CallIteratorClose => False
  | CallReadNodes n =>
      (n <= int_of_uint64 (MinimumPeersInSubnetSearch net))%Z /\
      (MaxDialIsActive net = true -> (n <= MaxConcurrentDials net)%Z)
  | _ => True
  end.

End Reading.

(** *** The expiration of an assignment *)

(** [time.Second], in the nanoseconds of a [time.Duration]. *)
Definition time_Second : Z := 1000000000.

(** Go's [int64]: products wrap around. *)
Definition int64_wrap (z : Z) : Z := ((z + 2 ^ 63) mod 2 ^ 64 - 2 ^ 63)%Z.
Definition int64_mul (a b : Z) : Z := int64_wrap (a * b).

(** [SlotsPerEpoch] and [SecondsPerSlot] of [params.BeaconConfig()], and
    [primitives.Slot.Mul], which may panic. *)
Class SlotTime : Type := {
  SlotsPerEpoch : N;
  SecondsPerSlot : N;
  Slot_Mul : N -> N -> outcome N
}.

Section Expiration.
Context (cfg : BeaconChainConfig) {slotTime : SlotTime}.

(** [computeSubscriptionExpirationTime]; a division by zero panics. *)
Definition computeSubscriptionExpirationTime (nodeID : bytes) (epoch : N) : outcome Z :=
  let '(nodeOffset, _) := computeOffsetAndPrefix cfg nodeID in
  if (EpochsPerSubnetSubscription cfg =? 0)%N then Panics "integer divide by zero"
  else
    let pastEpochs := (uint64_add nodeOffset epoch mod EpochsPerSubnetSubscription cfg)%N in
    let remEpochs := uint64_sub (EpochsPerSubnetSubscription cfg) pastEpochs in
    match Slot_Mul SlotsPerEpoch SecondsPerSlot with
    | Returns seconds =>
        let epochDuration := int_of_uint64 seconds in
        let epochTime := int64_mul (int_of_uint64 remEpochs) epochDuration in
        Returns (int64_mul epochTime time_Second)
    | Panics why => Panics why
    | OutOfFuel => OutOfFuel
    end.

End Expiration.

(** *** The subnet locks *)

Definition syncLockerVal : N := 100.
Definition blobSubnetLockerVal : N := 110.

(** The part of the service [subnetLocker] works on: [subnetsLock], the map
    from a key to its [*sync.RWMutex].  A pointer is the address of its
    mutex, and [&sync.RWMutex{}] takes the next address that was never
    handed out.  The function holds [subnetsLockLock] from its first to its
    last statement, so its calls take place one after the other. *)
Record SubnetLocks : Type := {
  subnetsLock : gmap N nat;
  allocated : nat
}.

(** [subnetLocker]. *)
Definition subnetLocker (i : N) : SubnetLocks -> nat * SubnetLocks :=
  fun s =>
    match subnetsLock s !! i with
    | Some l => (l, s)
    | None =>
        let l := allocated s in
        (l, {| subnetsLock := <[i := l]> (subnetsLock s); allocated := S (allocated s) |})
    end.

(** Every lock of the map was handed out by an allocation, and no two keys
    share a lock. *)
Definition locksApart (s : SubnetLocks) : Prop :=
  (forall i l, subnetsLock s !! i = Some l -> (l < allocated s)%nat) /\
  (forall i j l, subnetsLock s !! i = Some l -> subnetsLock s !! j = Some l -> i = j).


End p2p.

(** ** Scripted collaborators

    A world whose collaborators answer from a script, to run the functions on
    concrete calls. *)

Module scripted.
Import blockchain.

Record ScriptedWorld : Type := {
  engineAnswers : list (option bytes * bytes * option error);
  newPayloadAnswer : bytes * option error;
  invalidation : result error (list bytes);
  validation : option error;
  newHead : result error bytes;
  slotNow : N
}.

Inductive ScriptedAttributes : Type :=
| noProposal (version : Z)
| proposal (timestamp : N).

#[export] Instance carrier : Carrier :=
  {| Attributer := ScriptedAttributes;
     BeaconState := unit;
     ExecutionRequests := unit;
     World := ScriptedWorld |}.

#[export] Instance attribute : PayloadAttribute :=
  {| EmptyWithVersion := noProposal;
     IsEmpty := fun a => match a with noProposal _ => true | proposal _ => false end |}.

#[export] Instance globals : Globals :=
  {| version_Bellatrix := 2; version_Deneb := 4; version_Electra := 5;
     PrepareAllPayloads := false |}.

#[export] Instance helpers : BlockHelpers :=
  {| IsExecutionBlock := fun _ => Ok true;
     IsExecutionEnabledUsingHeader := fun _ _ => Ok true;
     BeaconBlockIsNil := fun _ => None;
     ConvertKzgCommitmentToVersionedHash := fun c => c |}.

#[export] Instance forkchoice : ForkChoicer :=
  {| FinalizedPayloadBlockHash := fun _ => zeroBytes32;
     UnrealizedJustifiedPayloadBlockHash := fun _ => zeroBytes32;
     SetOptimisticToValid := fun _ w => (validation w, w);
     SetOptimisticToInvalid := fun _ _ _ w => (invalidation w, w);
     Head := fun w => (newHead w, w) |}.

Definition nextAnswer (w : ScriptedWorld)
    : (option bytes * bytes * option error) * ScriptedWorld :=
  match engineAnswers w with
  | [] => ((None, [], Some (errorsNew "engine unreachable")), w)
  | a :: rest =>
      (a, {| engineAnswers := rest; newPayloadAnswer := newPayloadAnswer w;
             invalidation := invalidation w; validation := validation w;
             newHead := newHead w; slotNow := slotNow w |})
  end.

#[export] Instance engine : EngineCaller :=
  {| ForkchoiceUpdated := fun _ _ w => nextAnswer w;
     NewPayload := fun _ _ _ _ w => (newPayloadAnswer w, w) |}.

Definition rootAA : bytes := repeat xaa 32.
Definition rootAD : bytes := repeat xad 32.
Definition rootBB : bytes := repeat xbb 32.
Definition hashCC : bytes := repeat xcc 32.
Definition payloadId : bytes := repeat x01 8.

Definition blockWithParent (parent : bytes) : SignedBeaconBlock :=
  {| sb_IsNil := false;
     Block := Some {| blk_IsNil := false;
                      Body := {| body_IsNil := false;
                                 Execution := Ok {| BlockHash := hashCC; ParentHash := hashCC |};
                                 BlobKzgCommitments := Ok [];
                                 body_ExecutionRequests := Ok tt |};
                      Slot := 31;
                      ParentRoot := parent;
                      blk_Version := 4 |};
     Version := 4 |}.

#[export] Instance stores : Stores :=
  {| StateByRoot := fun _ w => (Ok tt, w);
     DeleteStateFromCaches := fun _ w => (None, w);
     DeleteBlock := fun _ w => (None, w);
     blobStorage_Remove := fun _ w => (Some (errorsNew "blob not found"), w);
     getBlock := fun _ w => (Ok (Some (blockWithParent zeroBytes32)), w);
     saveHead := fun _ _ _ w => (None, w);
     CurrentSlot := slotNow |}.

Definition service (w : ScriptedWorld) : Service :=
  {| world := w; PayloadIDCache := ∅; trace := [] |}.

Definition headAA (attrs : option ScriptedAttributes) : fcuConfig :=
  {| headState := tt; headBlock := Some (blockWithParent rootBB); headRoot := rootAA;
     attributes := attrs |}.

Definition invalidPayload : error := sentinelError ErrInvalidPayloadStatus.

(** The engine answers INVALID with [lvh], then VALID with a payload id; fork
    choice invalidates two roots and moves the head to [rootBB]. *)
Definition invalidHead (lvh : bytes) : ScriptedWorld :=
  {| engineAnswers := [(None, lvh, Some invalidPayload); (Some payloadId, [], None)];
     newPayloadAnswer := ([], None);
     invalidation := Ok [rootAA; rootAD];
     validation := None;
     newHead := Ok rootBB;
     slotNow := 31 |}.

(** The engine answers INVALID and fork choice cannot invalidate the head. *)
Definition invalidHeadStuck : ScriptedWorld :=
  {| engineAnswers := [(None, hashCC, Some invalidPayload)];
     newPayloadAnswer := ([], None);
     invalidation := Err (errorsNew "node not found");
     validation := None;
     newHead := Ok rootBB;
     slotNow := 31 |}.

(** The engine answers VALID with the payload id [pid]. *)
Definition validHead (pid : option bytes) : ScriptedWorld :=
  {| engineAnswers := [(pid, [], None)];
     newPayloadAnswer := ([], None);
     invalidation := Ok [];
     validation := None;
     newHead := Ok rootAA;
     slotNow := 31 |}.

(** A call without a head block. *)
Definition headless : fcuConfig :=
  {| headState := tt; headBlock := None; headRoot := rootAA; attributes := None |}.

Definition syncingPayload : error := sentinelError ErrAcceptedSyncingPayloadStatus.

(** The engine answers a forkchoice update with [err], and with a payload
    id. *)
Definition engineError (err : error) : ScriptedWorld :=
  {| engineAnswers := [(Some payloadId, [], Some err)];
     newPayloadAnswer := ([], None);
     invalidation := Ok [];
     validation := None;
     newHead := Ok rootAA;
     slotNow := 31 |}.

(** The engine answers VALID with a payload id and fork choice cannot mark
    the head valid. *)
Definition validHeadStuck : ScriptedWorld :=
  {| engineAnswers := [(Some payloadId, [], None)];
     newPayloadAnswer := ([], None);
     invalidation := Ok [];
     validation := Some (errorsNew "node not found");
     newHead := Ok rootAA;
     slotNow := 31 |}.

(** The engine answers a new payload with [lvh] and [err]. *)
Definition payloadAnswer (lvh : bytes) (err : option error) : ScriptedWorld :=
  {| engineAnswers := [];
     newPayloadAnswer := (lvh, err);
     invalidation := Ok [];
     validation := None;
     newHead := Ok rootAA;
     slotNow := 31 |}.

(** Block helpers before the merge: execution is not enabled. *)
Definition preMerge : BlockHelpers :=
  {| IsExecutionBlock := fun _ => Ok false;
     IsExecutionEnabledUsingHeader := fun _ _ => Ok false;
     BeaconBlockIsNil := fun _ => None;
     ConvertKzgCommitmentToVersionedHash := fun c => c |}.

(** The block inside [blockWithParent parent]. *)
Definition unsignedWithParent (parent : bytes) : BeaconBlock :=
  {| blk_IsNil := false;
     Body := {| body_IsNil := false;
                Execution := Ok {| BlockHash := hashCC; ParentHash := hashCC |};
                BlobKzgCommitments := Ok [];
                body_ExecutionRequests := Ok tt |};
     Slot := 31;
     ParentRoot := parent;
     blk_Version := 4 |}.

(** *** A scripted beacon state for [getPayloadAttribute]

    A state is its slot and its version; processing slots moves the slot and,
    from slot 64 on, the version to Electra.  The world is the list of the
    tracked proposers, by slot, with their fee recipients. *)

Record ScriptedState : Type := {
  stateSlot : N;
  stateVersion : Z
}.

Inductive BuiltAttribute : Type :=
| emptyOfVersion (version : Z)
| builtFrom (req : AttributesRequest (list N)).

Definition stateCarrier : Carrier :=
  {| Attributer := BuiltAttribute;
     BeaconState := ScriptedState;
     ExecutionRequests := unit;
     World := list (N * bytes) |}.

Definition stateAttribute : @PayloadAttribute stateCarrier :=
  {| EmptyWithVersion := emptyOfVersion : Z -> @Attributer stateCarrier;
     IsEmpty := fun a : @Attributer stateCarrier =>
                  match a with emptyOfVersion _ => true | builtFrom _ => false end |}.

Definition feeOf (w : list (N * bytes)) (slot : N) : bytes * bool :=
  match List.find (fun entry => (fst entry =? slot)%N) w with
  | Some entry => (snd entry, true)
  | None => (repeat x00 20, false)
  end.

Definition stateHelpers : @AttributeHelpers stateCarrier :=
  {| Withdrawals := list N;
     TrackedValidator := bytes;
     Time := Z;
     version_Capella := 3;
     st_Version := stateVersion : @BeaconState stateCarrier -> Z;
     st_Slot := stateSlot : @BeaconState stateCarrier -> N;
     st_Copy := fun st : @BeaconState stateCarrier => st;
     ExpectedWithdrawals := fun _ => Ok [7%N];
     slots_ToEpoch := fun slot => (slot / 32)%N;
     slots_ToTime := fun genesis slot => Ok (Z.of_N (genesis + 12 * slot));
     time_Unix := fun t => t;
     time_CurrentEpoch := fun st : @BeaconState stateCarrier => (stateSlot st / 32)%N;
     RandaoMix := fun _ _ => Ok hashCC;
     ProcessSlotsUsingNextSlotCache :=
       fun (st : @BeaconState stateCarrier) _ slot =>
         Ok ({| stateSlot := slot;
                stateVersion := if (64 <=? slot)%N then 5 else stateVersion st |}
             : @BeaconState stateCarrier);
     payloadattribute_New := fun req => Ok (builtFrom req : @Attributer stateCarrier);
     zeroTrackedValidator := repeat x00 20;
     FeeRecipient := fun val => val;
     trackedProposer := fun (w : @World stateCarrier) _ slot => feeOf w slot;
     genesisTime := fun _ => 1000%Z |}.

(** A Deneb state at slot 62. *)
Definition denebState : ScriptedState := {| stateSlot := 62; stateVersion := 4 |}.

Definition feeEE : bytes := repeat xee 20.

(** The service that tracks the proposers of [tracked]. *)
Definition stateService (tracked : list (N * bytes)) : @Service stateCarrier :=
  {| world := tracked : @World stateCarrier; PayloadIDCache := ∅; trace := [] |}.

(** [getPayloadAttribute] on the scripted state. *)
Definition attributeFor (st : ScriptedState) (slot : N) (headRoot : bytes)
    (tracked : list (N * bytes)) : outcome BuiltAttribute * @Service stateCarrier :=
  @getPayloadAttribute stateCarrier stateAttribute globals stateHelpers st slot headRoot
    (stateService tracked).


End scripted.

(** A scripted network: dialled peers join every topic, the iterator hands
    out the candidates in order. *)

Module scripted_net.
Import p2p.

Record ScriptedNet : Type := {
  connected : list N;
  candidates : list Node;
  cancelled : bool
}.

#[export] Instance carrier : Carrier :=
  {| World := ScriptedNet; AddrInfo := N; PeerID := N |}.

Definition readNodes (keep : ScriptedNet -> Node -> bool) (n : Z) (w : ScriptedNet)
    : list Node * ScriptedNet :=
  let matching := List.filter (keep w) (candidates w) in
  (firstn (Z.to_nat n) matching,
   {| connected := connected w;
      candidates := skipn (Z.to_nat n) matching;
      cancelled := cancelled w |}).

#[export] Instance network : Network :=
  {| ProtocolSuffix := "/ssz_snappy";
     RandomNodes := fun w => w;
     iterator_Close := fun w => w;
     ListPeers := fun _ w => (connected w, w);
     ctx_Err := fun w =>
       if cancelled w then Some (collaboratorError "context canceled") else None;
     ReadNodes := readNodes;
     convertToAddrInfo := fun node => Ok (Some (bigEndian (node_ID node)));
     connectWithPeer := fun info w =>
       (None, {| connected := info :: connected w; candidates := candidates w;
                 cancelled := cancelled w |});
     filterPeer := fun _ _ => true |}.

(** The mainnet values of the constants. *)
Definition mainnet : BeaconChainConfig :=
  {| AttestationSubnetCount := 64;
     SyncCommitteeSubnetCount := 4;
     SubnetsPerNode := 2;
     EpochsPerSubnetSubscription := 256;
     NodeIdBits := 256;
     AttestationSubnetPrefixBits := 6 |}.

Definition mainnetNetwork : NetworkConfig :=
  {| AttSubnetKey := "attnets";
     SyncCommsSubnetKey := "syncnets";
     MinimumPeersInSubnetSearch := 20;
     MaxDialIsActive := false;
     MaxConcurrentDials := 0;
     GossipAttestationMessage := "beacon_attestation";
     GossipSyncCommitteeMessage := "sync_committee" |}.

(** The eight bytes of a [uint64], lowest first. *)
Definition littleEndian8 (x : N) : bytes :=
  map (fun i => match Byte.of_N ((x / 256 ^ N.of_nat i) mod 256)%N with
                | Some b => b
                | None => x00
                end)
      (seq 0 8).

(** Stand-ins for the hash and the shuffle: the input padded to 32 bytes, and
    a rotation by the number in the seed's first eight bytes. *)
#[export] Instance crypto : Crypto :=
  {| Bytes8 := littleEndian8;
     hash_Hash := ToBytes32;
     ComputeShuffledIndex := fun index indexCount seed _ =>
       if (indexCount =? 0)%N then Err (collaboratorError "index count is zero")
       else Ok ((index + bigEndian (rev (firstn 8 seed))) mod indexCount)%N |}.

Definition nodeId : bytes := repeat x01 32.

(** The node id 2, and the mainnet constants with a window of 3 epochs. *)
Definition nodeTwo : bytes := repeat x00 31 ++ [x02].

Definition narrowWindow : BeaconChainConfig :=
  {| AttestationSubnetCount := 64;
     SyncCommitteeSubnetCount := 4;
     SubnetsPerNode := 2;
     EpochsPerSubnetSubscription := 3;
     NodeIdBits := 256;
     AttestationSubnetPrefixBits := 6 |}.

(** A candidate whose record advertises attestation subnet 7. *)
Definition candidate (n : byte) : Node :=
  {| node_ID := [n];
     node_Record := {[ "attnets" := [x80; x00; x00; x00; x00; x00; x00; x00] ]} |}.

Definition service (peers : list N) (nodes : list Node) : Service :=
  {| dv5Listener := Some {| LocalNode := ∅ |};
     metaData := WrappedMetadataV1
                   {| v1_SeqNumber := 5; v1_Attnets := repeat x00 8; v1_Syncnets := [x00] |};
     world := {| connected := peers; candidates := nodes; cancelled := false |};
     trace := [] |}.

(** A candidate whose record advertises the sync-committee subnets 0 and 2. *)
Definition syncCandidate : Node :=
  {| node_ID := [x09]; node_Record := {[ "syncnets" := [x05] ]} |}.

(** A service without discovery. *)
Definition offline : Service :=
  {| dv5Listener := None;
     metaData := WrappedMetadataV1
                   {| v1_SeqNumber := 5; v1_Attnets := repeat x00 8; v1_Syncnets := [x00] |};
     world := {| connected := []; candidates := []; cancelled := false |};
     trace := [] |}.

(** A service whose caller has cancelled the context. *)
Definition cancelledService (peers : list N) : Service :=
  {| dv5Listener := Some {| LocalNode := ∅ |};
     metaData := WrappedMetadataV1
                   {| v1_SeqNumber := 5; v1_Attnets := repeat x00 8; v1_Syncnets := [x00] |};
     world := {| connected := peers; candidates := []; cancelled := true |};
     trace := [] |}.

(** Mainnet's 32 slots of 12 seconds per epoch; the product panics when it
    does not fit. *)
#[export] Instance slotTime : SlotTime :=
  {| SlotsPerEpoch := 32;
     SecondsPerSlot := 12;
     Slot_Mul := fun a b =>
       if (a * b <? uint64_modulus)%N then Returns (a * b)%N
       else Panics "multiplication overflows" |}.

(** No lock handed out yet. *)
Definition noLocks : SubnetLocks := {| subnetsLock := ∅; allocated := 0 |}.


End scripted_net.

(** ** Properties of [execution_engine.go] *)

Module execution_engine.
Import blockchain.

Section Proofs.
Context {carrier : Carrier} {attribute : PayloadAttribute} {globals : Globals}
  {helpers : BlockHelpers} {forkchoice : ForkChoicer} {engine : EngineCaller}
  {stores : Stores}.

Lemma errors_Is_unique (e : error) (a b : sentinel) :
  errors_Is e a = true -> errors_Is e b = true -> a = b.
Proof.
  induction e as [s | msg | cause IH msg | cause IH other _ | ib]; simpl;
    try discriminate; auto.
  intros Ha Hb. apply bool_decide_eq_true in Ha, Hb. congruence.
Qed.

Lemma invalid_is_not_syncing (e : error) :
  errors_Is e ErrInvalidPayloadStatus = true ->
  errors_Is e ErrAcceptedSyncingPayloadStatus = false.
Proof.
  intros Hinv. destruct (errors_Is e ErrAcceptedSyncingPayloadStatus) eqn:Hacc; [|done].
  pose proof (errors_Is_unique e _ _ Hinv Hacc). discriminate.
Qed.

(** Steps of the monad on a service reached by collaborator calls. *)

Lemma after_after s w evs w' evs' :
  after (after s w evs) w' evs' = after s w' (evs ++ evs').
Proof. unfold after. simpl. by rewrite app_assoc. Qed.

Lemma bind_returns {A B} (m : M Service A) (k : A -> M Service B) s a s' :
  m s = (Returns a, s') -> bind m k s = k a s'.
Proof. intros Hm. unfold bind. by rewrite Hm. Qed.

Lemma bind_call {A B} e (op : World -> A * World) (k : A -> M Service B) s a w :
  op (world s) = (a, w) -> bind (call e op) k s = k a (after s w [e]).
Proof. intros Hop. unfold bind, call. by rewrite Hop. Qed.

Lemma bind_emit_at {B} e (k : unit -> M Service B) s w evs :
  bind (emit e) k (after s w evs) = k tt (after s w (evs ++ [e])).
Proof. unfold bind, emit, after. simpl. by rewrite app_assoc. Qed.

Lemma bind_call_at {A B} e (op : World -> A * World) (k : A -> M Service B) s w evs a w' :
  op w = (a, w') -> bind (call e op) k (after s w evs) = k a (after s w' (evs ++ [e])).
Proof. intros Hop. unfold bind, call, after. simpl. by rewrite Hop, app_assoc. Qed.

(** The head block reaches the engine: the body is the case of its answer. *)

Lemma body_invalid self arg s headBlk headPayload pid lvh e w :
  reachesEngine arg headBlk headPayload ->
  ForkchoiceUpdated (viewOf (world s) headPayload) (attributesOf arg headBlk) (world s)
    = ((pid, lvh, Some e), w) ->
  errors_Is e ErrInvalidPayloadStatus = true ->
  notifyForkchoiceUpdate_body self arg s =
  notifyForkchoiceUpdate_invalid self arg headBlk (attributesOf arg headBlk) lvh
    (after s w [CallForkchoiceUpdated (viewOf (world s) headPayload) (attributesOf arg headBlk)]).
Proof.
  intros (hb & Hhb & Hnil & Hblk & Hbnil & Hbody & Hexec & Hpay) Hfcu Hinv.
  unfold notifyForkchoiceUpdate_body.
  rewrite Hhb, Hnil, Hblk, Hbnil, Hbody, Hexec, Hpay. simpl.
  unfold bind, read, call. simpl.
  unfold viewOf, attributesOf in Hfcu. rewrite Hfcu. simpl.
  rewrite (invalid_is_not_syncing e Hinv), Hinv. reflexivity.
Qed.

(** The trace only grows. *)

Lemma extends_ret {A} (a : A) : extendsTrace (ret a).
Proof. intros s. exists []. simpl. by rewrite app_nil_r. Qed.

Lemma extends_panic {A} why : extendsTrace (panic (A := A) why).
Proof. intros s. exists []. simpl. by rewrite app_nil_r. Qed.

Lemma extends_out_of_fuel {A} : extendsTrace (out_of_fuel (A := A)).
Proof. intros s. exists []. simpl. by rewrite app_nil_r. Qed.

Lemma extends_emit e : extendsTrace (emit e).
Proof. intros s. by exists [e]. Qed.

Lemma extends_read {A} (get : World -> A) : extendsTrace (read get).
Proof. intros s. exists []. simpl. by rewrite app_nil_r. Qed.

Lemma extends_call {A} e (op : World -> A * World) : extendsTrace (call e op).
Proof. intros s. exists [e]. unfold call. by destruct (op (world s)). Qed.

Lemma extends_cache_set slot root pid : extendsTrace (PayloadIDCache_Set slot root pid).
Proof. intros s. by eexists. Qed.

Lemma extends_bind {A B} (m : M Service A) (k : A -> M Service B) :
  extendsTrace m -> (forall a, extendsTrace (k a)) -> extendsTrace (bind m k).
Proof.
  intros Hm Hk s. unfold bind. destruct (Hm s) as [evs Hevs].
  destruct (m s) as [[a | why |] s1]; simpl in *; eauto.
  destruct (Hk a s1) as [evs' Hevs']. exists (evs ++ evs').
  by rewrite Hevs', Hevs, app_assoc.
Qed.

Create HintDb extends.
#[local] Hint Resolve extends_ret extends_panic extends_out_of_fuel extends_emit
  extends_read extends_call extends_cache_set : extends.

Ltac extends_step :=
  match goal with
  | |- extendsTrace (bind _ _) => apply extends_bind; [ | intros ? ]
  | |- extendsTrace (match ?x with _ => _ end) => destruct x
  | |- extendsTrace (if ?b then _ else _) => destruct b
  | |- extendsTrace (let '(_, _) := ?x in _) => destruct x
  | |- _ => solve [ auto with extends ]
  end.

Lemma extends_removeInvalidBlockAndState blkRoots :
  extendsTrace (removeInvalidBlockAndState blkRoots).
Proof.
  induction blkRoots as [| root rest IH]; simpl; repeat extends_step.
Qed.
#[local] Hint Resolve extends_removeInvalidBlockAndState : extends.

Lemma extends_invalid self arg headBlk attrs lvh :
  (forall a, extendsTrace (self a)) ->
  extendsTrace (notifyForkchoiceUpdate_invalid self arg headBlk attrs lvh).
Proof. intros Hself. unfold notifyForkchoiceUpdate_invalid. repeat extends_step. Qed.

Lemma extends_valid arg headBlk attrs pid :
  extendsTrace (notifyForkchoiceUpdate_valid arg headBlk attrs pid).
Proof. unfold notifyForkchoiceUpdate_valid. repeat extends_step. Qed.

Lemma extends_body self arg :
  (forall a, extendsTrace (self a)) -> extendsTrace (notifyForkchoiceUpdate_body self arg).
Proof.
  intros Hself. unfold notifyForkchoiceUpdate_body.
  repeat first [ apply extends_invalid; assumption | apply extends_valid | extends_step ].
Qed.

Lemma extends_notifyForkchoiceUpdate fuel arg :
  extendsTrace (notifyForkchoiceUpdate fuel arg).
Proof.
  revert arg. induction fuel as [| fuel IH]; intros arg; simpl.
  - apply extends_out_of_fuel.
  - by apply extends_body.
Qed.

(** What [SetOptimisticToInvalid] is called with: the engine's
    [last_valid_hash], or [defaultLatestValidHash] when it is empty. *)
Lemma invalid_status_passes_last_valid_hash fuel arg s headBlk headPayload pid lvh e w :
  reachesEngine arg headBlk headPayload ->
  ForkchoiceUpdated (viewOf (world s) headPayload) (attributesOf arg headBlk) (world s)
    = ((pid, lvh, Some e), w) ->
  errors_Is e ErrInvalidPayloadStatus = true ->
  exists rest,
    trace (snd (notifyForkchoiceUpdate (S fuel) arg s)) =
    trace s ++
      [CallForkchoiceUpdated (viewOf (world s) headPayload) (attributesOf arg headBlk);
       Inc "forkchoiceUpdatedInvalidNodeCount";
       CallSetOptimisticToInvalid (headRoot arg) (ParentRoot headBlk)
         (ToBytes32 (if (length lvh =? 0)%nat then defaultLatestValidHash else lvh))]
      ++ rest.
Proof.
  intros Hreach Hfcu Hinv. simpl.
  rewrite (body_invalid _ arg s headBlk headPayload pid lvh e w Hreach Hfcu Hinv).
  unfold notifyForkchoiceUpdate_invalid.
  set (k := fun inv : result error (list bytes) => _).
  rewrite bind_emit_at. cbv zeta.
  destruct (SetOptimisticToInvalid (headRoot arg) (ParentRoot headBlk)
              (ToBytes32 (if (length lvh =? 0)%nat then defaultLatestValidHash else lvh)) w)
    as [inv w2] eqn:Hsoi.
  rewrite (bind_call_at _ _ _ _ _ _ _ _ Hsoi).
  assert (Hk : extendsTrace (k inv)).
  { subst k. cbv beta. pose proof (extends_notifyForkchoiceUpdate fuel). repeat extends_step. }
  destruct (Hk (after s w2
                  (([CallForkchoiceUpdated (viewOf (world s) headPayload)
                       (attributesOf arg headBlk)] ++
                    [Inc "forkchoiceUpdatedInvalidNodeCount"]) ++
                   [CallSetOptimisticToInvalid (headRoot arg) (ParentRoot headBlk)
                      (ToBytes32 (if (length lvh =? 0)%nat
                                  then defaultLatestValidHash else lvh))])))
    as [rest Hrest].
  exists rest. rewrite Hrest. simpl. by rewrite <- app_assoc.
Qed.

(** The sentinel has 32 bytes, so the conversion to [[32]byte] keeps it: the
    byte 0xff, then 31 zero bytes. *)
Lemma ToBytes32_default : ToBytes32 defaultLatestValidHash = xff :: repeat x00 31.
Proof. reflexivity. Qed.

(** C1 (corrected): when the engine reports an INVALID payload status and the
    [last_valid_hash] it returns is empty, the hash that
    [notifyForkchoiceUpdate] passes to [SetOptimisticToInvalid] is
    [defaultLatestValidHash], the slice [0xff] padded to 32 bytes: its first
    byte is 0xff and its other 31 bytes are zero.  The call is the third thing
    the service does, after the engine call and the counter; what the call on
    the new head does later follows it in the trace. *)
Theorem empty_last_valid_hash_becomes_sentinel fuel arg s headBlk headPayload pid e w :
  reachesEngine arg headBlk headPayload ->
  ForkchoiceUpdated (viewOf (world s) headPayload) (attributesOf arg headBlk) (world s)
    = ((pid, [], Some e), w) ->
  errors_Is e ErrInvalidPayloadStatus = true ->
  exists rest,
    trace (snd (notifyForkchoiceUpdate (S fuel) arg s)) =
    trace s ++
      [CallForkchoiceUpdated (viewOf (world s) headPayload) (attributesOf arg headBlk);
       Inc "forkchoiceUpdatedInvalidNodeCount";
       CallSetOptimisticToInvalid (headRoot arg) (ParentRoot headBlk)
         (xff :: repeat x00 31)]
      ++ rest.
Proof.
  intros Hreach Hfcu Hinv.
  destruct (invalid_status_passes_last_valid_hash fuel arg s headBlk headPayload pid [] e w
              Hreach Hfcu Hinv) as [rest Hrest].
  exists rest. rewrite Hrest.
  change (length (A := byte) [] =? 0)%nat with true. cbv iota.
  by rewrite ToBytes32_default.
Qed.

Lemma body_valid self arg s headBlk headPayload pid lvh w :
  reachesEngine arg headBlk headPayload ->
  ForkchoiceUpdated (viewOf (world s) headPayload) (attributesOf arg headBlk) (world s)
    = ((pid, lvh, None), w) ->
  notifyForkchoiceUpdate_body self arg s =
  notifyForkchoiceUpdate_valid arg headBlk (attributesOf arg headBlk) pid
    (after s w [CallForkchoiceUpdated (viewOf (world s) headPayload) (attributesOf arg headBlk)]).
Proof.
  intros (hb & Hhb & Hnil & Hblk & Hbnil & Hbody & Hexec & Hpay) Hfcu.
  unfold notifyForkchoiceUpdate_body.
  rewrite Hhb, Hnil, Hblk, Hbnil, Hbody, Hexec, Hpay. simpl.
  unfold bind, read, call. simpl.
  unfold viewOf, attributesOf in Hfcu. by rewrite Hfcu.
Qed.

(** C2, amended: when the engine answers VALID with a payload id, fork choice
    accepts the head as valid and the supplied attributes are not empty, the
    call returns the payload id and the payload-id cache then maps
    [(current_slot + 1, head_root)] to it; the sum is the [uint64] one. *)
Theorem valid_update_with_payload_id_is_cached
    fuel arg s headBlk headPayload a pid lvh w w' :
  reachesEngine arg headBlk headPayload ->
  attributes arg = Some a ->
  IsEmpty a = false ->
  ForkchoiceUpdated (viewOf (world s) headPayload) a (world s) = ((Some pid, lvh, None), w) ->
  SetOptimisticToValid (headRoot arg) w = (None, w') ->
  fst (notifyForkchoiceUpdate (S fuel) arg s) = Returns (Some pid, None) /\
  PayloadIDCache (snd (notifyForkchoiceUpdate (S fuel) arg s))
    !! (uint64_add (CurrentSlot w') 1, headRoot arg) = Some pid /\
  trace (snd (notifyForkchoiceUpdate (S fuel) arg s)) =
    trace s ++
      [CallForkchoiceUpdated (viewOf (world s) headPayload) a;
       Inc "forkchoiceUpdatedValidNodeCount";
       CallSetOptimisticToValid (headRoot arg);
       Log "info" "Forkchoice updated with payload attributes for proposal";
       CallPayloadIDCacheSet (uint64_add (CurrentSlot w') 1) (headRoot arg) pid].
Proof.
  intros Hreach Hattr Hne Hfcu Hvalid. simpl.
  assert (Ha : attributesOf arg headBlk = a) by (unfold attributesOf; by rewrite Hattr).
  rewrite <- Ha in Hfcu.
  rewrite (body_valid _ arg s headBlk headPayload (Some pid) lvh w Hreach Hfcu).
  unfold notifyForkchoiceUpdate_valid, bind, emit, call, read, PayloadIDCache_Set, ret.
  simpl. rewrite Hvalid. simpl. rewrite Ha, Hne. simpl.
  split; [reflexivity | split; [apply lookup_insert_eq |]].
  by rewrite <- !app_assoc.
Qed.

(** Without a payload id nothing is written to the cache, whatever the
    attributes. *)
Lemma valid_update_without_payload_id fuel arg s headBlk headPayload lvh w :
  reachesEngine arg headBlk headPayload ->
  ForkchoiceUpdated (viewOf (world s) headPayload) (attributesOf arg headBlk) (world s)
    = ((None, lvh, None), w) ->
  fst (notifyForkchoiceUpdate (S fuel) arg s) = Returns (None, None) /\
  PayloadIDCache (snd (notifyForkchoiceUpdate (S fuel) arg s)) = PayloadIDCache s.
Proof.
  intros Hreach Hfcu. simpl.
  rewrite (body_valid _ arg s headBlk headPayload None lvh w Hreach Hfcu).
  unfold notifyForkchoiceUpdate_valid, bind, emit, call, read, ret. simpl.
  destruct (SetOptimisticToValid (headRoot arg) w) as [[err |] w']; simpl; [done |].
  destruct (IsEmpty (attributesOf arg headBlk)); simpl; [done |].
  by destruct PrepareAllPayloads.
Qed.

Lemma removeInvalidBlockAndState_returns blkRoots s :
  exists err s', removeInvalidBlockAndState blkRoots s = (Returns err, s').
Proof.
  revert s. induction blkRoots as [| root rest IH]; intros s; simpl.
  - by eexists _, _.
  - unfold bind, call, emit, ret.
    destruct (DeleteStateFromCaches root (world s)) as [[e1 |] w1]; simpl;
      [by eexists _, _ |].
    destruct (DeleteBlock root w1) as [[e2 |] w2]; simpl; [by eexists _, _ |].
    destruct (blobStorage_Remove root w2) as [[e3 |] w3]; simpl; apply IH.
Qed.

(** C3, amended: when the engine reports INVALID and every step of the
    recovery succeeds (fork choice invalidates the head, the invalid blocks
    and states are removed, fork choice names a new head, its block and state
    load) and the call on the new head returns no error, the call returns the
    payload id of that call together with an [invalidBlock] whose [root] is
    the head root first submitted and whose [invalidAncestorRoots] are the
    roots [SetOptimisticToInvalid] returned. *)
Theorem invalid_head_returns_record_of_submitted_root
    fuel arg s headBlk headPayload pid0 lvh e w1 invalidRoots w2 s3 r w4 b w5 st w6 pid s7 :
  reachesEngine arg headBlk headPayload ->
  ForkchoiceUpdated (viewOf (world s) headPayload) (attributesOf arg headBlk) (world s)
    = ((pid0, lvh, Some e), w1) ->
  errors_Is e ErrInvalidPayloadStatus = true ->
  SetOptimisticToInvalid (headRoot arg) (ParentRoot headBlk)
    (ToBytes32 (if (length lvh =? 0)%nat then defaultLatestValidHash else lvh)) w1
    = (Ok invalidRoots, w2) ->
  removeInvalidBlockAndState invalidRoots
    (after s w2
       [CallForkchoiceUpdated (viewOf (world s) headPayload) (attributesOf arg headBlk);
        Inc "forkchoiceUpdatedInvalidNodeCount";
        CallSetOptimisticToInvalid (headRoot arg) (ParentRoot headBlk)
          (ToBytes32 (if (length lvh =? 0)%nat then defaultLatestValidHash else lvh))])
    = (Returns None, s3) ->
  Head (world s3) = (Ok r, w4) ->
  getBlock r w4 = (Ok b, w5) ->
  StateByRoot r w5 = (Ok st, w6) ->
  notifyForkchoiceUpdate fuel
    {| headState := st; headBlock := b; headRoot := r;
       attributes := Some (attributesOf arg headBlk) |}
    (after s3 w6 [CallHead; CallGetBlock r; CallStateByRoot r])
    = (Returns (pid, None), s7) ->
  fst (notifyForkchoiceUpdate (S fuel) arg s) =
  Returns (pid,
           Some (invalidBlockError
                   {| invalidAncestorRoots := invalidRoots;
                      error_ := sentinelError ErrInvalidPayload;
                      root := headRoot arg;
                      lastValidHash := zeroBytes32 |})).
Proof.
  intros Hreach Hfcu Hinv Hsoi Hrm Hhead Hblock Hstate Hrec. simpl.
  rewrite (body_invalid _ arg s headBlk headPayload pid0 lvh e w1 Hreach Hfcu Hinv).
  unfold notifyForkchoiceUpdate_invalid.
  rewrite bind_emit_at. cbv zeta.
  rewrite (bind_call_at _ _ _ _ _ _ _ _ Hsoi). simpl app.
  rewrite (bind_returns _ _ _ _ _ Hrm).
  rewrite (bind_call _ _ _ _ _ _ Hhead).
  rewrite (bind_call_at _ _ _ _ _ _ _ _ Hblock).
  rewrite (bind_call_at _ _ _ _ _ _ _ _ Hstate). simpl app.
  rewrite (bind_returns _ _ _ _ _ Hrec).
  unfold bind, call, emit, ret. simpl.
  destruct (saveHead r b st (world s7)) as [[err |] w8]; reflexivity.
Qed.

(** The other ends of the recovery.  When fork choice names no new head, the
    record is returned with a nil payload id and nothing is notified again. *)
Lemma invalid_head_without_new_head
    fuel arg s headBlk headPayload pid0 lvh e w1 invalidRoots w2 s3 err w4 :
  reachesEngine arg headBlk headPayload ->
  ForkchoiceUpdated (viewOf (world s) headPayload) (attributesOf arg headBlk) (world s)
    = ((pid0, lvh, Some e), w1) ->
  errors_Is e ErrInvalidPayloadStatus = true ->
  SetOptimisticToInvalid (headRoot arg) (ParentRoot headBlk)
    (ToBytes32 (if (length lvh =? 0)%nat then defaultLatestValidHash else lvh)) w1
    = (Ok invalidRoots, w2) ->
  removeInvalidBlockAndState invalidRoots
    (after s w2
       [CallForkchoiceUpdated (viewOf (world s) headPayload) (attributesOf arg headBlk);
        Inc "forkchoiceUpdatedInvalidNodeCount";
        CallSetOptimisticToInvalid (headRoot arg) (ParentRoot headBlk)
          (ToBytes32 (if (length lvh =? 0)%nat then defaultLatestValidHash else lvh))])
    = (Returns None, s3) ->
  Head (world s3) = (Err err, w4) ->
  fst (notifyForkchoiceUpdate (S fuel) arg s) =
  Returns (None, Some (fcuInvalidBlock (headRoot arg) invalidRoots)).
Proof.
  intros Hreach Hfcu Hinv Hsoi Hrm Hhead. simpl.
  rewrite (body_invalid _ arg s headBlk headPayload pid0 lvh e w1 Hreach Hfcu Hinv).
  unfold notifyForkchoiceUpdate_invalid.
  rewrite bind_emit_at. cbv zeta.
  rewrite (bind_call_at _ _ _ _ _ _ _ _ Hsoi). simpl app.
  rewrite (bind_returns _ _ _ _ _ Hrm).
  by rewrite (bind_call _ _ _ _ _ _ Hhead).
Qed.

(** When the call on the new head returns an error, that error is returned
    as it is, with a nil payload id. *)
Lemma invalid_head_recursive_error
    fuel arg s headBlk headPayload pid0 lvh e w1 invalidRoots w2 s3 r w4 b w5 st w6 pid err s7 :
  reachesEngine arg headBlk headPayload ->
  ForkchoiceUpdated (viewOf (world s) headPayload) (attributesOf arg headBlk) (world s)
    = ((pid0, lvh, Some e), w1) ->
  errors_Is e ErrInvalidPayloadStatus = true ->
  SetOptimisticToInvalid (headRoot arg) (ParentRoot headBlk)
    (ToBytes32 (if (length lvh =? 0)%nat then defaultLatestValidHash else lvh)) w1
    = (Ok invalidRoots, w2) ->
  removeInvalidBlockAndState invalidRoots
    (after s w2
       [CallForkchoiceUpdated (viewOf (world s) headPayload) (attributesOf arg headBlk);
        Inc "forkchoiceUpdatedInvalidNodeCount";
        CallSetOptimisticToInvalid (headRoot arg) (ParentRoot headBlk)
          (ToBytes32 (if (length lvh =? 0)%nat then defaultLatestValidHash else lvh))])
    = (Returns None, s3) ->
  Head (world s3) = (Ok r, w4) ->
  getBlock r w4 = (Ok b, w5) ->
  StateByRoot r w5 = (Ok st, w6) ->
  notifyForkchoiceUpdate fuel
    {| headState := st; headBlock := b; headRoot := r;
       attributes := Some (attributesOf arg headBlk) |}
    (after s3 w6 [CallHead; CallGetBlock r; CallStateByRoot r])
    = (Returns (pid, Some err), s7) ->
  notifyForkchoiceUpdate (S fuel) arg s = (Returns (None, Some err), s7).
Proof.
  intros Hreach Hfcu Hinv Hsoi Hrm Hhead Hblock Hstate Hrec. simpl.
  rewrite (body_invalid _ arg s headBlk headPayload pid0 lvh e w1 Hreach Hfcu Hinv).
  unfold notifyForkchoiceUpdate_invalid.
  rewrite bind_emit_at. cbv zeta.
  rewrite (bind_call_at _ _ _ _ _ _ _ _ Hsoi). simpl app.
  rewrite (bind_returns _ _ _ _ _ Hrm).
  rewrite (bind_call _ _ _ _ _ _ Hhead).
  rewrite (bind_call_at _ _ _ _ _ _ _ _ Hblock).
  rewrite (bind_call_at _ _ _ _ _ _ _ _ Hstate). simpl app.
  by rewrite (bind_returns _ _ _ _ _ Hrec).
Qed.

(** C4, amended: [pruneInvalidBlock] always returns a non-nil error.  When
    fork choice fails to invalidate, or a removal fails, it is that failure's
    error, unchanged; when both succeed it is an [invalidBlock] with the given
    [lastValidHash] and the roots fork choice invalidated. *)
Theorem pruneInvalidBlock_error root parentRoot lvh s :
  (exists err s', pruneInvalidBlock root parentRoot lvh s = (Returns (Some err), s')) /\
  (forall err w,
     SetOptimisticToInvalid root parentRoot lvh (world s) = (Err err, w) ->
     fst (pruneInvalidBlock root parentRoot lvh s) = Returns (Some err)) /\
  (forall invalidRoots w rm s',
     SetOptimisticToInvalid root parentRoot lvh (world s) = (Ok invalidRoots, w) ->
     removeInvalidBlockAndState invalidRoots
       (after s w [Inc "newPayloadInvalidNodeCount";
                   CallSetOptimisticToInvalid root parentRoot lvh]) = (Returns rm, s') ->
     fst (pruneInvalidBlock root parentRoot lvh s) =
     Returns (Some match rm with
                   | Some err => err
                   | None =>
                       invalidBlockError
                         {| invalidAncestorRoots := invalidRoots;
                            error_ := sentinelError ErrInvalidPayload;
                            root := zeroBytes32;
                            lastValidHash := lvh |}
                   end)).
Proof.
  unfold pruneInvalidBlock, bind, emit, call, ret, after. simpl.
  destruct (SetOptimisticToInvalid root parentRoot lvh (world s)) as [[invalidRoots | err] w];
    simpl.
  - rewrite <- app_assoc. simpl.
    match goal with
    | |- context [removeInvalidBlockAndState invalidRoots ?s1] =>
        destruct (removeInvalidBlockAndState_returns invalidRoots s1) as (rm & s' & Hrm)
    end.
    rewrite Hrm. split; [| split].
    + destruct rm; by eexists _, _.
    + intros ? ? [=].
    + intros ? ? ? ? [= <- <-] Hrm'. rewrite Hrm in Hrm'. injection Hrm' as <- <-.
      by destruct rm.
  - split; [| split].
    + by eexists _, _.
    + by intros ? ? [= <- <-].
    + intros ? ? ? ? [=].
Qed.

(** C5: for a non-nil signed block and a pre-state version before Bellatrix,
    [notifyNewPayload] returns [(true, nil)] and leaves the service as it was:
    no collaborator is called, the execution engine included. *)
Theorem pre_bellatrix_block_is_valid preStateVersion preStateHeader blk s :
  (preStateVersion < version_Bellatrix)%Z ->
  notifyNewPayload preStateVersion preStateHeader (Some blk) s = (Returns (true, None), s).
Proof.
  intros Hlt. unfold notifyNewPayload.
  by rewrite (proj2 (Z.ltb_lt _ _) Hlt).
Qed.

(** C10: for a nil signed block [notifyNewPayload] returns [false] and a
    non-nil error, whatever the pre-state version, so also before Bellatrix. *)
Theorem nil_block_is_an_error preStateVersion preStateHeader s :
  notifyNewPayload preStateVersion preStateHeader None s =
  (Returns (false, Some (errorsNew "signed beacon block can't be nil")), s).
Proof. unfold notifyNewPayload, ret. reflexivity. Qed.

End Proofs.

(** ** Further properties of [execution_engine.go] *)

Section MoreProofs.
Context {carrier : Carrier} {attribute : PayloadAttribute} {globals : Globals}
  {helpers : BlockHelpers} {forkchoice : ForkChoicer} {engine : EngineCaller}
  {stores : Stores}.

(** *** [notifyForkchoiceUpdate]: the ends that involve no recovery *)

(** X1: a head block that fails a nil check, is no execution block, or whose
    kind or payload cannot be read, never reaches a collaborator: the call
    returns [(nil, nil)], the world and the payload-id cache are as before,
    and the trace has gained at most an error log line. *)
Theorem head_short_of_engine_touches_nothing fuel arg s :
  (forall headBlk headPayload, ~ reachesEngine arg headBlk headPayload) ->
  fst (notifyForkchoiceUpdate (S fuel) arg s) = Returns (None, None) /\
  world (snd (notifyForkchoiceUpdate (S fuel) arg s)) = world s /\
  PayloadIDCache (snd (notifyForkchoiceUpdate (S fuel) arg s)) = PayloadIDCache s /\
  exists evs,
    trace (snd (notifyForkchoiceUpdate (S fuel) arg s)) = trace s ++ evs /\
    Forall (fun e => exists msg, e = Log "error" msg) evs.
Proof.
  intros Hshort. simpl. unfold notifyForkchoiceUpdate_body.
  assert (Hlog : forall msg,
            exists evs, trace s ++ [Log "error" msg] = trace s ++ evs /\
                        Forall (fun e => exists msg', e = Log "error" msg') evs).
  { intros msg. exists [Log "error" msg]. split; [done |]. constructor; eauto. }
  assert (Hnone : exists evs, trace s = trace s ++ evs /\
                              Forall (fun e => exists msg', e = Log "error" msg') evs).
  { exists []. split; [by rewrite app_nil_r | constructor]. }
  destruct (headBlock arg) as [hb |] eqn:Hhb; [| cbn; auto].
  destruct (sb_IsNil hb) eqn:Hnil; [cbn; auto |].
  destruct (Block hb) as [headBlk |] eqn:Hblk; [| cbn; auto].
  destruct (blk_IsNil headBlk) eqn:Hbnil; [cbn; auto |].
  destruct (body_IsNil (Body headBlk)) eqn:Hbody; [cbn; auto |]. cbn [orb].
  destruct (IsExecutionBlock (Body headBlk)) as [[|] | err] eqn:Hexec; [| cbn; auto ..].
  destruct (Execution (Body headBlk)) as [headPayload | err] eqn:Hpay; [| cbn; auto].
  exfalso. apply (Hshort headBlk headPayload). exists hb. repeat split; assumption.
Qed.

(** X2: when the engine answers ACCEPTED or SYNCING, the call returns the
    engine's payload id without an error; it counts the optimistic answer and
    logs it, and calls neither fork choice nor the cache. *)
Theorem syncing_answer_leaves_head_optimistic
    fuel arg s headBlk headPayload pid lvh e w :
  reachesEngine arg headBlk headPayload ->
  ForkchoiceUpdated (viewOf (world s) headPayload) (attributesOf arg headBlk) (world s)
    = ((pid, lvh, Some e), w) ->
  errors_Is e ErrAcceptedSyncingPayloadStatus = true ->
  notifyForkchoiceUpdate (S fuel) arg s =
  (Returns (pid, None),
   after s w
     [CallForkchoiceUpdated (viewOf (world s) headPayload) (attributesOf arg headBlk);
      Inc "forkchoiceUpdatedOptimisticNodeCount";
      Log "info" "Called fork choice updated with optimistic block"]).
Proof.
  intros (hb & Hhb & Hnil & Hblk & Hbnil & Hbody & Hexec & Hpay) Hfcu Hacc.
  simpl. unfold notifyForkchoiceUpdate_body.
  rewrite Hhb, Hnil, Hblk, Hbnil, Hbody, Hexec, Hpay. simpl.
  unfold bind, read, call, emit, ret, after. simpl.
  unfold viewOf, attributesOf in Hfcu. rewrite Hfcu. simpl. rewrite Hacc. simpl.
  by rewrite <- !app_assoc.
Qed.

(** X3: an engine error that is neither ACCEPTED/SYNCING nor INVALID is
    logged and swallowed: the call returns [(nil, nil)], also when the engine
    sent a payload id, and fork choice is not called. *)
Theorem undefined_engine_error_is_swallowed
    fuel arg s headBlk headPayload pid lvh e w :
  reachesEngine arg headBlk headPayload ->
  ForkchoiceUpdated (viewOf (world s) headPayload) (attributesOf arg headBlk) (world s)
    = ((pid, lvh, Some e), w) ->
  errors_Is e ErrAcceptedSyncingPayloadStatus = false ->
  errors_Is e ErrInvalidPayloadStatus = false ->
  notifyForkchoiceUpdate (S fuel) arg s =
  (Returns (None, None),
   after s w
     [CallForkchoiceUpdated (viewOf (world s) headPayload) (attributesOf arg headBlk);
      Log "error" "ErrUndefinedExecutionEngineError"]).
Proof.
  intros (hb & Hhb & Hnil & Hblk & Hbnil & Hbody & Hexec & Hpay) Hfcu Hacc Hinv.
  simpl. unfold notifyForkchoiceUpdate_body.
  rewrite Hhb, Hnil, Hblk, Hbnil, Hbody, Hexec, Hpay. simpl.
  unfold bind, read, call, emit, ret, after. simpl.
  unfold viewOf, attributesOf in Hfcu. rewrite Hfcu. simpl. rewrite Hacc, Hinv. simpl.
  by rewrite <- !app_assoc.
Qed.

(** X4: when the engine answers VALID and fork choice cannot mark the head
    valid, the call returns [(nil, nil)]: the engine's payload id is dropped
    and nothing is written to the payload-id cache. *)
Theorem failed_validation_drops_payload_id
    fuel arg s headBlk headPayload pid lvh w err w' :
  reachesEngine arg headBlk headPayload ->
  ForkchoiceUpdated (viewOf (world s) headPayload) (attributesOf arg headBlk) (world s)
    = ((pid, lvh, None), w) ->
  SetOptimisticToValid (headRoot arg) w = (Some err, w') ->
  notifyForkchoiceUpdate (S fuel) arg s =
  (Returns (None, None),
   after s w'
     [CallForkchoiceUpdated (viewOf (world s) headPayload) (attributesOf arg headBlk);
      Inc "forkchoiceUpdatedValidNodeCount";
      CallSetOptimisticToValid (headRoot arg);
      Log "error" "Could not set head root to valid"]).
Proof.
  intros Hreach Hfcu Hvalid. simpl.
  rewrite (body_valid _ arg s headBlk headPayload pid lvh w Hreach Hfcu).
  unfold notifyForkchoiceUpdate_valid.
  rewrite bind_emit_at, (bind_call_at _ _ _ _ _ _ _ _ Hvalid), bind_emit_at.
  reflexivity.
Qed.

(** A step back through a bind. *)
Lemma bind_inv {A B} (m : M Service A) (k : A -> M Service B) s r s' :
  bind m k s = (Returns r, s') ->
  exists a s1, m s = (Returns a, s1) /\ k a s1 = (Returns r, s').
Proof.
  unfold bind. destruct (m s) as [[a | why |] s1]; [eauto | discriminate ..].
Qed.

Ltac returned_step :=
  match goal with
  | H : bind _ _ _ = (Returns _, _) |- _ =>
      apply bind_inv in H; destruct H as (? & ? & ? & H)
  | H : ret _ _ = (Returns _, _) |- _ =>
      unfold ret in H; injection H as ? ?; subst
  | H : (match ?x with _ => _ end) _ = (Returns _, _) |- _ => destruct x
  | H : (if ?b then _ else _) _ = (Returns _, _) |- _ => destruct b
  end.

Lemma invalid_case_errors self arg headBlk attrs lvh s pid err s' :
  (forall a s0 pid0 err0 s1,
     self a s0 = (Returns (pid0, Some err0), s1) ->
     exists r roots, err0 = fcuInvalidBlock r roots) ->
  notifyForkchoiceUpdate_invalid self arg headBlk attrs lvh s = (Returns (pid, Some err), s') ->
  exists r roots, err = fcuInvalidBlock r roots.
Proof.
  intros Hself Hrun. unfold notifyForkchoiceUpdate_invalid in Hrun.
  repeat returned_step; try discriminate;
    try (match goal with H : (_, Some _) = (_, Some _) |- _ => injection H as ? ?; subst end);
    eauto.
Qed.

(** X5: whatever happens, an error that [notifyForkchoiceUpdate] returns is
    an [invalidBlock] for [ErrInvalidPayload] that names a root and the roots
    fork choice invalidated; errors of the engine, of fork choice and of the
    stores are never returned. *)
Theorem returned_error_is_an_invalid_block fuel arg s pid err s' :
  notifyForkchoiceUpdate fuel arg s = (Returns (pid, Some err), s') ->
  exists r roots,
    err = invalidBlockError
            {| invalidAncestorRoots := roots;
               error_ := sentinelError ErrInvalidPayload;
               root := r;
               lastValidHash := zeroBytes32 |}.
Proof.
  revert arg s pid err s'. induction fuel as [| fuel IH]; intros arg s pid err s'; simpl.
  - discriminate.
  - unfold notifyForkchoiceUpdate_body. intros Hrun.
    repeat returned_step; try discriminate.
    + eapply invalid_case_errors; [| eassumption]. intros. eapply IH. eassumption.
    + unfold notifyForkchoiceUpdate_valid in *.
      repeat returned_step; discriminate.
Qed.

(** *** [removeInvalidBlockAndState] *)

(** X6: the removal goes through the roots in order and, for each root,
    through the state caches, the block store and the blob store in that
    order, and stops where a call fails: the calls made are a prefix of that
    sequence, and all of it when the removal returns no error.  The
    payload-id cache is not touched. *)
Theorem removal_follows_the_roots blkRoots s :
  exists evs,
    trace (snd (removeInvalidBlockAndState blkRoots s)) = trace s ++ evs /\
    List.filter isCall evs `prefix_of` removalCalls blkRoots /\
    (fst (removeInvalidBlockAndState blkRoots s) = Returns None ->
     List.filter isCall evs = removalCalls blkRoots) /\
    PayloadIDCache (snd (removeInvalidBlockAndState blkRoots s)) = PayloadIDCache s.
Proof.
  revert s. induction blkRoots as [| root rest IH]; intros s.
  - exists []. simpl. rewrite app_nil_r. repeat split; done.
  - cbn [removeInvalidBlockAndState].
    destruct (DeleteStateFromCaches root (world s)) as [[e1 |] w1] eqn:H1;
      rewrite (bind_call _ _ _ _ _ _ H1).
    { exists [CallDeleteStateFromCaches root]. cbn.
      split; [done | split; [by eexists | split; [discriminate | done]]]. }
    destruct (DeleteBlock root w1) as [[e2 |] w2] eqn:H2;
      rewrite (bind_call_at _ _ _ _ _ _ _ _ H2).
    { exists [CallDeleteStateFromCaches root; CallDeleteBlock root]. cbn.
      split; [done | split; [by eexists | split; [discriminate | done]]]. }
    destruct (blobStorage_Remove root w2) as [e3 w3] eqn:H3.
    rewrite (bind_call_at _ _ _ _ _ _ _ _ H3). cbn [app].
    assert (Hlog : exists logs,
              List.filter isCall logs = [] /\
              forall B (k : unit -> M Service B),
                bind (match e3 with
                      | Some _ => emit (Log "debug" "Could not remove blob from blob storage")
                      | None => ret tt
                      end) k
                  (after s w3 [CallDeleteStateFromCaches root; CallDeleteBlock root;
                               CallBlobRemove root]) =
                k tt (after s w3 ([CallDeleteStateFromCaches root; CallDeleteBlock root;
                                   CallBlobRemove root] ++ logs))).
    { destruct e3 as [e3 |].
      - exists [Log "debug" "Could not remove blob from blob storage"].
        split; [reflexivity |]. intros. apply bind_emit_at.
      - exists []. split; [reflexivity |]. intros. by rewrite app_nil_r. }
    destruct Hlog as (logs & Hlogs & Hbind). rewrite Hbind.
    destruct (IH (after s w3 ([CallDeleteStateFromCaches root; CallDeleteBlock root;
                               CallBlobRemove root] ++ logs)))
      as (evs & Hevs & Hprefix & Hall & Hkeep).
    exists (([CallDeleteStateFromCaches root; CallDeleteBlock root; CallBlobRemove root]
               ++ logs) ++ evs).
    rewrite Hevs, Hkeep. cbn [after trace PayloadIDCache].
    rewrite !List.filter_app, Hlogs. cbn [List.filter isCall app removalCalls flat_map].
    split; [by rewrite <- !app_assoc | split; [| split; [| done]]].
    + destruct Hprefix as [k Hk]. exists k. unfold removalCalls in Hk. by rewrite Hk.
    + intros Hnone. specialize (Hall Hnone). unfold removalCalls in Hall. by rewrite Hall.
Qed.


(** X7: a failure of the blob store never fails the removal: when the state
    caches and the block store accept every deletion, the removal returns no
    error, whatever the blob store answers. *)
Theorem blob_failures_do_not_fail_the_removal blkRoots s :
  (forall root w, fst (DeleteStateFromCaches root w) = None) ->
  (forall root w, fst (DeleteBlock root w) = None) ->
  fst (removeInvalidBlockAndState blkRoots s) = Returns None.
Proof.
  intros Hstate Hblock. revert s.
  induction blkRoots as [| root rest IH]; intros s; [done |].
  cbn [removeInvalidBlockAndState]. unfold bind at 1, call at 1.
  pose proof (Hstate root (world s)) as H1.
  destruct (DeleteStateFromCaches root (world s)) as [e1 w1]. simpl in H1. subst e1.
  unfold bind at 1, call at 1. cbn [world PayloadIDCache trace].
  pose proof (Hblock root w1) as H2.
  destruct (DeleteBlock root w1) as [e2 w2]. simpl in H2. subst e2.
  unfold bind at 1, call at 1. cbn [world PayloadIDCache trace].
  destruct (blobStorage_Remove root w2) as [[e3 |] w3]; unfold bind, emit, ret; apply IH.
Qed.

(** *** [notifyNewPayload] *)

(** X8: from Bellatrix on, a block for which execution is not enabled is
    valid without the engine: [notifyNewPayload] returns [(true, nil)] and
    calls no collaborator. *)
Theorem execution_not_enabled_is_valid preStateVersion preStateHeader blk block s :
  (version_Bellatrix <= preStateVersion)%Z ->
  BeaconBlockIsNil blk = None ->
  Block blk = Some block ->
  IsExecutionEnabledUsingHeader preStateHeader (Body block) = Ok false ->
  notifyNewPayload preStateVersion preStateHeader (Some blk) s = (Returns (true, None), s).
Proof.
  intros Hversion Hnil Hblock Hdisabled. unfold notifyNewPayload.
  rewrite (proj2 (Z.ltb_ge _ _) Hversion), Hnil, Hblock. cbv zeta.
  by rewrite Hdisabled.
Qed.

Lemma blobArguments_run blk block versionedHashes parentRoot :
  blobArguments blk block versionedHashes parentRoot ->
  (if (version_Deneb <=? Version blk)%Z
   then match kzgCommitmentsToVersionedHashes (Body block) with
        | Err err => Err (errorsWrap err "could not get versioned hashes to feed the engine")
        | Ok hashes => Ok (hashes, Some (ParentRoot block))
        end
   else Ok ([], None)) = Ok (versionedHashes, parentRoot).
Proof.
  intros [(Hlt & -> & ->) | (Hge & commitments & Hkzg & -> & ->)].
  - by rewrite (proj2 (Z.leb_gt _ _) Hlt).
  - rewrite (proj2 (Z.leb_le _ _) Hge). unfold kzgCommitmentsToVersionedHashes.
    by rewrite Hkzg.
Qed.

Lemma requestArguments_run blk block requests :
  requestArguments blk block requests ->
  (if (version_Electra <=? Version blk)%Z
   then match body_ExecutionRequests (Body block) with
        | Err err => Err (errorsWrap err "could not get execution requests")
        | Ok r => Ok (Some r)
        end
   else Ok None) = Ok requests.
Proof.
  intros [(Hlt & ->) | (Hge & r & Hreq & ->)].
  - by rewrite (proj2 (Z.leb_gt _ _) Hlt).
  - rewrite (proj2 (Z.leb_le _ _) Hge). by rewrite Hreq.
Qed.

Lemma notifyNewPayload_engine
    preStateVersion preStateHeader blk block payload versionedHashes parentRoot requests s :
  payloadReachesEngine preStateVersion preStateHeader blk block payload ->
  blobArguments blk block versionedHashes parentRoot ->
  requestArguments blk block requests ->
  notifyNewPayload preStateVersion preStateHeader (Some blk) s =
  bind (call (CallNewPayload payload versionedHashes parentRoot requests)
             (NewPayload payload versionedHashes parentRoot requests))
       (fun '(lastValidHash, err) =>
          match err with
          | None => bind (emit (Inc "newPayloadValidNodeCount")) (fun _ => ret (true, None))
          | Some e =>
              if errors_Is e ErrAcceptedSyncingPayloadStatus then
                bind (emit (Inc "newPayloadOptimisticNodeCount"))
                  (fun _ => bind (emit (Log "info" "Called new payload with optimistic block"))
                              (fun _ => ret (false, None)))
              else if errors_Is e ErrInvalidPayloadStatus then
                ret (false, Some (invalidBlockError
                                    {| invalidAncestorRoots := [];
                                       error_ := sentinelError ErrInvalidPayload;
                                       root := zeroBytes32;
                                       lastValidHash := ToBytes32 lastValidHash |}))
              else
                ret (false, Some (errorsWithMessage
                                    (sentinelError ErrUndefinedExecutionEngineError) e))
          end) s.
Proof.
  intros (Hversion & Hnil & Hblock & Henabled & Hpayload) Hblob Hreq.
  unfold notifyNewPayload.
  rewrite (proj2 (Z.ltb_ge _ _) Hversion), Hnil, Hblock. cbv zeta.
  rewrite Henabled, Hpayload.
  by rewrite (blobArguments_run _ _ _ _ Hblob), (requestArguments_run _ _ _ Hreq).
Qed.

(** X9: a block that reaches the engine is submitted once, with its payload,
    with one versioned hash per blob commitment and its parent root from
    Deneb on (none before), and with its execution requests from Electra on;
    the verdict follows the engine's answer.  No error is VALID, ACCEPTED or
    SYNCING is [(false, nil)], INVALID is an [invalidBlock] that carries the
    engine's last valid hash, and any other error comes back under
    [ErrUndefinedExecutionEngineError], which is no [invalidBlock]. *)
Theorem new_payload_verdict_follows_engine
    preStateVersion preStateHeader blk block payload versionedHashes parentRoot requests s
    lvh err w :
  payloadReachesEngine preStateVersion preStateHeader blk block payload ->
  blobArguments blk block versionedHashes parentRoot ->
  requestArguments blk block requests ->
  NewPayload payload versionedHashes parentRoot requests (world s) = ((lvh, err), w) ->
  List.filter isCall
    (drop (length (trace s))
       (trace (snd (notifyNewPayload preStateVersion preStateHeader (Some blk) s)))) =
    [CallNewPayload payload versionedHashes parentRoot requests] /\
  world (snd (notifyNewPayload preStateVersion preStateHeader (Some blk) s)) = w /\
  (err = None ->
   fst (notifyNewPayload preStateVersion preStateHeader (Some blk) s) = Returns (true, None)) /\
  (forall e, err = Some e -> errors_Is e ErrAcceptedSyncingPayloadStatus = true ->
   fst (notifyNewPayload preStateVersion preStateHeader (Some blk) s) = Returns (false, None)) /\
  (forall e, err = Some e -> errors_Is e ErrInvalidPayloadStatus = true ->
   fst (notifyNewPayload preStateVersion preStateHeader (Some blk) s) =
   Returns (false,
            Some (invalidBlockError
                    {| invalidAncestorRoots := [];
                       error_ := sentinelError ErrInvalidPayload;
                       root := zeroBytes32;
                       lastValidHash := ToBytes32 lvh |}))) /\
  (forall e, err = Some e ->
   errors_Is e ErrAcceptedSyncingPayloadStatus = false ->
   errors_Is e ErrInvalidPayloadStatus = false ->
   exists wrapped,
     fst (notifyNewPayload preStateVersion preStateHeader (Some blk) s)
       = Returns (false, Some wrapped) /\
     errors_Is wrapped ErrUndefinedExecutionEngineError = true /\
     carriesInvalidBlock wrapped = None).
Proof.
  intros Hreach Hblob Hreq Hengine.
  rewrite (notifyNewPayload_engine _ _ _ _ _ _ _ _ s Hreach Hblob Hreq).
  rewrite (bind_call _ _ _ _ _ _ Hengine).
  destruct err as [e |].
  - destruct (errors_Is e ErrAcceptedSyncingPayloadStatus) eqn:Hacc;
      [| destruct (errors_Is e ErrInvalidPayloadStatus) eqn:Hinv].
    + cbn. rewrite <- !app_assoc, drop_app_length. cbn.
      repeat split; try done.
      * intros e' [= <-] Hinv'. pose proof (invalid_is_not_syncing e Hinv'). congruence.
      * intros e' [= <-]. congruence.
    + cbn. rewrite drop_app_length. cbn.
      repeat split; try done.
      * intros e' [= <-]. congruence.
      * intros e' [= <-]. congruence.
    + cbn. rewrite drop_app_length. cbn.
      repeat split; try done.
      * intros e' [= <-]. congruence.
      * intros e' [= <-]. congruence.
      * intros e' [= <-] _ _. eexists. split; [reflexivity |]. split; reflexivity.
  - cbn. rewrite <- !app_assoc, drop_app_length. cbn.
    repeat split; try done.
Qed.

Lemma blobArguments_of_run blk block versionedHashes parentRoot :
  (if (version_Deneb <=? Version blk)%Z
   then match kzgCommitmentsToVersionedHashes (Body block) with
        | Err err => Err (errorsWrap err "could not get versioned hashes to feed the engine")
        | Ok hashes => Ok (hashes, Some (ParentRoot block))
        end
   else Ok ([], None)) = Ok (versionedHashes, parentRoot) ->
  blobArguments blk block versionedHashes parentRoot.
Proof.
  destruct (Z.leb_spec version_Deneb (Version blk)) as [Hge | Hlt].
  - unfold kzgCommitmentsToVersionedHashes.
    destruct (BlobKzgCommitments (Body block)) as [commitments | err] eqn:Hkzg;
      [| discriminate].
    intros [= <- <-]. right. split; [done |]. by exists commitments.
  - intros [= <- <-]. by left.
Qed.

Lemma requestArguments_of_run blk block requests :
  (if (version_Electra <=? Version blk)%Z
   then match body_ExecutionRequests (Body block) with
        | Err err => Err (errorsWrap err "could not get execution requests")
        | Ok r => Ok (Some r)
        end
   else Ok None) = Ok requests ->
  requestArguments blk block requests.
Proof.
  destruct (Z.leb_spec version_Electra (Version blk)) as [Hge | Hlt].
  - destruct (body_ExecutionRequests (Body block)) as [r | err] eqn:Hreq; [| discriminate].
    intros [= <-]. right. split; [done |]. by exists r.
  - intros [= <-]. by left.
Qed.

(** X10: [notifyNewPayload] never returns [true] together with an error, and
    it returns [(false, nil)] only for an optimistic block: the block passed
    every check, the engine was called with the block's payload, versioned
    hashes, parent root and requests, it answered ACCEPTED or SYNCING, and
    the service ends right after that call, the optimistic counter and the
    log line. *)
Theorem new_payload_true_has_no_error preStateVersion preStateHeader blk s b e s' :
  notifyNewPayload preStateVersion preStateHeader blk s = (Returns (b, e), s') ->
  (b = true -> e = None) /\
  (b = false -> e = None ->
   exists signed block payload versionedHashes parentRoot requests lvh e0 w,
     blk = Some signed /\
     payloadReachesEngine preStateVersion preStateHeader signed block payload /\
     blobArguments signed block versionedHashes parentRoot /\
     requestArguments signed block requests /\
     NewPayload payload versionedHashes parentRoot requests (world s) = ((lvh, Some e0), w) /\
     errors_Is e0 ErrAcceptedSyncingPayloadStatus = true /\
     s' = after s w [CallNewPayload payload versionedHashes parentRoot requests;
                     Inc "newPayloadOptimisticNodeCount";
                     Log "info" "Called new payload with optimistic block"]).
Proof.
  unfold notifyNewPayload, ret, panic.
  destruct blk as [signed |]; [| intros [= <- <- <-]; split; discriminate].
  destruct (Z.ltb_spec preStateVersion version_Bellatrix) as [Hpre | Hversion];
    [intros [= <- <- <-]; split; [done | discriminate] |].
  destruct (BeaconBlockIsNil signed) as [err |] eqn:Hnil;
    [intros [= <- <- <-]; split; discriminate |].
  destruct (Block signed) as [block |] eqn:Hblock; [| discriminate]. cbv zeta.
  destruct (IsExecutionEnabledUsingHeader preStateHeader (Body block)) as [[|] | err]
    eqn:Henabled;
    [| intros [= <- <- <-]; split; [done | discriminate]
     | intros [= <- <- <-]; split; discriminate].
  destruct (Execution (Body block)) as [payload | err] eqn:Hpayload;
    [| intros [= <- <- <-]; split; discriminate].
  destruct (if (version_Deneb <=? Version signed)%Z then _ else _)
    as [[versionedHashes parentRoot] | err] eqn:Hdeneb;
    [| intros [= <- <- <-]; split; discriminate].
  destruct (if (version_Electra <=? Version signed)%Z then _ else _) as [requests | err]
    eqn:Helectra;
    [| intros [= <- <- <-]; split; discriminate].
  destruct (NewPayload payload versionedHashes parentRoot requests (world s))
    as [[lvh err] w] eqn:Hengine.
  rewrite (bind_call _ _ _ _ _ _ Hengine).
  destruct err as [e0 |].
  - destruct (errors_Is e0 ErrAcceptedSyncingPayloadStatus) eqn:Hacc;
      [| destruct (errors_Is e0 ErrInvalidPayloadStatus);
         intros [= <- <- <-]; split; discriminate].
    rewrite !bind_emit_at. intros [= <- <- <-]. split; [discriminate |]. intros _ _.
    exists signed, block, payload, versionedHashes, parentRoot, requests, lvh, e0, w.
    split; [done |]. split; [by repeat split |].
    split; [by apply blobArguments_of_run |].
    split; [by apply requestArguments_of_run |]. done.
  - rewrite bind_emit_at. intros [= <- <- <-]. split; [done | discriminate].
Qed.

(** X11: [notifyNewPayload] talks to the engine and to nobody else.  Either
    it leaves the service as it found it, or it made one call, [NewPayload],
    first, and then only counted and logged; fork choice, the stores and the
    payload-id cache are never touched, whatever the verdict. *)
Theorem new_payload_calls_only_the_engine preStateVersion preStateHeader blk s :
  snd (notifyNewPayload preStateVersion preStateHeader blk s) = s \/
  exists payload versionedHashes parentRoot requests evs,
    snd (notifyNewPayload preStateVersion preStateHeader blk s) =
      after s (snd (NewPayload payload versionedHashes parentRoot requests (world s)))
        (CallNewPayload payload versionedHashes parentRoot requests :: evs) /\
    List.filter isCall evs = [].
Proof.
  unfold notifyNewPayload.
  destruct blk as [blk |]; [| by left].
  destruct (preStateVersion <? version_Bellatrix)%Z; [by left |].
  destruct (BeaconBlockIsNil blk); [by left |].
  destruct (Block blk) as [block |]; [| by left]. cbv zeta.
  destruct (IsExecutionEnabledUsingHeader preStateHeader (Body block)) as [[|] | err];
    [| by left ..].
  destruct (Execution (Body block)) as [payload | err]; [| by left].
  destruct (if (version_Deneb <=? Version blk)%Z then _ else _)
    as [[versionedHashes parentRoot] | err]; [| by left].
  destruct (if (version_Electra <=? Version blk)%Z then _ else _) as [requests | err];
    [| by left].
  right. exists payload, versionedHashes, parentRoot, requests.
  destruct (NewPayload payload versionedHashes parentRoot requests (world s))
    as [[lvh err] w] eqn:Hengine.
  rewrite (bind_call _ _ _ _ _ _ Hengine). cbn [snd].
  destruct err as [e |].
  - destruct (errors_Is e ErrAcceptedSyncingPayloadStatus);
      [| destruct (errors_Is e ErrInvalidPayloadStatus)].
    + exists [Inc "newPayloadOptimisticNodeCount";
              Log "info" "Called new payload with optimistic block"].
      split; [| done]. cbn. unfold after. cbn. by rewrite <- !app_assoc.
    + by exists [].
    + by exists [].
  - exists [Inc "newPayloadValidNodeCount"]. split; [| done].
    cbn. unfold after. cbn. by rewrite <- !app_assoc.
Qed.

End MoreProofs.


(** ** [getPayloadAttribute] *)

Section AttributeProofs.
Context {carrier : Carrier} {attribute : PayloadAttribute} {globals : Globals}
  {attributeHelpers : AttributeHelpers}.

Lemma after_nothing (s : Service) : after s (world s) [] = s.
Proof. destruct s. unfold after. simpl. by rewrite app_nil_r. Qed.

Lemma logError_returns {A} msg (a : A) (s : Service) :
  bind (logError msg) (fun _ => ret a) s = (Returns a, after s (world s) [Log "error" msg]).
Proof. reflexivity. Qed.

(** The ends of the last part of [getPayloadAttribute]: a logged failure with
    the empty attribute it was given, or an attribute built from a request
    that fits the state. *)
Lemma build_cases emptyAttri st slot headRoot val s :
  exists a evs,
    getPayloadAttribute_build emptyAttri st slot headRoot val s =
      (Returns a, after s (world s) evs) /\
    ((exists msg, evs = [Log "error" msg] /\ a = emptyAttri) \/
     (evs = [] /\
      exists req, payloadattribute_New req = Ok a /\
                  SuggestedFeeRecipient req = FeeRecipient val /\
                  requestFits st headRoot req)).
Proof.
  unfold getPayloadAttribute_build.
  destruct (RandaoMix st (time_CurrentEpoch st)) as [prevRando | err];
    [| rewrite logError_returns; eauto 10].
  unfold bind at 1, read at 1.
  destruct (slots_ToTime _ slot) as [t | err]; [| rewrite logError_returns; eauto 10].
  destruct ((st_Version st =? version_Deneb) || (st_Version st =? version_Electra))%Z
    eqn:Hdeneb.
  { destruct (ExpectedWithdrawals st) as [withdrawals | err] eqn:Hwd;
      [| rewrite logError_returns; eauto 10].
    destruct (payloadattribute_New _) as [attr | err] eqn:Hnew;
      [| rewrite logError_returns; eauto 10].
    exists attr, []. rewrite after_nothing. split; [done |]. right. split; [done |].
    eexists. split; [exact Hnew |]. split; [done |]. simpl.
    apply orb_true_iff in Hdeneb. rewrite !Z.eqb_eq in Hdeneb. done. }
  destruct (st_Version st =? version_Capella)%Z eqn:Hcapella.
  { destruct (ExpectedWithdrawals st) as [withdrawals | err] eqn:Hwd;
      [| rewrite logError_returns; eauto 10].
    destruct (payloadattribute_New _) as [attr | err] eqn:Hnew;
      [| rewrite logError_returns; eauto 10].
    exists attr, []. rewrite after_nothing. split; [done |]. right. split; [done |].
    eexists. split; [exact Hnew |]. split; [done |]. simpl.
    apply Z.eqb_eq in Hcapella. done. }
  destruct (st_Version st =? version_Bellatrix)%Z eqn:Hbellatrix;
    [| rewrite logError_returns; eauto 10].
  destruct (payloadattribute_New _) as [attr | err] eqn:Hnew;
    [| rewrite logError_returns; eauto 10].
  exists attr, []. rewrite after_nothing. split; [done |]. right. split; [done |].
  eexists. split; [exact Hnew |]. split; [done |]. simpl.
  by apply Z.eqb_eq in Hbellatrix.
Qed.

(** The ends of [getPayloadAttribute]. *)
Lemma getPayloadAttribute_cases st slot headRoot s :
  exists a evs,
    getPayloadAttribute st slot headRoot s = (Returns a, after s (world s) evs) /\
    ((exists msg, evs = [Log "error" msg] /\ a = EmptyWithVersion (st_Version st)) \/
     (evs = [] /\ slots_ToEpoch slot = slots_ToEpoch (st_Slot st) /\
      snd (trackedProposer (world s) st slot) = false /\
      a = EmptyWithVersion (st_Version st)) \/
     (evs = [] /\ (slots_ToEpoch (st_Slot st) < slots_ToEpoch slot)%N /\
      exists st', advancedState st slot headRoot = Ok st' /\
                  snd (trackedProposer (world s) st' slot) = false /\
                  a = EmptyWithVersion (st_Version st')) \/
     (evs = [] /\
      exists st' req val,
        advancedState st slot headRoot = Ok st' /\
        payloadattribute_New req = Ok a /\
        SuggestedFeeRecipient req = FeeRecipient val /\
        requestFits st' headRoot req /\
        proposerFound (world s) st st' slot val)).
Proof.
  assert (Hadvance : forall val,
            (slots_ToEpoch slot = slots_ToEpoch (st_Slot st) /\
             trackedProposer (world s) st slot = (val, true)) \/
            (slots_ToEpoch slot <> slots_ToEpoch (st_Slot st) /\ val = zeroTrackedValidator) ->
            exists a evs,
              getPayloadAttribute_advance (EmptyWithVersion (st_Version st))
                (slots_ToEpoch slot) (slots_ToEpoch (st_Slot st)) st slot headRoot val s =
                (Returns a, after s (world s) evs) /\
              ((exists msg, evs = [Log "error" msg] /\ a = EmptyWithVersion (st_Version st)) \/
               (evs = [] /\ (slots_ToEpoch (st_Slot st) < slots_ToEpoch slot)%N /\
                exists st', advancedState st slot headRoot = Ok st' /\
                            snd (trackedProposer (world s) st' slot) = false /\
                            a = EmptyWithVersion (st_Version st')) \/
               (evs = [] /\
                exists st' req val',
                  advancedState st slot headRoot = Ok st' /\
                  payloadattribute_New req = Ok a /\
                  SuggestedFeeRecipient req = FeeRecipient val' /\
                  requestFits st' headRoot req /\
                  proposerFound (world s) st st' slot val'))).
  { intros val Hval. unfold getPayloadAttribute_advance.
    fold (advancedState st slot headRoot).
    destruct (advancedState st slot headRoot) as [st' | err] eqn:Hadv;
      [| rewrite logError_returns; eauto 10].
    destruct (slots_ToEpoch (st_Slot st) <? slots_ToEpoch slot)%N eqn:Hlater.
    - apply N.ltb_lt in Hlater. unfold bind at 1, read at 1.
      destruct (trackedProposer (world s) st' slot) as [val' [|]] eqn:Htracked; cbn [negb].
      + destruct (build_cases (EmptyWithVersion (st_Version st)) st' slot headRoot val' s)
          as (a & evs & -> & [Hlog | (Hnil & req & Hnew & Hfee & Hfits)]);
          exists a, evs; (split; [done |]); [by left |].
        right. right. split; [done |]. exists st', req, val'.
        repeat (split; [done |]). right. left. done.
      + exists (EmptyWithVersion (st_Version st')), []. rewrite after_nothing.
        split; [done |]. right. left. split; [done |]. split; [done |].
        exists st'. by rewrite Htracked.
    - apply N.ltb_ge in Hlater.
      destruct (build_cases (EmptyWithVersion (st_Version st)) st' slot headRoot val s)
        as (a & evs & -> & [Hlog | (Hnil & req & Hnew & Hfee & Hfits)]);
        exists a, evs; (split; [done |]); [by left |].
      right. right. split; [done |]. exists st', req, val.
      repeat (split; [done |]).
      destruct Hval as [[Hsame Htracked] | [Hother ->]].
      + by left.
      + right. right. split; [lia | done]. }
  unfold getPayloadAttribute.
  destruct (slots_ToEpoch slot =? slots_ToEpoch (st_Slot st))%N eqn:Hsame.
  - apply N.eqb_eq in Hsame. unfold bind at 1, read at 1.
    destruct (trackedProposer (world s) st slot) as [val [|]] eqn:Htracked; cbn [negb].
    + destruct (Hadvance val) as (a & evs & Hrun & Hcases); [by left |].
      exists a, evs. split; [done |].
      destruct Hcases as [Hlog | [Hlater | Hbuilt]]; [by left | | by do 3 right].
      destruct Hlater as (_ & Hlt & _). lia.
    + exists (EmptyWithVersion (st_Version st)), []. rewrite after_nothing.
      split; [done |]. right. left. done.
  - apply N.eqb_neq in Hsame.
    destruct (Hadvance zeroTrackedValidator) as (a & evs & Hrun & Hcases); [by right |].
    exists a, evs. split; [done |].
    destruct Hcases as [Hlog | [Hlater | Hbuilt]]; [by left | by right; right; left | by do 3 right].
Qed.

(** X12: for a slot of the state's own epoch whose proposer is not tracked,
    [getPayloadAttribute] returns the empty attribute of the state's version
    at once: nothing is logged and the service is as before. *)
Theorem untracked_proposer_gets_empty_attribute st slot headRoot s val :
  slots_ToEpoch slot = slots_ToEpoch (st_Slot st) ->
  trackedProposer (world s) st slot = (val, false) ->
  getPayloadAttribute st slot headRoot s = (Returns (EmptyWithVersion (st_Version st)), s).
Proof.
  intros Hsame Htracked. unfold getPayloadAttribute.
  rewrite (proj2 (N.eqb_eq _ _) Hsame). unfold bind, read. by rewrite Htracked.
Qed.

(** X13: for a slot of a later epoch the proposer is looked up on the state
    advanced to the slot, and when it is not tracked the empty attribute
    carries the version of the advanced state, not of the given one. *)
Theorem later_epoch_checks_proposer_after_advance st slot headRoot s st' val :
  (slots_ToEpoch (st_Slot st) < slots_ToEpoch slot)%N ->
  advancedState st slot headRoot = Ok st' ->
  trackedProposer (world s) st' slot = (val, false) ->
  getPayloadAttribute st slot headRoot s = (Returns (EmptyWithVersion (st_Version st')), s).
Proof.
  intros Hlater Hadvanced Htracked. unfold getPayloadAttribute.
  rewrite (proj2 (N.eqb_neq _ _)) by lia.
  unfold getPayloadAttribute_advance. fold (advancedState st slot headRoot).
  rewrite Hadvanced, (proj2 (N.ltb_lt _ _) Hlater).
  unfold bind, read. by rewrite Htracked.
Qed.

(** X14: [getPayloadAttribute] always returns, and never moves the world or
    the payload-id cache.  It logs at most one line, an error, and whenever
    it logs it returns the empty attribute of the version of the state as
    given, also when the failure came after the state was advanced. *)
Theorem attribute_failure_is_logged_and_empty st slot headRoot s :
  exists a evs,
    getPayloadAttribute st slot headRoot s = (Returns a, after s (world s) evs) /\
    (evs = [] \/
     exists msg, evs = [Log "error" msg] /\ a = EmptyWithVersion (st_Version st)).
Proof.
  destruct (getPayloadAttribute_cases st slot headRoot s) as (a & evs & Hrun & Hcases).
  exists a, evs. split; [done |].
  destruct Hcases as [Hlog | [(-> & _) | [(-> & _) | (-> & _)]]]; auto.
Qed.

(** X15: an attribute that is returned is an empty one or was built by
    [payloadattribute.New] from a request that fits the state advanced to the
    slot (its kind by the state's version, the state's expected withdrawals,
    the head root as parent root), and whose fee recipient is that of the
    tracked proposer: looked up on the given state for a slot of its epoch,
    on the advanced state for a later epoch, and the zero value, without a
    lookup, for an earlier epoch. *)
Theorem built_attribute_fits_state_and_proposer st slot headRoot s a :
  fst (getPayloadAttribute st slot headRoot s) = Returns a ->
  (exists version, a = EmptyWithVersion version) \/
  exists st' req val,
    advancedState st slot headRoot = Ok st' /\
    payloadattribute_New req = Ok a /\
    SuggestedFeeRecipient req = FeeRecipient val /\
    requestFits st' headRoot req /\
    proposerFound (world s) st st' slot val.
Proof.
  destruct (getPayloadAttribute_cases st slot headRoot s) as (a' & evs & -> & Hcases).
  intros [= <-].
  destruct Hcases as [(msg & _ & ->) | [(_ & _ & _ & ->) | [(_ & _ & st' & _ & _ & ->) | (_ & H)]]];
    eauto.
Qed.

End AttributeProofs.

(** *** Runs on the scripted collaborators *)

Import scripted.

(** Runs the call of a hypothesis; the state it leaves is the one the call
    computes. *)
Ltac by_running :=
  lazymatch goal with
  | |- ?lhs = (_, ?state) =>
      tryif is_evar state then unify state (snd lhs) else idtac;
      vm_compute; reflexivity
  | |- _ => vm_compute; reflexivity
  end.

(** The scripted head block passes every check before the engine call. *)
Lemma headAA_reachesEngine attrs :
  reachesEngine (headAA attrs)
    {| blk_IsNil := false;
       Body := {| body_IsNil := false;
                  Execution := Ok {| BlockHash := hashCC; ParentHash := hashCC |};
                  BlobKzgCommitments := Ok [];
                  body_ExecutionRequests := Ok tt |};
       Slot := 31; ParentRoot := rootBB; blk_Version := 4 |}
    {| BlockHash := hashCC; ParentHash := hashCC |}.
Proof. exists (blockWithParent rootBB). repeat split. Defined.

(** The engine answers INVALID with an empty hash for the head [rootAA]. *)
Lemma empty_last_valid_hash_becomes_sentinel_witness :
  errors_Is invalidPayload ErrInvalidPayloadStatus = true /\
  exists rest,
    trace (snd (notifyForkchoiceUpdate 2 (headAA None) (service (invalidHead [])))) =
    [] ++
    [CallForkchoiceUpdated
       {| HeadBlockHash := hashCC; SafeBlockHash := zeroBytes32;
          FinalizedBlockHash := zeroBytes32 |} (noProposal 4);
     Inc "forkchoiceUpdatedInvalidNodeCount";
     CallSetOptimisticToInvalid rootAA rootBB (xff :: repeat x00 31)] ++ rest.
Proof.
  split; [reflexivity |].
  exact (empty_last_valid_hash_becomes_sentinel 1 (headAA None) (service (invalidHead []))
           _ _ None invalidPayload _ (headAA_reachesEngine None) eq_refl eq_refl).
Defined.

(** The same run: the hash passed to [SetOptimisticToInvalid] is 0xff and 31
    zero bytes, which is not the 32-byte value whose every byte is 0xff. *)
Lemma sentinel_passed_is_not_all_ff :
  fst (nextAnswer (invalidHead [])) = (None, [], Some invalidPayload) /\
  errors_Is invalidPayload ErrInvalidPayloadStatus = true /\
  firstn 3 (trace (snd (notifyForkchoiceUpdate 2 (headAA None) (service (invalidHead []))))) =
    [CallForkchoiceUpdated
       {| HeadBlockHash := hashCC; SafeBlockHash := zeroBytes32;
          FinalizedBlockHash := zeroBytes32 |} (noProposal 4);
     Inc "forkchoiceUpdatedInvalidNodeCount";
     CallSetOptimisticToInvalid rootAA rootBB (xff :: repeat x00 31)] /\
  bool_decide (xff :: repeat x00 31 = repeat xff 32) = false.
Proof. repeat apply conj; vm_compute; reflexivity. Qed.

(** The engine answers VALID with a payload id to a call with attributes, at
    slot 31. *)
Lemma valid_update_with_payload_id_is_cached_witness :
  IsEmpty (proposal 5) = false /\
  fst (notifyForkchoiceUpdate 1 (headAA (Some (proposal 5))) (service (validHead (Some payloadId))))
    = Returns (Some payloadId, None) /\
  PayloadIDCache
    (snd (notifyForkchoiceUpdate 1 (headAA (Some (proposal 5)))
            (service (validHead (Some payloadId)))))
    !! (uint64_add (CurrentSlot (snd (nextAnswer (validHead (Some payloadId))))) 1,
        headRoot (headAA (Some (proposal 5)))) = Some payloadId /\
  trace (snd (notifyForkchoiceUpdate 1 (headAA (Some (proposal 5)))
                (service (validHead (Some payloadId))))) =
    trace (service (validHead (Some payloadId))) ++
      [CallForkchoiceUpdated
         (viewOf (world (service (validHead (Some payloadId))))
            {| BlockHash := hashCC; ParentHash := hashCC |})
         (proposal 5);
       Inc "forkchoiceUpdatedValidNodeCount";
       CallSetOptimisticToValid (headRoot (headAA (Some (proposal 5))));
       Log "info" "Forkchoice updated with payload attributes for proposal";
       CallPayloadIDCacheSet
         (uint64_add (CurrentSlot (snd (nextAnswer (validHead (Some payloadId))))) 1)
         (headRoot (headAA (Some (proposal 5)))) payloadId].
Proof.
  split; [reflexivity |].
  exact (valid_update_with_payload_id_is_cached 0 (headAA (Some (proposal 5)))
           (service (validHead (Some payloadId))) _ _ (proposal 5) payloadId []
           (snd (nextAnswer (validHead (Some payloadId))))
           (snd (nextAnswer (validHead (Some payloadId))))
           (headAA_reachesEngine _) eq_refl eq_refl eq_refl eq_refl).
Defined.

(** The engine answers VALID without a payload id to a call with attributes:
    the call returns no error and the cache stays empty. *)
Lemma valid_update_without_payload_id_caches_nothing :
  IsEmpty (proposal 5) = false /\
  fst (nextAnswer (validHead None)) = (None, [], None) /\
  fst (notifyForkchoiceUpdate 1 (headAA (Some (proposal 5))) (service (validHead None)))
    = Returns (None, None) /\
  PayloadIDCache
    (snd (notifyForkchoiceUpdate 1 (headAA (Some (proposal 5))) (service (validHead None))))
    = ∅.
Proof. repeat apply conj; vm_compute; reflexivity. Qed.

(** The recovery of the spec's scenario S2: head [rootAA] with parent
    [rootBB], fork choice invalidates [rootAA] and [rootAD] and moves to
    [rootBB], for which the engine then answers VALID. *)
Lemma invalid_head_returns_record_of_submitted_root_witness :
  fst (notifyForkchoiceUpdate 2 (headAA None) (service (invalidHead hashCC))) =
  Returns (Some payloadId,
           Some (invalidBlockError
                   {| invalidAncestorRoots := [rootAA; rootAD];
                      error_ := sentinelError ErrInvalidPayload;
                      root := rootAA;
                      lastValidHash := zeroBytes32 |})).
Proof.
  eapply (invalid_head_returns_record_of_submitted_root 1 (headAA None)
            (service (invalidHead hashCC)) _ _ None hashCC invalidPayload _
            [rootAA; rootAD] _ _ rootBB _ (Some (blockWithParent zeroBytes32)) _ tt _
            (Some payloadId));
    [ apply headAA_reachesEngine | by_running .. ].
Defined.

(** The engine answers INVALID and [SetOptimisticToInvalid] fails: the call
    returns [(nil, nil)]. *)
Lemma failed_invalidation_returns_no_error :
  fst (nextAnswer invalidHeadStuck) = (None, hashCC, Some invalidPayload) /\
  errors_Is invalidPayload ErrInvalidPayloadStatus = true /\
  fst (notifyForkchoiceUpdate 2 (headAA None) (service invalidHeadStuck)) = Returns (None, None).
Proof. repeat split. Qed.

(** [SetOptimisticToInvalid] fails: [pruneInvalidBlock] returns that error,
    which is no [invalidBlock]. *)
Lemma pruning_failure_is_not_invalidity_record :
  fst (pruneInvalidBlock rootAA rootBB hashCC (service invalidHeadStuck)) =
    Returns (Some (errorsNew "node not found")) /\
  carriesInvalidBlock (errorsNew "node not found") = None.
Proof. repeat split. Qed.

(** A block at pre-state version 1, with Bellatrix at 2. *)
Lemma pre_bellatrix_block_is_valid_witness :
  (1 < version_Bellatrix)%Z /\
  notifyNewPayload 1 {| BlockHash := hashCC; ParentHash := hashCC |}
    (Some (blockWithParent rootBB)) (service (validHead None)) =
  (Returns (true, None), service (validHead None)).
Proof.
  split; [reflexivity |].
  exact (pre_bellatrix_block_is_valid 1 _ (blockWithParent rootBB) _ eq_refl).
Defined.

(** *** Further runs on the scripted collaborators *)

(** A call without a head block. *)
Lemma head_short_of_engine_touches_nothing_witness :
  fst (notifyForkchoiceUpdate 1 headless (service (validHead None))) = Returns (None, None) /\
  world (snd (notifyForkchoiceUpdate 1 headless (service (validHead None)))) = validHead None /\
  PayloadIDCache (snd (notifyForkchoiceUpdate 1 headless (service (validHead None)))) = ∅ /\
  exists evs,
    trace (snd (notifyForkchoiceUpdate 1 headless (service (validHead None)))) = [] ++ evs /\
    Forall (fun e => exists msg, e = Log "error" msg) evs.
Proof.
  apply (head_short_of_engine_touches_nothing 0 headless (service (validHead None))).
  intros headBlk headPayload (hb & Hhb & _). discriminate Hhb.
Defined.

(** The engine answers SYNCING, with a payload id. *)
Lemma syncing_answer_leaves_head_optimistic_witness :
  notifyForkchoiceUpdate 1 (headAA None) (service (engineError syncingPayload)) =
  (Returns (Some payloadId, None),
   after (service (engineError syncingPayload)) (snd (nextAnswer (engineError syncingPayload)))
     [CallForkchoiceUpdated
        (viewOf (engineError syncingPayload) {| BlockHash := hashCC; ParentHash := hashCC |})
        (noProposal 4);
      Inc "forkchoiceUpdatedOptimisticNodeCount";
      Log "info" "Called fork choice updated with optimistic block"]).
Proof.
  exact (syncing_answer_leaves_head_optimistic 0 (headAA None)
           (service (engineError syncingPayload)) _ _ (Some payloadId) [] syncingPayload _
           (headAA_reachesEngine None) eq_refl eq_refl).
Defined.

(** The engine cannot be reached and answers with an error of its own. *)
Lemma undefined_engine_error_is_swallowed_witness :
  notifyForkchoiceUpdate 1 (headAA None) (service (engineError (errorsNew "timeout"))) =
  (Returns (None, None),
   after (service (engineError (errorsNew "timeout")))
     (snd (nextAnswer (engineError (errorsNew "timeout"))))
     [CallForkchoiceUpdated
        (viewOf (engineError (errorsNew "timeout"))
           {| BlockHash := hashCC; ParentHash := hashCC |})
        (noProposal 4);
      Log "error" "ErrUndefinedExecutionEngineError"]).
Proof.
  exact (undefined_engine_error_is_swallowed 0 (headAA None)
           (service (engineError (errorsNew "timeout"))) _ _ (Some payloadId) []
           (errorsNew "timeout") _ (headAA_reachesEngine None) eq_refl eq_refl eq_refl).
Defined.

(** The engine answers VALID with a payload id to a call with attributes and
    fork choice does not know the head. *)
Lemma failed_validation_drops_payload_id_witness :
  notifyForkchoiceUpdate 1 (headAA (Some (proposal 5))) (service validHeadStuck) =
  (Returns (None, None),
   after (service validHeadStuck) (snd (nextAnswer validHeadStuck))
     [CallForkchoiceUpdated
        (viewOf validHeadStuck {| BlockHash := hashCC; ParentHash := hashCC |})
        (proposal 5);
      Inc "forkchoiceUpdatedValidNodeCount";
      CallSetOptimisticToValid rootAA;
      Log "error" "Could not set head root to valid"]).
Proof.
  exact (failed_validation_drops_payload_id 0 (headAA (Some (proposal 5)))
           (service validHeadStuck) _ _ (Some payloadId) [] _ (errorsNew "node not found") _
           (headAA_reachesEngine _) eq_refl eq_refl).
Defined.

(** The error of the recovery from the invalid head [rootAA]. *)
Lemma returned_error_is_an_invalid_block_witness :
  exists r roots,
    invalidBlockError
      {| invalidAncestorRoots := [rootAA; rootAD];
         error_ := sentinelError ErrInvalidPayload;
         root := rootAA;
         lastValidHash := zeroBytes32 |} =
    invalidBlockError
      {| invalidAncestorRoots := roots;
         error_ := sentinelError ErrInvalidPayload;
         root := r;
         lastValidHash := zeroBytes32 |}.
Proof.
  eapply (returned_error_is_an_invalid_block 2 (headAA None) (service (invalidHead hashCC))
            (Some payloadId)).
  by_running.
Defined.

(** The scripted blob store fails every removal. *)
Lemma blob_failures_do_not_fail_the_removal_witness :
  fst (blobStorage_Remove rootAA (validHead None)) = Some (errorsNew "blob not found") /\
  fst (removeInvalidBlockAndState [rootAA; rootAD] (service (validHead None))) = Returns None.
Proof.
  split; [reflexivity |].
  exact (blob_failures_do_not_fail_the_removal [rootAA; rootAD] (service (validHead None))
           (fun _ _ => eq_refl) (fun _ _ => eq_refl)).
Defined.

(** A Deneb block under block helpers for which execution is not enabled. *)
Lemma execution_not_enabled_is_valid_witness :
  notifyNewPayload (helpers := preMerge) 4 {| BlockHash := hashCC; ParentHash := hashCC |}
    (Some (blockWithParent rootBB)) (service (payloadAnswer [] (Some invalidPayload))) =
  (Returns (true, None), service (payloadAnswer [] (Some invalidPayload))).
Proof.
  eapply (execution_not_enabled_is_valid (helpers := preMerge) 4 _ (blockWithParent rootBB));
    [by vm_compute | reflexivity ..].
Defined.

(** A Deneb block with no blob, to which the engine answers INVALID with the
    last valid hash [hashCC]. *)
Lemma new_payload_verdict_follows_engine_witness :
  List.filter isCall
    (trace (snd (notifyNewPayload 4 {| BlockHash := hashCC; ParentHash := hashCC |}
                   (Some (blockWithParent rootBB))
                   (service (payloadAnswer hashCC (Some invalidPayload)))))) =
    [CallNewPayload {| BlockHash := hashCC; ParentHash := hashCC |} [] (Some rootBB) None] /\
  fst (notifyNewPayload 4 {| BlockHash := hashCC; ParentHash := hashCC |}
         (Some (blockWithParent rootBB))
         (service (payloadAnswer hashCC (Some invalidPayload)))) =
  Returns (false,
           Some (invalidBlockError
                   {| invalidAncestorRoots := [];
                      error_ := sentinelError ErrInvalidPayload;
                      root := zeroBytes32;
                      lastValidHash := ToBytes32 hashCC |})).
Proof.
  destruct (new_payload_verdict_follows_engine 4 {| BlockHash := hashCC; ParentHash := hashCC |}
              (blockWithParent rootBB) (unsignedWithParent rootBB)
              {| BlockHash := hashCC; ParentHash := hashCC |}
              [] (Some rootBB) None (service (payloadAnswer hashCC (Some invalidPayload)))
              hashCC (Some invalidPayload) (payloadAnswer hashCC (Some invalidPayload)))
    as (Hcalls & _ & _ & _ & Hinvalid & _).
  - repeat split. by vm_compute.
  - right. split; [by vm_compute |]. exists []. repeat split.
  - left. split; [by vm_compute | reflexivity].
  - reflexivity.
  - split; [exact Hcalls | exact (Hinvalid invalidPayload eq_refl eq_refl)].
Defined.

(** A Deneb block with no blob, to which the engine answers SYNCING. *)
Lemma new_payload_true_has_no_error_witness :
  (false = true -> @None error = None) /\
  (false = false -> @None error = None ->
   exists signed block payload versionedHashes parentRoot requests lvh e0 w,
     Some (blockWithParent rootBB) = Some signed /\
     payloadReachesEngine 4 {| BlockHash := hashCC; ParentHash := hashCC |}
       signed block payload /\
     blobArguments signed block versionedHashes parentRoot /\
     requestArguments signed block requests /\
     NewPayload payload versionedHashes parentRoot requests
       (world (service (payloadAnswer [] (Some syncingPayload)))) = ((lvh, Some e0), w) /\
     errors_Is e0 ErrAcceptedSyncingPayloadStatus = true /\
     snd (notifyNewPayload 4 {| BlockHash := hashCC; ParentHash := hashCC |}
            (Some (blockWithParent rootBB))
            (service (payloadAnswer [] (Some syncingPayload)))) =
     after (service (payloadAnswer [] (Some syncingPayload))) w
       [CallNewPayload payload versionedHashes parentRoot requests;
        Inc "newPayloadOptimisticNodeCount";
        Log "info" "Called new payload with optimistic block"]).
Proof.
  apply (new_payload_true_has_no_error 4 {| BlockHash := hashCC; ParentHash := hashCC |}
           (Some (blockWithParent rootBB)) (service (payloadAnswer [] (Some syncingPayload)))
           false None
           (snd (notifyNewPayload 4 {| BlockHash := hashCC; ParentHash := hashCC |}
                   (Some (blockWithParent rootBB))
                   (service (payloadAnswer [] (Some syncingPayload)))))).
  vm_compute. reflexivity.
Defined.

(** *** Runs of [getPayloadAttribute] on the scripted state *)

(** Slot 63 of the Deneb state's epoch, no proposer tracked. *)
Lemma untracked_proposer_gets_empty_attribute_witness :
  attributeFor denebState 63 rootAA [] = (Returns (emptyOfVersion 4), stateService []).
Proof.
  exact (@untracked_proposer_gets_empty_attribute stateCarrier stateAttribute globals
           stateHelpers denebState 63%N rootAA (stateService []) (repeat x00 20)
           eq_refl eq_refl).
Defined.

(** Slot 64, in the epoch after the Deneb state's: the state advanced to the
    slot is an Electra state, on which no proposer is tracked. *)
Lemma later_epoch_checks_proposer_after_advance_witness :
  attributeFor denebState 64 rootAA [] = (Returns (emptyOfVersion 5), stateService []).
Proof.
  exact (@later_epoch_checks_proposer_after_advance stateCarrier stateAttribute globals
           stateHelpers denebState 64%N rootAA (stateService [])
           {| stateSlot := 64; stateVersion := 5 |} (repeat x00 20)
           eq_refl eq_refl eq_refl).
Defined.

(** Slot 64 again, with its proposer tracked: a V3 request with the
    proposer's fee recipient and the head root. *)
Lemma built_attribute_fits_state_and_proposer_witness :
  fst (attributeFor denebState 64 rootAA [(64%N, feeEE)]) =
    Returns (builtFrom (PayloadAttributesV3 1768 hashCC feeEE [7%N] rootAA)) /\
  ((exists version,
      builtFrom (PayloadAttributesV3 1768 hashCC feeEE [7%N] rootAA) = emptyOfVersion version) \/
   exists st' req val,
     @advancedState stateCarrier stateHelpers denebState 64 rootAA = Ok st' /\
     @payloadattribute_New stateCarrier stateHelpers req =
       Ok (builtFrom (PayloadAttributesV3 1768 hashCC feeEE [7%N] rootAA)) /\
     SuggestedFeeRecipient req = @FeeRecipient stateCarrier stateHelpers val /\
     @requestFits stateCarrier globals stateHelpers st' rootAA req /\
     @proposerFound stateCarrier stateHelpers [(64%N, feeEE)] denebState st' 64 val).
Proof.
  split; [by vm_compute |].
  apply (@built_attribute_fits_state_and_proposer stateCarrier stateAttribute globals
           stateHelpers denebState 64%N rootAA (stateService [(64%N, feeEE)])).
  by vm_compute.
Defined.


End execution_engine.

(** ** Properties of [subnets.go] *)

Module subnets.
Import p2p.

Section Assignment.
Context (cfg : BeaconChainConfig) {crypto : Crypto}.

Lemma computeSubscribedSubnet_in_range nodeID epoch index sub :
  computeSubscribedSubnet cfg nodeID epoch index = Returns (Ok sub) ->
  (sub < AttestationSubnetCount cfg)%N.
Proof.
  unfold computeSubscribedSubnet.
  destruct (computeOffsetAndPrefix cfg nodeID) as [nodeOffset nodeIdPrefix].
  destruct (EpochsPerSubnetSubscription cfg =? 0)%N; [discriminate |].
  destruct (ComputeShuffledIndex _ _ _ _) as [permutatedPrefix | err]; [| discriminate].
  destruct (AttestationSubnetCount cfg =? 0)%N eqn:Hcount; [discriminate |].
  intros [= <-]. apply N.mod_lt. by apply N.eqb_neq.
Qed.

Lemma computeSubscribedSubnets_loop_spec nodeID epoch n i subs out :
  computeSubscribedSubnets_loop cfg nodeID epoch n i subs = Returns (Ok out) ->
  length out = (length subs + n)%nat /\
  (Forall (fun sub => (sub < AttestationSubnetCount cfg)%N) subs ->
   Forall (fun sub => (sub < AttestationSubnetCount cfg)%N) out).
Proof.
  revert i subs. induction n as [| n IH]; intros i subs; simpl.
  - intros [= <-]. split; [lia | auto].
  - destruct (computeSubscribedSubnet cfg nodeID epoch i) as [[sub | err] | why |] eqn:Hsub;
      try discriminate.
    intros Hloop. destruct (IH _ _ Hloop) as [Hlen Hall]. split.
    + rewrite Hlen, length_app. simpl. lia.
    + intros Hsubs. apply Hall. apply Forall_app. split; [done |].
      constructor; [| constructor]. by eapply computeSubscribedSubnet_in_range.
Qed.

(** C6: when [computeSubscribedSubnets] succeeds, the list it returns has
    exactly [SubnetsPerNode] entries and each entry lies in
    [[0, AttestationSubnetCount)].  Nothing keeps two entries apart. *)
Theorem subscribed_subnets_count_and_range nodeID epoch subs :
  computeSubscribedSubnets cfg nodeID epoch = Returns (Ok subs) ->
  length subs = N.to_nat (SubnetsPerNode cfg) /\
  Forall (fun sub => (0 <= sub < AttestationSubnetCount cfg)%N) subs.
Proof.
  unfold computeSubscribedSubnets. intros Hloop.
  destruct (computeSubscribedSubnets_loop_spec _ _ _ _ _ _ Hloop) as [Hlen Hall].
  split; [done |].
  eapply Forall_impl; [apply Hall; constructor |].
  intros sub Hsub. simpl in Hsub. lia.
Qed.

Lemma computeSubscribedSubnet_same_seed nodeID epoch1 epoch2 index :
  (uint64_add (fst (computeOffsetAndPrefix cfg nodeID)) epoch1
     / EpochsPerSubnetSubscription cfg =
   uint64_add (fst (computeOffsetAndPrefix cfg nodeID)) epoch2
     / EpochsPerSubnetSubscription cfg)%N ->
  computeSubscribedSubnet cfg nodeID epoch1 index =
  computeSubscribedSubnet cfg nodeID epoch2 index.
Proof.
  unfold computeSubscribedSubnet.
  destruct (computeOffsetAndPrefix cfg nodeID) as [nodeOffset nodeIdPrefix]. simpl.
  intros Hseed. by rewrite Hseed.
Qed.

Lemma computeSubscribedSubnets_loop_same_seed nodeID epoch1 epoch2 n i subs :
  (forall index,
     computeSubscribedSubnet cfg nodeID epoch1 index =
     computeSubscribedSubnet cfg nodeID epoch2 index) ->
  computeSubscribedSubnets_loop cfg nodeID epoch1 n i subs =
  computeSubscribedSubnets_loop cfg nodeID epoch2 n i subs.
Proof.
  intros Hsame. revert i subs.
  induction n as [| n IH]; intros i subs; simpl; [done |].
  rewrite (Hsame i).
  destruct (computeSubscribedSubnet cfg nodeID epoch2 i) as [[sub | err] | why |]; auto.
Qed.

(** [node_offset] is the node id modulo the window. *)
Lemma nodeOffset_is_remainder nodeID :
  (0 < EpochsPerSubnetSubscription cfg < 2 ^ 64)%N ->
  fst (computeOffsetAndPrefix cfg nodeID) =
  (uint256_SetBytes nodeID mod EpochsPerSubnetSubscription cfg)%N.
Proof.
  intros [Hpos Hlt]. unfold computeOffsetAndPrefix, uint256_Mod, Uint64, uint64_modulus. simpl.
  destruct (N.eqb_spec (EpochsPerSubnetSubscription cfg) 0) as [Hz | Hnz]; [lia |].
  apply N.mod_small.
  pose proof (N.mod_lt (uint256_SetBytes nodeID) _ Hnz). lia.
Qed.

(** A node id of 32 bytes is its big-endian number. *)
Lemma bigEndian_bound (b : bytes) (acc : N) :
  (fold_left (fun acc x => acc * 256 + Byte.to_N x) b acc
   < (acc + 1) * 256 ^ N.of_nat (length b))%N.
Proof.
  revert acc. induction b as [| x b IH]; intros acc; cbn [fold_left length].
  - change (N.of_nat 0) with 0%N. rewrite N.pow_0_r. lia.
  - specialize (IH (acc * 256 + Byte.to_N x)%N).
    pose proof (Byte.to_N_bounded x) as Hx.
    rewrite Nat2N.inj_succ, N.pow_succ_r'.
    eapply N.lt_le_trans; [exact IH |].
    rewrite N.mul_assoc. apply N.mul_le_mono_r. lia.
Qed.

Lemma uint256_SetBytes_node_id (nodeID : bytes) :
  length nodeID = 32%nat -> uint256_SetBytes nodeID = bigEndian nodeID.
Proof.
  intros Hlen. unfold uint256_SetBytes. apply N.mod_small.
  pose proof (bigEndian_bound nodeID 0) as Hbound. rewrite Hlen in Hbound.
  unfold bigEndian. change (256 ^ N.of_nat 32)%N with (2 ^ 256)%N in Hbound. lia.
Qed.

(** The quotient of a wrapped sum, for a window that divides [2^64]. *)
Lemma wrapped_quotient (a W : N) :
  (0 < W)%N -> (2 ^ 64 mod W = 0)%N ->
  ((a mod 2 ^ 64) / W = (a / W) mod (2 ^ 64 / W))%N.
Proof.
  intros Hpos Hdiv.
  assert (Hm : (2 ^ 64 = W * (2 ^ 64 / W))%N) by (apply N.Div0.div_exact; exact Hdiv).
  set (k := (2 ^ 64 / W)%N) in *. clearbody k.
  rewrite Hm at 1. rewrite N.Div0.mod_mul_r.
  rewrite N.add_comm, (N.mul_comm W), N.div_add_l by lia.
  rewrite (N.div_small (a mod W)) by (apply N.mod_lt; lia). lia.
Qed.

(** C7 (corrected): let [W = EpochsPerSubnetSubscription] be a window that is
    not zero and [node_offset] the node id modulo [W] ([uint256_SetBytes] of
    a node id of 32 bytes is its big-endian number, see
    [uint256_SetBytes_node_id]).  Two epochs with equal quotients
    [(node_offset + epoch) / W] over the integers get the same subnets
    (results, errors and panics alike), provided [W] divides [2^64], as the
    mainnet window of 256 epochs does, or the two sums stay below [2^64].
    Otherwise the code's [uint64] sum wraps around inside a window and the
    claim fails. *)
Theorem assignment_stable_within_window nodeID epoch1 epoch2 :
  (0 < EpochsPerSubnetSubscription cfg < 2 ^ 64)%N ->
  ((2 ^ 64 mod EpochsPerSubnetSubscription cfg = 0)%N \/
   ((uint256_SetBytes nodeID mod EpochsPerSubnetSubscription cfg + epoch1 < 2 ^ 64)%N /\
    (uint256_SetBytes nodeID mod EpochsPerSubnetSubscription cfg + epoch2 < 2 ^ 64)%N)) ->
  ((uint256_SetBytes nodeID mod EpochsPerSubnetSubscription cfg + epoch1)
     / EpochsPerSubnetSubscription cfg =
   (uint256_SetBytes nodeID mod EpochsPerSubnetSubscription cfg + epoch2)
     / EpochsPerSubnetSubscription cfg)%N ->
  computeSubscribedSubnets cfg nodeID epoch1 = computeSubscribedSubnets cfg nodeID epoch2.
Proof.
  intros Hw Hsums Hfloor. unfold computeSubscribedSubnets.
  apply computeSubscribedSubnets_loop_same_seed. intros index.
  apply computeSubscribedSubnet_same_seed.
  rewrite (nodeOffset_is_remainder nodeID Hw). unfold uint64_add, uint64_modulus.
  destruct Hsums as [Hdivides | [H1 H2]].
  - rewrite !wrapped_quotient by (lia || done). by rewrite Hfloor.
  - by rewrite (N.mod_small _ _ H1), (N.mod_small _ _ H2).
Qed.

End Assignment.
Section Service.
Context (cfg : BeaconChainConfig) (net : NetworkConfig)
  {carrier : Carrier} {network : Network}.

(** C8: on a service with a discovery listener, every call to
    [updateSubnetRecordWithMetadataV2] sets the metadata to the two bitfields
    given and to the previous sequence number plus one ([uint64] addition:
    exactly one more below [2^64 - 1]); a second call right after it does the
    same from there, so the two calls produce [k] and [k + 1]. *)
Theorem metadata_update_increments_sequence s l bitVAtt bitVSync :
  dv5Listener s = Some l ->
  exists s1,
    updateSubnetRecordWithMetadataV2 net bitVAtt bitVSync s = (Returns tt, s1) /\
    metaData s1 =
      WrappedMetadataV1
        {| v1_SeqNumber := uint64_add (SequenceNumber (metaData s)) 1;
           v1_Attnets := bitVAtt;
           v1_Syncnets := bitVSync |} /\
    ((SequenceNumber (metaData s) < 2 ^ 64 - 1)%N ->
     SequenceNumber (metaData s1) = (SequenceNumber (metaData s) + 1)%N) /\
    forall bitVAtt' bitVSync',
    exists s2,
      updateSubnetRecordWithMetadataV2 net bitVAtt' bitVSync' s1 = (Returns tt, s2) /\
      metaData s2 =
        WrappedMetadataV1
          {| v1_SeqNumber := uint64_add (SequenceNumber (metaData s1)) 1;
             v1_Attnets := bitVAtt';
             v1_Syncnets := bitVSync' |} /\
      ((SequenceNumber (metaData s) < 2 ^ 64 - 2)%N ->
       SequenceNumber (metaData s2) = (SequenceNumber (metaData s1) + 1)%N).
Proof.
  intros Hl. unfold updateSubnetRecordWithMetadataV2 at 1. rewrite Hl.
  eexists. split; [reflexivity |]. simpl. split; [reflexivity |]. split.
  - intros Hk. unfold uint64_add, uint64_modulus. apply N.mod_small. lia.
  - intros bitVAtt' bitVSync'. unfold updateSubnetRecordWithMetadataV2. simpl.
    eexists. split; [reflexivity |]. simpl. split; [reflexivity |].
    intros Hk. unfold uint64_add, uint64_modulus.
    rewrite (N.mod_small (SequenceNumber (metaData s) + 1)) by lia.
    apply N.mod_small. lia.
Qed.

Lemma defer_returns {A} (cleanup : M Service unit) (m : M Service A) s a s' :
  m s = (Returns a, s') -> defer cleanup m s = (Returns a, snd (cleanup s')).
Proof. intros Hm. unfold defer. by rewrite Hm. Qed.

Lemma loop_threshold_met fuel topic keep threshold s peers w :
  ListPeers topic (world s) = (peers, w) ->
  (threshold <= Z.of_nat (length peers))%Z ->
  FindPeersWithSubnet_loop net (S fuel) topic keep threshold s =
  (Returns (true, None),
   {| dv5Listener := dv5Listener s; metaData := metaData s; world := w;
      trace := trace s ++ [CallListPeers topic] |}).
Proof.
  intros Hpeers Hmet. simpl. unfold bind, call. rewrite Hpeers.
  by rewrite (proj2 (Z.leb_le _ _) Hmet).
Qed.

(** C9: with discovery enabled and a topic that, with the protocol suffix,
    is an attestation or a sync-committee topic, if pubsub already lists at
    least [threshold] peers for the suffixed topic when the loop is entered,
    [FindPeersWithSubnet] returns [(true, nil)]; it has asked for the random
    nodes, listed the peers and closed the iterator, and dialled nobody. *)
Theorem threshold_met_returns_without_dialing fuel topic index threshold s l peers w :
  dv5Listener s = Some l ->
  strings_Contains (String.append topic ProtocolSuffix) (GossipAttestationMessage net) = true \/
  strings_Contains (String.append topic ProtocolSuffix) (GossipSyncCommitteeMessage net) = true ->
  ListPeers (String.append topic ProtocolSuffix) (RandomNodes (world s)) = (peers, w) ->
  (threshold <= Z.of_nat (length peers))%Z ->
  FindPeersWithSubnet cfg net (S fuel) topic index threshold s =
  (Returns (true, None),
   {| dv5Listener := dv5Listener s;
      metaData := metaData s;
      world := iterator_Close w;
      trace := trace s ++
               [CallRandomNodes;
                CallListPeers (String.append topic ProtocolSuffix);
                CallIteratorClose] |}).
Proof.
  intros Hl Htopic Hpeers Hmet.
  unfold FindPeersWithSubnet. unfold bind at 1. rewrite Hl.
  unfold bind at 1. unfold call at 1. cbn beta iota.
  set (s1 := {| dv5Listener := _; metaData := _; world := RandomNodes (world s);
                trace := trace s ++ [CallRandomNodes] |}).
  assert (Hloop : forall keep,
            FindPeersWithSubnet_loop net (S fuel) (String.append topic ProtocolSuffix)
              keep threshold s1 =
            (Returns (true, None),
             {| dv5Listener := dv5Listener s; metaData := metaData s; world := w;
                trace := (trace s ++ [CallRandomNodes]) ++
                         [CallListPeers (String.append topic ProtocolSuffix)] |})).
  { intros keep. exact (loop_threshold_met fuel _ keep threshold s1 peers w Hpeers Hmet). }
  destruct (strings_Contains _ (GossipAttestationMessage net)) eqn:Hatt.
  - rewrite (defer_returns _ _ _ _ _ (Hloop _)). unfold call. simpl.
    by rewrite Hl, <- !app_assoc.
  - destruct Htopic as [? | Hsync]; [discriminate |]. rewrite Hsync.
    rewrite (defer_returns _ _ _ _ _ (Hloop _)). unfold call. simpl.
    by rewrite Hl, <- !app_assoc.
Qed.

End Service.
(** ** Further properties of [subnets.go] *)

(** *** The subnets of a record *)

Section Bitfields.
Context (cfg : BeaconChainConfig) (net : NetworkConfig).

Lemma elem_of_setBits (bit : N -> bool) (count i : N) :
  i ∈ setBits bit count <-> (i < count)%N /\ bit i = true.
Proof.
  unfold setBits. rewrite list_elem_of_filter, list_elem_of_In, in_map_iff. split.
  - intros (Hbit & k & <- & Hk). apply in_seq in Hk. split; [lia | done].
  - intros (Hlt & Hbit). split; [done |]. exists (N.to_nat i).
    split; [lia |]. apply in_seq. lia.
Qed.

Lemma filter_sorted {A} (R : A -> A -> Prop) (P : A -> Prop) `{!forall x, Decision (P x)}
    (l : list A) :
  StronglySorted R l -> StronglySorted R (filter P l).
Proof.
  induction 1 as [| a l Hsorted IH Hall]; [constructor |].
  rewrite filter_cons. destruct (decide (P a)); [| done].
  constructor; [done |]. apply Forall_forall. intros x Hx.
  apply list_elem_of_filter in Hx as [_ Hx]. by eapply Forall_forall in Hall.
Qed.

Lemma setBits_sorted (bit : N -> bool) (count : N) :
  StronglySorted N.lt (setBits bit count).
Proof.
  unfold setBits. apply filter_sorted.
  generalize (N.to_nat count) as n. intros n. generalize 0%nat as start.
  induction n as [| n IH]; intros start; simpl; constructor; [apply IH |].
  apply Forall_forall. intros x Hx. apply list_elem_of_In, in_map_iff in Hx.
  destruct Hx as (k & <- & Hk). apply in_seq in Hk. lia.
Qed.

Lemma lookup_marked (l : list N) (i : N) :
  (list_to_map (map (fun i => (i, true)) l) : gmap N bool) !! i =
  if decide (i ∈ l) then Some true else None.
Proof.
  induction l as [| x l IH].
  - cbn [map]. rewrite list_to_map_nil, lookup_empty.
    destruct (decide (i ∈ [])) as [Hin | _]; [| done]. by apply not_elem_of_nil in Hin.
  - cbn [map]. rewrite list_to_map_cons. cbn [fst snd].
    destruct (decide (x = i)) as [-> | Hne].
    + rewrite lookup_insert_eq.
      destruct (decide (i ∈ i :: l)) as [_ | Hout]; [done |].
      exfalso. apply Hout, list_elem_of_here.
    + rewrite lookup_insert_ne by done. rewrite IH.
      destruct (decide (i ∈ l)) as [Hin | Hout], (decide (i ∈ x :: l)) as [Hin' | Hout'];
        try done.
      * exfalso. apply Hout'. by apply list_elem_of_further.
      * exfalso. apply elem_of_cons in Hin' as [-> | Hin']; done.
Qed.

(** X16: when [attSubnets] succeeds, the record has an attestation entry of
    the length that [AttestationSubnetCount] bits need, and the map holds
    [true] exactly at the indices below the count whose bit is set; it holds
    nothing else, so an index that is missing reads as [false]. *)
Theorem attSubnets_holds_the_set_bits record subnets :
  attSubnets cfg net record = Ok subnets ->
  exists bitV,
    record !! AttSubnetKey net = Some bitV /\
    Z.of_nat (length bitV) = byteCount (int_of_uint64 (AttestationSubnetCount cfg)) /\
    forall i,
      subnets !! i =
      if (i <? AttestationSubnetCount cfg)%N && Bitvector64_BitAt bitV i
      then Some true else None.
Proof.
  unfold attSubnets, attBitvector.
  destruct (record !! AttSubnetKey net) as [bitV |]; [| discriminate].
  destruct (Z.eqb_spec (Z.of_nat (length bitV))
              (byteCount (int_of_uint64 (AttestationSubnetCount cfg)))) as [Hlen | Hlen];
    [| discriminate].
  simpl. intros [= <-]. exists bitV. split; [done |]. split; [done |].
  intros i. rewrite lookup_marked.
  destruct (decide (i ∈ setBits (Bitvector64_BitAt bitV) (AttestationSubnetCount cfg)))
    as [Hin | Hout].
  - apply elem_of_setBits in Hin as [Hlt Hbit].
    by rewrite (proj2 (N.ltb_lt _ _) Hlt), Hbit.
  - destruct (N.ltb_spec i (AttestationSubnetCount cfg)) as [Hlt | Hge]; [| done].
    destruct (Bitvector64_BitAt bitV i) eqn:Hbit; [| done].
    exfalso. apply Hout. by apply elem_of_setBits.
Qed.

(** X17: when [syncSubnets] succeeds, the record has a sync-committee entry
    of the length that [SyncCommitteeSubnetCount] bits need, and the list
    holds exactly the indices below the count whose bit is set, each once
    and in increasing order. *)
Theorem syncSubnets_lists_the_set_bits_in_order record subnets :
  syncSubnets cfg net record = Ok subnets ->
  exists bitV,
    record !! SyncCommsSubnetKey net = Some bitV /\
    Z.of_nat (length bitV) = byteCount (int_of_uint64 (SyncCommitteeSubnetCount cfg)) /\
    StronglySorted N.lt subnets /\
    forall i, i ∈ subnets <->
              (i < SyncCommitteeSubnetCount cfg)%N /\ Bitvector4_BitAt bitV i = true.
Proof.
  unfold syncSubnets, syncBitvector.
  destruct (record !! SyncCommsSubnetKey net) as [bitV |]; [| discriminate].
  destruct (Z.eqb_spec (Z.of_nat (length bitV))
              (byteCount (int_of_uint64 (SyncCommitteeSubnetCount cfg)))) as [Hlen | Hlen];
    [| discriminate].
  simpl. intros [= <-]. exists bitV. split; [done |]. split; [done |].
  split; [apply setBits_sorted | intros i; apply elem_of_setBits].
Qed.

End Bitfields.

(** *** The peer filters and the search *)

Section Search.
Context (cfg : BeaconChainConfig) (net : NetworkConfig)
  {carrier : Carrier} {network : Network}.

(** X18: the attestation filter accepts a node exactly when [filterPeer]
    accepts it and its record carries an attestation entry of the right
    length in which the bit of the subnet is set; an index at or beyond
    [AttestationSubnetCount] is never accepted. *)
Theorem att_filter_accepts_the_subscribed index w node :
  filterPeerForAttSubnet cfg net index w node = true <->
  filterPeer w node = true /\
  exists bitV,
    node_Record node !! AttSubnetKey net = Some bitV /\
    Z.of_nat (length bitV) = byteCount (int_of_uint64 (AttestationSubnetCount cfg)) /\
    (index < AttestationSubnetCount cfg)%N /\
    Bitvector64_BitAt bitV index = true.
Proof.
  unfold filterPeerForAttSubnet, attSubnets, attBitvector.
  destruct (filterPeer w node); cbn [negb]; [| split; [discriminate | by intros [? _]]].
  destruct (node_Record node !! AttSubnetKey net) as [bitV |];
    [| split; [discriminate | by intros (_ & ? & ? & _)]].
  destruct (Z.eqb_spec (Z.of_nat (length bitV))
              (byteCount (int_of_uint64 (AttestationSubnetCount cfg)))) as [Hlen | Hlen];
    cbn [negb].
  - rewrite lookup_marked.
    destruct (decide (index ∈ setBits (Bitvector64_BitAt bitV) (AttestationSubnetCount cfg)))
      as [Hin | Hout]; cbn [default from_option].
    + apply elem_of_setBits in Hin as [Hlt Hbit]. split; [| done].
      intros _. split; [done |]. by exists bitV.
    + split; [discriminate |]. intros (_ & bitV' & [= <-] & _ & Hlt & Hbit).
      exfalso. apply Hout. by apply elem_of_setBits.
  - split; [discriminate |]. by intros (_ & bitV' & [= <-] & Hlen' & _).
Qed.

(** X19: the sync-committee filter accepts a node exactly when [filterPeer]
    accepts it and its record carries a sync-committee entry of the right
    length in which the bit of the subnet is set. *)
Theorem sync_filter_accepts_the_subscribed index w node :
  filterPeerForSyncSubnet cfg net index w node = true <->
  filterPeer w node = true /\
  exists bitV,
    node_Record node !! SyncCommsSubnetKey net = Some bitV /\
    Z.of_nat (length bitV) = byteCount (int_of_uint64 (SyncCommitteeSubnetCount cfg)) /\
    (index < SyncCommitteeSubnetCount cfg)%N /\
    Bitvector4_BitAt bitV index = true.
Proof.
  unfold filterPeerForSyncSubnet, syncSubnets, syncBitvector.
  destruct (filterPeer w node); cbn [negb]; [| split; [discriminate | by intros [? _]]].
  destruct (node_Record node !! SyncCommsSubnetKey net) as [bitV |];
    [| split; [discriminate | by intros (_ & ? & ? & _)]].
  destruct (Z.eqb_spec (Z.of_nat (length bitV))
              (byteCount (int_of_uint64 (SyncCommitteeSubnetCount cfg)))) as [Hlen | Hlen];
    cbn [negb].
  - rewrite existsb_exists. split.
    + intros (x & Hx & Heq). apply N.eqb_eq in Heq as ->.
      apply list_elem_of_In, elem_of_setBits in Hx as [Hlt Hbit].
      split; [done |]. by exists bitV.
    + intros (_ & bitV' & [= <-] & _ & Hlt & Hbit). exists index.
      split; [| by apply N.eqb_eq]. by apply list_elem_of_In, elem_of_setBits.
  - split; [discriminate |]. by intros (_ & bitV' & [= <-] & Hlen' & _).
Qed.

(** The dials of a batch always return; they only dial and log. *)
Lemma dialNodes_cases nodes s :
  exists w evs,
    dialNodes nodes s =
      (Returns tt,
       {| dv5Listener := dv5Listener s; metaData := metaData s; world := w;
          trace := trace s ++ evs |}) /\
    Forall (withinDialLimits net) evs.
Proof.
  revert s. induction nodes as [| node rest IH]; intros s; cbn [dialNodes].
  - exists (world s), []. rewrite app_nil_r. by destruct s.
  - destruct (convertToAddrInfo node) as [[info |] | err]; [| apply IH ..].
    unfold bind at 1, call at 1.
    destruct (connectWithPeer info (world s)) as [err w1].
    destruct err as [err |].
    + unfold bind at 1, emit at 1. cbn [dv5Listener metaData world trace].
      match goal with |- context [dialNodes rest ?s1] => destruct (IH s1) as (w & evs & -> & Hevs) end.
      cbn [dv5Listener metaData world trace].
      exists w, ([CallConnectWithPeer info; Log "trace" "Could not connect with peer"] ++ evs).
      split; [by rewrite <- !app_assoc |].
      repeat (constructor; [exact I |]). done.
    + unfold bind at 1, ret at 1.
      match goal with |- context [dialNodes rest ?s1] => destruct (IH s1) as (w & evs & -> & Hevs) end.
      cbn [dv5Listener metaData world trace].
      exists w, ([CallConnectWithPeer info] ++ evs).
      split; [by rewrite <- !app_assoc |].
      constructor; [exact I | done].
Qed.

(** The ends of the search loop. *)
Lemma loop_cases fuel topic keep threshold s :
  exists o w evs,
    FindPeersWithSubnet_loop net fuel topic keep threshold s =
      (o,
       {| dv5Listener := dv5Listener s; metaData := metaData s; world := w;
          trace := trace s ++ evs |}) /\
    Forall (withinDialLimits net) evs /\
    (o = OutOfFuel \/
     (o = Returns (true, None) /\
      exists w0 peers,
        ListPeers topic w0 = (peers, w) /\ (threshold <= Z.of_nat (length peers))%Z) \/
     (exists w0 peers err,
        o = Returns (false, Some (notEnoughPeers topic (Z.of_nat (length peers)) threshold)) /\
        ListPeers topic w0 = (peers, w) /\
        (Z.of_nat (length peers) < threshold)%Z /\
        ctx_Err w = Some err)).
Proof.
  revert s. induction fuel as [| fuel IH]; intros s; cbn [FindPeersWithSubnet_loop].
  - exists OutOfFuel, (world s), []. rewrite app_nil_r. split; [by destruct s |]. auto.
  - unfold bind at 1, call at 1.
    destruct (ListPeers topic (world s)) as [peers w1] eqn:Hpeers.
    destruct (Z.leb_spec threshold (Z.of_nat (length peers))) as [Hmet | Hshort].
    { exists (Returns (true, None)), w1, [CallListPeers topic].
      split; [done |]. split; [by repeat constructor |]. right. left. eauto. }
    unfold bind at 1, read at 1. cbn [world].
    destruct (ctx_Err w1) as [err |] eqn:Hctx.
    { exists (Returns (false, Some (notEnoughPeers topic (Z.of_nat (length peers)) threshold))),
        w1, [CallListPeers topic].
      split; [done |]. split; [by repeat constructor |]. right. right. eauto 10. }
    unfold bind at 1, call at 1. cbn [dv5Listener metaData world trace].
    match goal with
    | |- context [ReadNodes keep ?n w1] =>
        set (nodeCount := n); destruct (ReadNodes keep nodeCount w1) as [nodes w2]
    end.
    unfold bind at 1.
    match goal with
    | |- context [dialNodes nodes ?s1] =>
        destruct (dialNodes_cases nodes s1) as (w3 & dials & -> & Hdials)
    end.
    cbn [dv5Listener metaData world trace].
    match goal with
    | |- context [FindPeersWithSubnet_loop net fuel topic keep threshold ?s1] =>
        destruct (IH s1) as (o & w & evs & -> & Hevs & Hcases)
    end.
    cbn [dv5Listener metaData world trace].
    exists o, w, ([CallListPeers topic; CallReadNodes nodeCount] ++ dials ++ evs).
    split; [by rewrite <- !app_assoc |]. split; [| done].
    constructor; [exact I |]. constructor; [| by apply Forall_app].
    subst nodeCount. cbn [withinDialLimits].
    destruct (MaxDialIsActive net); split; try lia; discriminate.
Qed.

(** With a listener, [FindPeersWithSubnet] is the loop between the opening
    and the deferred closing of the iterator. *)
Lemma FindPeersWithSubnet_listening fuel topic index threshold s l :
  dv5Listener s = Some l ->
  FindPeersWithSubnet cfg net fuel topic index threshold s =
  defer (call CallIteratorClose (fun w => (tt, iterator_Close w)))
    (if strings_Contains (String.append topic ProtocolSuffix) (GossipAttestationMessage net)
     then FindPeersWithSubnet_loop net fuel (String.append topic ProtocolSuffix)
            (filterPeerForAttSubnet cfg net index) threshold
     else if strings_Contains (String.append topic ProtocolSuffix)
               (GossipSyncCommitteeMessage net)
     then FindPeersWithSubnet_loop net fuel (String.append topic ProtocolSuffix)
            (filterPeerForSyncSubnet cfg net index) threshold
     else ret (false, Some (errorsNew "no subnet exists for provided topic")))
    {| dv5Listener := dv5Listener s; metaData := metaData s;
       world := RandomNodes (world s); trace := trace s ++ [CallRandomNodes] |}.
Proof.
  intros Hl. unfold FindPeersWithSubnet. unfold bind at 1. rewrite Hl.
  unfold bind at 1, call at 1. cbn beta iota. by rewrite Hl.
Qed.

(** The ends of [FindPeersWithSubnet] on a service with a listener. *)
Lemma FindPeersWithSubnet_cases fuel topic index threshold s l :
  dv5Listener s = Some l ->
  exists o w evs,
    FindPeersWithSubnet cfg net fuel topic index threshold s =
      (o,
       {| dv5Listener := dv5Listener s; metaData := metaData s; world := w;
          trace := trace s ++ [CallRandomNodes] ++ evs ++
                   match o with OutOfFuel => [] | _ => [CallIteratorClose] end |}) /\
    Forall (withinDialLimits net) evs /\
    (o = OutOfFuel \/
     (o = Returns (true, None) /\
      exists w0 peers w1,
        ListPeers (String.append topic ProtocolSuffix) w0 = (peers, w1) /\
        (threshold <= Z.of_nat (length peers))%Z /\ w = iterator_Close w1) \/
     (exists err, o = Returns (false, Some err))).
Proof.
  intros Hl. rewrite (FindPeersWithSubnet_listening _ _ _ _ _ _ Hl).
  set (s1 := {| dv5Listener := dv5Listener s; metaData := metaData s;
                world := RandomNodes (world s); trace := trace s ++ [CallRandomNodes] |}).
  assert (Hloop : forall keep,
            exists o w evs,
              defer (call CallIteratorClose (fun w => (tt, iterator_Close w)))
                (FindPeersWithSubnet_loop net fuel (String.append topic ProtocolSuffix)
                   keep threshold) s1 =
              (o,
               {| dv5Listener := dv5Listener s; metaData := metaData s; world := w;
                  trace := trace s ++ [CallRandomNodes] ++ evs ++
                           match o with OutOfFuel => [] | _ => [CallIteratorClose] end |}) /\
              Forall (withinDialLimits net) evs /\
              (o = OutOfFuel \/
               (o = Returns (true, None) /\
                exists w0 peers w1,
                  ListPeers (String.append topic ProtocolSuffix) w0 = (peers, w1) /\
                  (threshold <= Z.of_nat (length peers))%Z /\ w = iterator_Close w1) \/
               (exists err, o = Returns (false, Some err)))).
  { intros keep.
    destruct (loop_cases fuel (String.append topic ProtocolSuffix) keep threshold s1)
      as (o & w & evs & Hrun & Hevs & Hcases).
    unfold defer. rewrite Hrun.
    destruct Hcases as [-> | [(-> & w0 & peers & Hpeers & Hmet) | (w0 & peers & err & -> & _)]].
    - exists OutOfFuel, w, evs. subst s1. cbn [dv5Listener metaData world trace].
      split; [by rewrite app_nil_r, <- !app_assoc |]. auto.
    - exists (Returns (true, None)), (iterator_Close w), evs.
      subst s1. cbn. split; [by rewrite <- !app_assoc |]. split; [done |].
      right. left. eauto 10.
    - exists (Returns (false, Some (notEnoughPeers (String.append topic ProtocolSuffix)
                                       (Z.of_nat (length peers)) threshold))),
        (iterator_Close w), evs.
      subst s1. cbn. split; [by rewrite <- !app_assoc |]. split; [done |].
      right. right. eauto. }
  destruct (strings_Contains _ (GossipAttestationMessage net)); [apply Hloop |].
  destruct (strings_Contains _ (GossipSyncCommitteeMessage net)); [apply Hloop |].
  exists (Returns (false, Some (errorsNew "no subnet exists for provided topic"))),
    (iterator_Close (RandomNodes (world s))), [].
  subst s1. unfold defer, ret, call. cbn.
  split; [by rewrite <- !app_assoc |]. split; [constructor |]. right. right. eauto.
Qed.

(** X20: without a discovery listener, [FindPeersWithSubnet] returns
    [(false, nil)] at once, for every topic and threshold: it lists no peers
    and leaves the service as it is. *)
Theorem discovery_off_finds_nothing fuel topic index threshold s :
  dv5Listener s = None ->
  FindPeersWithSubnet cfg net fuel topic index threshold s = (Returns (false, None), s).
Proof. intros Hl. unfold FindPeersWithSubnet, bind, ret. by rewrite Hl. Qed.

(** X21: a topic that, with the protocol suffix, is neither an attestation
    nor a sync-committee topic is an error: the iterator is opened and
    closed again, and no peers are listed. *)
Theorem unknown_topic_is_an_error fuel topic index threshold s l :
  dv5Listener s = Some l ->
  strings_Contains (String.append topic ProtocolSuffix) (GossipAttestationMessage net) = false ->
  strings_Contains (String.append topic ProtocolSuffix) (GossipSyncCommitteeMessage net) = false ->
  FindPeersWithSubnet cfg net fuel topic index threshold s =
  (Returns (false, Some (errorsNew "no subnet exists for provided topic")),
   {| dv5Listener := dv5Listener s;
      metaData := metaData s;
      world := iterator_Close (RandomNodes (world s));
      trace := trace s ++ [CallRandomNodes; CallIteratorClose] |}).
Proof.
  intros Hl Hatt Hsync. rewrite (FindPeersWithSubnet_listening _ _ _ _ _ _ Hl).
  rewrite Hatt, Hsync. unfold defer, ret, call. cbn. by rewrite <- !app_assoc.
Qed.

(** X22: when the peers listed fall short of the threshold and the context
    has ended, the search returns [false] with an error that names the
    suffixed topic, the number of peers found and the threshold; it reads no
    node from the iterator and dials nobody. *)
Theorem cancelled_search_reports_the_count fuel topic index threshold s l peers w err :
  dv5Listener s = Some l ->
  strings_Contains (String.append topic ProtocolSuffix) (GossipAttestationMessage net) = true \/
  strings_Contains (String.append topic ProtocolSuffix) (GossipSyncCommitteeMessage net) = true ->
  ListPeers (String.append topic ProtocolSuffix) (RandomNodes (world s)) = (peers, w) ->
  (Z.of_nat (length peers) < threshold)%Z ->
  ctx_Err w = Some err ->
  FindPeersWithSubnet cfg net (S fuel) topic index threshold s =
  (Returns (false,
            Some (notEnoughPeers (String.append topic ProtocolSuffix)
                    (Z.of_nat (length peers)) threshold)),
   {| dv5Listener := dv5Listener s;
      metaData := metaData s;
      world := iterator_Close w;
      trace := trace s ++
               [CallRandomNodes;
                CallListPeers (String.append topic ProtocolSuffix);
                CallIteratorClose] |}).
Proof.
  intros Hl Htopic Hpeers Hshort Hctx.
  rewrite (FindPeersWithSubnet_listening _ _ _ _ _ _ Hl).
  set (s1 := {| dv5Listener := dv5Listener s; metaData := metaData s;
                world := RandomNodes (world s); trace := trace s ++ [CallRandomNodes] |}).
  assert (Hloop : forall keep,
            FindPeersWithSubnet_loop net (S fuel) (String.append topic ProtocolSuffix)
              keep threshold s1 =
            (Returns (false,
                      Some (notEnoughPeers (String.append topic ProtocolSuffix)
                              (Z.of_nat (length peers)) threshold)),
             {| dv5Listener := dv5Listener s; metaData := metaData s; world := w;
                trace := (trace s ++ [CallRandomNodes]) ++
                         [CallListPeers (String.append topic ProtocolSuffix)] |})).
  { intros keep. cbn [FindPeersWithSubnet_loop]. unfold bind, call, read. subst s1.
    cbn [world dv5Listener metaData trace]. rewrite Hpeers.
    rewrite (proj2 (Z.leb_gt _ _) Hshort). cbn [world]. by rewrite Hctx. }
  destruct (strings_Contains _ (GossipAttestationMessage net)) eqn:Hatt.
  - rewrite (defer_returns _ _ _ _ _ (Hloop _)). unfold call. cbn.
    by rewrite <- !app_assoc.
  - destruct Htopic as [? | Hsync]; [discriminate |]. rewrite Hsync.
    rewrite (defer_returns _ _ _ _ _ (Hloop _)). unfold call. cbn.
    by rewrite <- !app_assoc.
Qed.

(** X23: [FindPeersWithSubnet] answers [true] only without an error and only
    right after pubsub listed at least [threshold] peers for the suffixed
    topic; the world it leaves is that listing's, with the iterator closed. *)
Theorem true_answer_means_threshold_met fuel topic index threshold s e s' :
  FindPeersWithSubnet cfg net fuel topic index threshold s = (Returns (true, e), s') ->
  e = None /\
  exists w0 peers w,
    ListPeers (String.append topic ProtocolSuffix) w0 = (peers, w) /\
    (threshold <= Z.of_nat (length peers))%Z /\
    world s' = iterator_Close w.
Proof.
  destruct (dv5Listener s) as [l |] eqn:Hl.
  - destruct (FindPeersWithSubnet_cases fuel topic index threshold s l Hl)
      as (o & w & evs & -> & _ & Hcases).
    intros [= -> <-].
    destruct Hcases as [? | [([= <-] & w0 & peers & w1 & Hpeers & Hmet & ->) | (err & ?)]];
      [discriminate | | discriminate].
    split; [done |]. eauto 10.
  - unfold FindPeersWithSubnet, bind, ret. rewrite Hl. discriminate.
Qed.

(** X24: on a service with a listener, whenever [FindPeersWithSubnet]
    returns, it opened the iterator once, first, and closed it once, last;
    and every batch it read in between asked for at most
    [MinimumPeersInSubnetSearch] nodes and, with the dial limit active, for
    at most [MaxConcurrentDials]. *)
Theorem iterator_closed_and_batches_bounded fuel topic index threshold s l r s' :
  dv5Listener s = Some l ->
  FindPeersWithSubnet cfg net fuel topic index threshold s = (Returns r, s') ->
  exists evs,
    trace s' = trace s ++ [CallRandomNodes] ++ evs ++ [CallIteratorClose] /\
    Forall (withinDialLimits net) evs.
Proof.
  intros Hl.
  destruct (FindPeersWithSubnet_cases fuel topic index threshold s l Hl)
    as (o & w & evs & -> & Hevs & _).
  intros [= -> <-]. by exists evs.
Qed.

End Search.

(** *** The record and the metadata *)

Section Records.
Context (net : NetworkConfig) {carrier : Carrier}.

(** X26: [updateSubnetRecordWithMetadata] writes the attestation entry of
    the local record only, and replaces the metadata by a V0 metadata with
    the bitfield given and the next sequence number: the sync-committee
    bitfield of a V1 metadata is dropped, while the record keeps its
    sync-committee entry. *)
Theorem metadata_v0_update_drops_syncnets s l bitV :
  dv5Listener s = Some l ->
  exists l',
    updateSubnetRecordWithMetadata net bitV s =
      (Returns tt,
       {| dv5Listener := Some l';
          metaData := WrappedMetadataV0
                        {| v0_SeqNumber := uint64_add (SequenceNumber (metaData s)) 1;
                           v0_Attnets := bitV |};
          world := world s;
          trace := trace s |}) /\
    attBitvector net (LocalNode l') = Ok bitV /\
    (forall key, key <> AttSubnetKey net -> LocalNode l' !! key = LocalNode l !! key).
Proof.
  intros Hl. unfold updateSubnetRecordWithMetadata. rewrite Hl.
  eexists. split; [reflexivity |]. cbn. unfold attBitvector.
  split; [by rewrite lookup_insert_eq |].
  intros key Hatt. by rewrite lookup_insert_ne.
Qed.

(** X27: unlike [FindPeersWithSubnet], the two record updates do not test
    the listener: without one they panic on the nil listener, before the
    metadata is touched. *)
Theorem record_update_without_listener_panics s bitVAtt bitVSync :
  dv5Listener s = None ->
  updateSubnetRecordWithMetadata net bitVAtt s = (Panics "nil pointer dereference", s) /\
  updateSubnetRecordWithMetadataV2 net bitVAtt bitVSync s =
    (Panics "nil pointer dereference", s).
Proof.
  intros Hl. unfold updateSubnetRecordWithMetadata, updateSubnetRecordWithMetadataV2.
  by rewrite Hl.
Qed.

End Records.

(** *** The expiration of an assignment *)

Section Expiration.
Context (cfg : BeaconChainConfig) {crypto : Crypto} {slotTime : SlotTime}.

Lemma int64_wrap_small z : (0 <= z < 2 ^ 63)%Z -> int64_wrap z = z.
Proof. intros Hz. unfold int64_wrap. rewrite Z.mod_small by lia. lia. Qed.

Lemma int_of_uint64_small n : (n < 2 ^ 63)%N -> int_of_uint64 n = Z.of_N n.
Proof.
  intros Hn. unfold int_of_uint64, Uint64, uint64_modulus.
  rewrite N.mod_small by lia.
  destruct (Z.ltb_spec (Z.of_N n) (2 ^ 63)) as [_ | Hge]; [done | lia].
Qed.

(** The epochs left in the window of [epoch], as the code computes them. *)
Lemma expiration_value nodeID epoch seconds :
  (0 < EpochsPerSubnetSubscription cfg)%N ->
  (uint256_SetBytes nodeID mod EpochsPerSubnetSubscription cfg + epoch < 2 ^ 64)%N ->
  Slot_Mul SlotsPerEpoch SecondsPerSlot = Returns seconds ->
  (0 < seconds)%N ->
  (Z.of_N (EpochsPerSubnetSubscription cfg) * Z.of_N seconds * time_Second < 2 ^ 63)%Z ->
  let window := EpochsPerSubnetSubscription cfg in
  let past := ((uint256_SetBytes nodeID mod window + epoch) mod window)%N in
  computeSubscriptionExpirationTime cfg nodeID epoch =
  Returns (Z.of_N (window - past) * Z.of_N seconds * time_Second)%Z.
Proof.
  intros Hpos Hsum Hmul Hseconds Hbound window past.
  assert (Hwindow : (window < 2 ^ 63)%N).
  { unfold time_Second in Hbound. subst window. nia. }
  assert (Hoffset : fst (computeOffsetAndPrefix cfg nodeID) =
                    (uint256_SetBytes nodeID mod window)%N).
  { apply nodeOffset_is_remainder. subst window. lia. }
  unfold computeSubscriptionExpirationTime.
  destruct (computeOffsetAndPrefix cfg nodeID) as [nodeOffset nodeIdPrefix].
  cbn [fst] in Hoffset. subst nodeOffset.
  rewrite (proj2 (N.eqb_neq _ _)) by lia. rewrite Hmul.
  fold window. unfold uint64_add, uint64_modulus.
  rewrite (N.mod_small (_ + epoch)) by (subst window; lia). fold past.
  assert (Hpast : (past < window)%N) by (apply N.mod_lt; subst window; lia).
  assert (Hrem : uint64_sub window past = (window - past)%N).
  { unfold uint64_sub, uint64_modulus.
    rewrite (N.mod_small window), (N.mod_small past) by lia.
    replace (window + 2 ^ 64 - past)%N with ((window - past) + 1 * 2 ^ 64)%N by lia.
    rewrite N.Div0.mod_add. apply N.mod_small. lia. }
  rewrite Hrem.
  assert (Hsec : (seconds < 2 ^ 63)%N).
  { unfold time_Second in Hbound. subst window. nia. }
  rewrite (int_of_uint64_small (window - past)) by lia.
  rewrite (int_of_uint64_small seconds) by lia.
  unfold int64_mul. unfold time_Second in *.
  rewrite (int64_wrap_small (Z.of_N (window - past) * Z.of_N seconds)) by (subst window; nia).
  rewrite int64_wrap_small by (subst window; nia).
  reflexivity.
Qed.

(** X28: with a window that is not zero, sums and products that do not
    overflow and a positive epoch duration, the expiration time is the time
    of the epochs left in the window of [node_offset + epoch]: between one
    epoch and a whole window, and ending where the next window starts. *)
Theorem expiration_is_the_rest_of_the_window nodeID epoch seconds :
  (0 < EpochsPerSubnetSubscription cfg)%N ->
  (uint256_SetBytes nodeID mod EpochsPerSubnetSubscription cfg + epoch < 2 ^ 64)%N ->
  Slot_Mul SlotsPerEpoch SecondsPerSlot = Returns seconds ->
  (0 < seconds)%N ->
  (Z.of_N (EpochsPerSubnetSubscription cfg) * Z.of_N seconds * time_Second < 2 ^ 63)%Z ->
  exists remEpochs,
    computeSubscriptionExpirationTime cfg nodeID epoch =
      Returns (Z.of_N remEpochs * Z.of_N seconds * time_Second)%Z /\
    (1 <= remEpochs <= EpochsPerSubnetSubscription cfg)%N /\
    ((uint256_SetBytes nodeID mod EpochsPerSubnetSubscription cfg + epoch + remEpochs)
       mod EpochsPerSubnetSubscription cfg = 0)%N.
Proof.
  intros Hpos Hsum Hmul Hseconds Hbound.
  pose proof (expiration_value nodeID epoch seconds Hpos Hsum Hmul Hseconds Hbound) as Hvalue.
  cbv zeta in Hvalue.
  set (window := EpochsPerSubnetSubscription cfg) in *.
  set (x := (uint256_SetBytes nodeID mod window + epoch)%N) in *.
  assert (Hpast : (x mod window < window)%N) by (apply N.mod_lt; lia).
  exists (window - x mod window)%N. split; [exact Hvalue |].
  pose proof (N.Div0.div_mod x window) as Hdiv.
  set (past := (x mod window)%N) in *. set (windows := (x / window)%N) in *.
  clearbody past windows. split; [lia |].
  replace (x + (window - past))%N with (0 + (windows + 1) * window)%N by lia.
  rewrite N.Div0.mod_add. by apply N.Div0.mod_0_l.
Qed.

(** X29: the assignment holds until it expires: under the conditions of
    X28, an epoch that starts before the expiration time computed at [epoch]
    has passed gets the subnets of [epoch]. *)
Theorem assignment_holds_until_expiration nodeID epoch later seconds expires :
  (0 < EpochsPerSubnetSubscription cfg < 2 ^ 64)%N ->
  (uint256_SetBytes nodeID mod EpochsPerSubnetSubscription cfg + later < 2 ^ 64)%N ->
  Slot_Mul SlotsPerEpoch SecondsPerSlot = Returns seconds ->
  (0 < seconds)%N ->
  (Z.of_N (EpochsPerSubnetSubscription cfg) * Z.of_N seconds * time_Second < 2 ^ 63)%Z ->
  computeSubscriptionExpirationTime cfg nodeID epoch = Returns expires ->
  (epoch <= later)%N ->
  (Z.of_N (later - epoch) * Z.of_N seconds * time_Second < expires)%Z ->
  computeSubscribedSubnets cfg nodeID later = computeSubscribedSubnets cfg nodeID epoch.
Proof.
  intros [Hpos Hwindow] Hsum Hmul Hseconds Hbound Hexpires Hle Hbefore.
  assert (Hsum' : (uint256_SetBytes nodeID mod EpochsPerSubnetSubscription cfg + epoch
                   < 2 ^ 64)%N) by lia.
  pose proof (expiration_value nodeID epoch seconds Hpos Hsum' Hmul Hseconds Hbound) as Hvalue.
  cbv zeta in Hvalue. rewrite Hvalue in Hexpires. injection Hexpires as <-.
  set (window := EpochsPerSubnetSubscription cfg) in *.
  set (offset := (uint256_SetBytes nodeID mod window)%N) in *.
  assert (Hpast : ((offset + epoch) mod window < window)%N) by (apply N.mod_lt; lia).
  assert (Hrem : (later - epoch < window - (offset + epoch) mod window)%N).
  { unfold time_Second in Hbefore.
    set (rem := (window - (offset + epoch) mod window)%N) in *.
    set (gap := (later - epoch)%N) in *. clearbody rem gap. nia. }
  unfold computeSubscribedSubnets.
  apply computeSubscribedSubnets_loop_same_seed. intros index.
  apply computeSubscribedSubnet_same_seed.
  rewrite (nodeOffset_is_remainder cfg nodeID (conj Hpos Hwindow)).
  fold window offset. unfold uint64_add, uint64_modulus.
  rewrite (N.mod_small (offset + later)), (N.mod_small (offset + epoch)) by lia.
  pose proof (N.Div0.div_mod (offset + epoch) window) as Hdiv.
  set (past := ((offset + epoch) mod window)%N) in *.
  set (windows := ((offset + epoch) / window)%N) in *.
  clearbody past windows.
  symmetry.
  apply (N.div_unique _ _ _ (offset + later - window * windows)); [nia | nia].
Qed.

End Expiration.

(** *** The subnet locks *)

Section Locker.

Lemma subnetLocker_stores i s :
  subnetsLock (snd (subnetLocker i s)) !! i = Some (fst (subnetLocker i s)).
Proof.
  unfold subnetLocker. destruct (subnetsLock s !! i) as [l |] eqn:Hi; cbn; [done |].
  by rewrite lookup_insert_eq.
Qed.

Lemma subnetLocker_keeps_apart i s :
  locksApart s -> locksApart (snd (subnetLocker i s)).
Proof.
  intros [Hbelow Hinj]. unfold subnetLocker.
  destruct (subnetsLock s !! i) as [l |] eqn:Hi; cbn; [done |].
  split; cbn.
  - intros j l. destruct (decide (i = j)) as [<- | Hne].
    + rewrite lookup_insert_eq. intros [= <-]. lia.
    + rewrite lookup_insert_ne by done. intros Hj. specialize (Hbelow _ _ Hj). lia.
  - intros j k l.
    destruct (decide (i = j)) as [<- | Hj]; destruct (decide (i = k)) as [<- | Hk];
      rewrite ?lookup_insert_eq, ?lookup_insert_ne by done; try done.
    + intros [= <-] Hk'. specialize (Hbelow _ _ Hk'). lia.
    + intros Hj' [= <-]. specialize (Hbelow _ _ Hj'). lia.
    + apply Hinj.
Qed.

(** X30: [subnetLocker] hands out one lock per key: starting from locks that
    are apart, two calls return the same lock exactly when their keys are
    the same, a call for a key that has its lock changes nothing, and the
    locks stay apart. *)
Theorem one_lock_per_key i j s :
  locksApart s ->
  let '(l1, s1) := subnetLocker i s in
  let '(l2, s2) := subnetLocker j s1 in
  (l1 = l2 <-> i = j) /\
  (i = j -> s2 = s1) /\
  locksApart s2.
Proof.
  intros Hs.
  pose proof (subnetLocker_stores i s) as Hi.
  pose proof (subnetLocker_keeps_apart i s Hs) as Hs1.
  destruct (subnetLocker i s) as [l1 s1]. cbn [fst snd] in Hi, Hs1.
  pose proof (subnetLocker_stores j s1) as Hj.
  pose proof (subnetLocker_keeps_apart j s1 Hs1) as Hs2.
  assert (Hkept : subnetsLock (snd (subnetLocker j s1)) !! i = Some l1).
  { unfold subnetLocker. destruct (subnetsLock s1 !! j) as [l |] eqn:Hj1; cbn; [done |].
    rewrite lookup_insert_ne; [done |]. intros ->. congruence. }
  assert (Hsame : i = j -> snd (subnetLocker j s1) = s1).
  { intros <-. unfold subnetLocker. by rewrite Hi. }
  destruct (subnetLocker j s1) as [l2 s2]. cbn [fst snd] in Hj, Hs2, Hkept, Hsame.
  split; [| done]. split.
  - intros <-. destruct Hs2 as [_ Hinj]. by apply (Hinj i j l1).
  - intros <-. congruence.
Qed.

End Locker.

(** *** Runs on the scripted network *)

Import scripted_net.

(** Two entries of an assignment may coincide. *)
Example duplicates_are_possible :
  computeSubscribedSubnets
    {| AttestationSubnetCount := 1; SyncCommitteeSubnetCount := 4; SubnetsPerNode := 2;
       EpochsPerSubnetSubscription := 256; NodeIdBits := 256;
       AttestationSubnetPrefixBits := 6 |}
    nodeId 12345 = Returns (Ok [0; 0]%N).
Proof. reflexivity. Qed.

(** The assignment of [nodeId] at epoch 12345 under the mainnet constants and
    the stand-in hash and shuffle. *)
Lemma subscribed_subnets_count_and_range_witness :
  computeSubscribedSubnets mainnet nodeId 12345 = Returns (Ok [48; 49]%N) /\
  length [48; 49]%N = N.to_nat (SubnetsPerNode mainnet) /\
  Forall (fun sub => (0 <= sub < AttestationSubnetCount mainnet)%N) [48; 49]%N.
Proof.
  split; [reflexivity |].
  exact (subscribed_subnets_count_and_range mainnet nodeId 12345 [48; 49]%N eq_refl).
Defined.

(** The offset of [nodeId] in the mainnet window of 256 epochs is 1, so
    epochs 255 and 256 share a window: the sums 256 and 257 have the quotient
    1 (the epochs themselves have the quotients 0 and 1). *)
Lemma assignment_stable_within_window_witness :
  (bigEndian nodeId mod EpochsPerSubnetSubscription mainnet = 1)%N /\
  computeSubscribedSubnets mainnet nodeId 255 = computeSubscribedSubnets mainnet nodeId 256.
Proof.
  split; [vm_compute; reflexivity |].
  apply (assignment_stable_within_window mainnet nodeId 255 256);
    [split; vm_compute; reflexivity | left; vm_compute; reflexivity
    | vm_compute; reflexivity].
Defined.

(** A window of 3 epochs, which does not divide [2^64], and a node id with
    the offset 2: the sums with the epochs [2^64 - 3] and [2^64 - 2] are
    [2^64 - 1] and [2^64], which have the same quotient by 3, but the second
    sum wraps around to 0 in the code and the subnets differ. *)
Lemma assignment_changes_when_sum_wraps :
  (bigEndian nodeTwo mod EpochsPerSubnetSubscription narrowWindow = 2)%N /\
  ((2 + (2 ^ 64 - 3)) / EpochsPerSubnetSubscription narrowWindow =
   (2 + (2 ^ 64 - 2)) / EpochsPerSubnetSubscription narrowWindow)%N /\
  computeSubscribedSubnets narrowWindow nodeTwo (2 ^ 64 - 3) = Returns (Ok [21; 22]%N) /\
  computeSubscribedSubnets narrowWindow nodeTwo (2 ^ 64 - 2) = Returns (Ok [0; 1]%N).
Proof. repeat apply conj; vm_compute; reflexivity. Qed.

(** An update from sequence number 5. *)
Lemma metadata_update_increments_sequence_witness :
  exists s1,
    updateSubnetRecordWithMetadataV2 mainnetNetwork (repeat xff 8) [x0f] (service [] [])
      = (Returns tt, s1) /\
    metaData s1 =
      WrappedMetadataV1
        {| v1_SeqNumber := uint64_add 5 1; v1_Attnets := repeat xff 8; v1_Syncnets := [x0f] |} /\
    ((5 < 2 ^ 64 - 1)%N -> SequenceNumber (metaData s1) = (5 + 1)%N) /\
    forall bitVAtt' bitVSync',
    exists s2,
      updateSubnetRecordWithMetadataV2 mainnetNetwork bitVAtt' bitVSync' s1 = (Returns tt, s2) /\
      metaData s2 =
        WrappedMetadataV1
          {| v1_SeqNumber := uint64_add (SequenceNumber (metaData s1)) 1;
             v1_Attnets := bitVAtt';
             v1_Syncnets := bitVSync' |} /\
      ((5 < 2 ^ 64 - 2)%N ->
       SequenceNumber (metaData s2) = (SequenceNumber (metaData s1) + 1)%N).
Proof.
  exact (metadata_update_increments_sequence mainnetNetwork (service [] [])
           {| LocalNode := ∅ |} (repeat xff 8) [x0f] eq_refl).
Defined.

(** Four peers are listed for the topic and four are wanted; a candidate is
    at hand and is not dialled. *)
Lemma threshold_met_returns_without_dialing_witness :
  FindPeersWithSubnet mainnet mainnetNetwork 1 "beacon_attestation_7" 7 4
    (service [1; 2; 3; 4]%N [candidate x05]) =
  (Returns (true, None),
   {| dv5Listener := Some {| LocalNode := ∅ |};
      metaData := metaData (service [1; 2; 3; 4]%N [candidate x05]);
      world := world (service [1; 2; 3; 4]%N [candidate x05]);
      trace := [] ++ [CallRandomNodes; CallListPeers "beacon_attestation_7/ssz_snappy";
                      CallIteratorClose] |}).
Proof.
  exact (threshold_met_returns_without_dialing mainnet mainnetNetwork 0 "beacon_attestation_7"
           7 4 (service [1; 2; 3; 4]%N [candidate x05]) {| LocalNode := ∅ |} [1; 2; 3; 4]%N _
           eq_refl (or_introl eq_refl) eq_refl ltac:(simpl; lia)).
Defined.

(** *** Further runs on the scripted network *)

(** The record of a candidate that advertises attestation subnet 7. *)
Lemma attSubnets_holds_the_set_bits_witness :
  exists bitV,
    node_Record (candidate x05) !! AttSubnetKey mainnetNetwork = Some bitV /\
    Z.of_nat (length bitV) = byteCount (int_of_uint64 (AttestationSubnetCount mainnet)) /\
    forall i,
      ({[ 7%N := true ]} : gmap N bool) !! i =
      if (i <? AttestationSubnetCount mainnet)%N && Bitvector64_BitAt bitV i
      then Some true else None.
Proof.
  apply (attSubnets_holds_the_set_bits mainnet mainnetNetwork (node_Record (candidate x05))).
  vm_compute. reflexivity.
Defined.

(** The record of a candidate that advertises the sync-committee subnets 0
    and 2. *)
Lemma syncSubnets_lists_the_set_bits_in_order_witness :
  exists bitV,
    node_Record syncCandidate !! SyncCommsSubnetKey mainnetNetwork = Some bitV /\
    Z.of_nat (length bitV) = byteCount (int_of_uint64 (SyncCommitteeSubnetCount mainnet)) /\
    StronglySorted N.lt [0; 2]%N /\
    forall i, i ∈ [0; 2]%N <->
              (i < SyncCommitteeSubnetCount mainnet)%N /\ Bitvector4_BitAt bitV i = true.
Proof.
  apply (syncSubnets_lists_the_set_bits_in_order mainnet mainnetNetwork
           (node_Record syncCandidate)).
  vm_compute. reflexivity.
Defined.

(** A search on a service without discovery. *)
Lemma discovery_off_finds_nothing_witness :
  FindPeersWithSubnet mainnet mainnetNetwork 1 "beacon_attestation_7" 7 4 offline =
  (Returns (false, None), offline).
Proof.
  exact (discovery_off_finds_nothing mainnet mainnetNetwork 1 "beacon_attestation_7" 7 4
           offline eq_refl).
Defined.

(** A search for a topic that names no subnet. *)
Lemma unknown_topic_is_an_error_witness :
  FindPeersWithSubnet mainnet mainnetNetwork 1 "voluntary_exit" 7 4 (service [] []) =
  (Returns (false, Some (errorsNew "no subnet exists for provided topic")),
   {| dv5Listener := Some {| LocalNode := ∅ |};
      metaData := metaData (service [] []);
      world := world (service [] []);
      trace := [] ++ [CallRandomNodes; CallIteratorClose] |}).
Proof.
  exact (unknown_topic_is_an_error mainnet mainnetNetwork 1 "voluntary_exit" 7 4
           (service [] []) {| LocalNode := ∅ |} eq_refl eq_refl eq_refl).
Defined.

(** One peer is listed, four are wanted and the context is cancelled. *)
Lemma cancelled_search_reports_the_count_witness :
  FindPeersWithSubnet mainnet mainnetNetwork 1 "beacon_attestation_7" 7 4
    (cancelledService [1%N]) =
  (Returns (false, Some (notEnoughPeers "beacon_attestation_7/ssz_snappy" 1 4)),
   {| dv5Listener := Some {| LocalNode := ∅ |};
      metaData := metaData (cancelledService [1%N]);
      world := world (cancelledService [1%N]);
      trace := [] ++ [CallRandomNodes; CallListPeers "beacon_attestation_7/ssz_snappy";
                      CallIteratorClose] |}).
Proof.
  exact (cancelled_search_reports_the_count mainnet mainnetNetwork 0 "beacon_attestation_7"
           7 4 (cancelledService [1%N]) {| LocalNode := ∅ |} [1%N] _
           (collaboratorError "context canceled")
           eq_refl (or_introl eq_refl) eq_refl ltac:(simpl; lia) eq_refl).
Defined.

(** Two peers are listed and four are wanted; the two candidates are dialled
    and the next listing has four peers. *)
Lemma true_answer_means_threshold_met_witness :
  fst (FindPeersWithSubnet mainnet mainnetNetwork 3 "beacon_attestation_7" 7 4
         (service [1; 2]%N [candidate x05; candidate x06])) = Returns (true, None) /\
  @None error = None /\
  exists w0 peers w,
    ListPeers (String.append "beacon_attestation_7" ProtocolSuffix) w0 = (peers, w) /\
    (4 <= Z.of_nat (length peers))%Z /\
    world (snd (FindPeersWithSubnet mainnet mainnetNetwork 3 "beacon_attestation_7" 7 4
                  (service [1; 2]%N [candidate x05; candidate x06]))) = iterator_Close w.
Proof.
  split; [vm_compute; reflexivity |].
  apply (true_answer_means_threshold_met mainnet mainnetNetwork 3 "beacon_attestation_7" 7 4
           (service [1; 2]%N [candidate x05; candidate x06]) None
           (snd (FindPeersWithSubnet mainnet mainnetNetwork 3 "beacon_attestation_7" 7 4
                   (service [1; 2]%N [candidate x05; candidate x06])))).
  vm_compute. reflexivity.
Defined.

(** The same search: one batch of at most twenty nodes between the opening
    and the closing of the iterator. *)
Lemma iterator_closed_and_batches_bounded_witness :
  exists evs,
    trace (snd (FindPeersWithSubnet mainnet mainnetNetwork 3 "beacon_attestation_7" 7 4
                  (service [1; 2]%N [candidate x05; candidate x06]))) =
      [] ++ [CallRandomNodes] ++ evs ++ [CallIteratorClose] /\
    Forall (withinDialLimits mainnetNetwork) evs.
Proof.
  apply (iterator_closed_and_batches_bounded mainnet mainnetNetwork 3 "beacon_attestation_7"
           7 4 (service [1; 2]%N [candidate x05; candidate x06]) {| LocalNode := ∅ |}
           (true, None));
    [reflexivity | vm_compute; reflexivity].
Defined.

(** A V0 update of a service whose metadata is a V1 metadata. *)
Lemma metadata_v0_update_drops_syncnets_witness :
  exists l',
    updateSubnetRecordWithMetadata mainnetNetwork (repeat xff 8) (service [] []) =
      (Returns tt,
       {| dv5Listener := Some l';
          metaData := WrappedMetadataV0
                        {| v0_SeqNumber := uint64_add 5 1; v0_Attnets := repeat xff 8 |};
          world := world (service [] []);
          trace := [] |}) /\
    attBitvector mainnetNetwork (LocalNode l') = Ok (repeat xff 8) /\
    (forall key, key <> AttSubnetKey mainnetNetwork ->
                 LocalNode l' !! key = (∅ : Record_) !! key).
Proof.
  exact (metadata_v0_update_drops_syncnets mainnetNetwork (service [] [])
           {| LocalNode := ∅ |} (repeat xff 8) eq_refl).
Defined.

(** The two updates on a service without discovery. *)
Lemma record_update_without_listener_panics_witness :
  updateSubnetRecordWithMetadata mainnetNetwork (repeat xff 8) offline =
    (Panics "nil pointer dereference", offline) /\
  updateSubnetRecordWithMetadataV2 mainnetNetwork (repeat xff 8) [x0f] offline =
    (Panics "nil pointer dereference", offline).
Proof.
  exact (record_update_without_listener_panics mainnetNetwork offline (repeat xff 8) [x0f]
           eq_refl).
Defined.

(** [nodeId] at epoch 12345 under the mainnet constants: epochs of 384
    seconds. *)
Lemma expiration_is_the_rest_of_the_window_witness :
  exists remEpochs,
    computeSubscriptionExpirationTime mainnet nodeId 12345 =
      Returns (Z.of_N remEpochs * Z.of_N 384 * time_Second)%Z /\
    (1 <= remEpochs <= EpochsPerSubnetSubscription mainnet)%N /\
    ((uint256_SetBytes nodeId mod EpochsPerSubnetSubscription mainnet + 12345 + remEpochs)
       mod EpochsPerSubnetSubscription mainnet = 0)%N.
Proof.
  apply (expiration_is_the_rest_of_the_window mainnet nodeId 12345 384);
    vm_compute; reflexivity.
Defined.

(** Epoch 12346 starts 384 seconds after epoch 12345, before the assignment
    of epoch 12345 expires. *)
Lemma assignment_holds_until_expiration_witness :
  computeSubscriptionExpirationTime mainnet nodeId 12345 = Returns 76032000000000%Z /\
  computeSubscribedSubnets mainnet nodeId 12346 = computeSubscribedSubnets mainnet nodeId 12345.
Proof.
  split; [vm_compute; reflexivity |].
  apply (assignment_holds_until_expiration mainnet nodeId 12345 12346 384 76032000000000%Z);
    try split; vm_compute; solve [reflexivity | discriminate].
Defined.

(** The locks of attestation subnet 3 and of sync-committee subnet 3. *)
Lemma one_lock_per_key_witness :
  let '(l1, s1) := subnetLocker 3 noLocks in
  let '(l2, s2) := subnetLocker (3 + syncLockerVal) s1 in
  (l1 = l2 <-> 3%N = (3 + syncLockerVal)%N) /\
  ((3%N = (3 + syncLockerVal)%N) -> s2 = s1) /\
  locksApart s2.
Proof.
  apply (one_lock_per_key 3 (3 + syncLockerVal) noLocks).
  split; intros *; cbn; rewrite lookup_empty; discriminate.
Defined.


End subnets.
